(** * RideLink: the ride-app registry and the deep-link dispatch

    A shallow embedding of the two hook modules that form the dispatch core
    of the application:

    - [useAppManager] (the provider registry: compiled-in catalogue,
      persisted enable/disable overrides, change notifications);
    - [useRideApps]   (the deep-link builder [createDeepLink] and the launch
      sequence [openRideApp]);

    together with the UI handler [handleRideAppPress] of the home screen,
    which validates a route before it dispatches; and of the code around
    them: the hooks of the favourite places and routes ([useFavorites],
    [useRouteFavorites]), the saved language of [LanguageContext], the
    reset button of [AppManagerModal], the buttons of the home screen and
    the hand-over from a favourite to the home screen.

    Conventions of the embedding
    - a JavaScript string is a [string]: the bytes of its UTF-8 encoding
      (so every string of the model is a well-formed one, on which
      [encodeURIComponent] does not raise);
    - a JavaScript number is a binary64 value ([spec_float] at precision 53),
      printed by [Number_toString] as ECMAScript prescribes;
    - an asynchronous function is a computation in a state-and-exception
      monad; each call into the platform is answered by the environment
      record and leaves an event in the call log;
    - [console.log] and friends are not recorded. *)

From Stdlib Require Import ZArith List String Ascii Bool Lia DecimalString.
From Stdlib Require Import Floats.SpecFloat.
From stdpp Require Import base option strings list gmap.
Import ListNotations.

Local Open Scope string_scope.

(* ===================================================================== *)
(** * The JavaScript runtime, as far as the hooks use it                  *)
(* ===================================================================== *)

Module JS.

(** ** Errors and results of a call that may raise *)

Inductive Error : Type :=
| SyntaxError            (* JSON.parse on malformed text *)
| TypeError              (* property access on null, call of a non-function *)
| StorageError           (* AsyncStorage rejected the promise *)
| LinkingError           (* Linking / WebBrowser rejected the promise *).

Inductive Res (A : Type) : Type :=
| Ok (a : A)
| Throw (e : Error).
Arguments Ok {A} a.
Arguments Throw {A} e.

(** ** Strings *)

Definition code (c : ascii) : nat := nat_of_ascii c.

Definition between (lo hi n : nat) : bool := (lo <=? n)%nat && (n <=? hi)%nat.

Definition isDigit (c : ascii) : bool := between 48 57 (code c).
Definition isUpper (c : ascii) : bool := between 65 90 (code c).
Definition isLower (c : ascii) : bool := between 97 122 (code c).
Definition isAlnum (c : ascii) : bool := isDigit c || isUpper c || isLower c.

Definition hexDigit (n : nat) : ascii :=
  nth n (list_ascii_of_string "0123456789ABCDEF") "0"%char.

(** [%XY] for one byte, upper-case hexadecimal. *)
Definition percentByte (c : ascii) : string :=
  String "%" (String (hexDigit (code c / 16))
             (String (hexDigit (code c mod 16)) EmptyString)).

Definition inString (c : ascii) (set : string) : bool :=
  existsb (Ascii.eqb c) (list_ascii_of_string set).

(** The characters [encodeURIComponent] leaves alone: ASCII letters, digits
    and [- _ . ! ~ * ' ( )]. *)
Definition uriUnreserved (c : ascii) : bool :=
  isAlnum c || inString c "-_.!~*'()".

(** [encodeURIComponent]: every byte of the UTF-8 encoding that is not
    unreserved becomes [%XY]. *)
Fixpoint encodeURIComponent (s : string) : string :=
  match s with
  | EmptyString => EmptyString
  | String c r =>
      (if uriUnreserved c then String c EmptyString else percentByte c)
        ++ encodeURIComponent r
  end.

(** The [application/x-www-form-urlencoded] byte serializer used by
    [URLSearchParams.prototype.toString]: a space becomes [+], letters,
    digits and [* - . _] stay, every other byte becomes [%XY]. *)
Definition formByte (c : ascii) : string :=
  if Ascii.eqb c " " then "+"
  else if isAlnum c || inString c "*-._" then String c EmptyString
  else percentByte c.

Fixpoint formEncode (s : string) : string :=
  match s with
  | EmptyString => EmptyString
  | String c r => formByte c ++ formEncode r
  end.

(** [new URLSearchParams()] with [append] and [toString]. *)
Definition URLSearchParams : Type := list (string * string).

Definition usp_append (p : URLSearchParams) (name value : string)
  : URLSearchParams := (p ++ [(name, value)])%list.

Definition usp_pair (nv : string * string) : string :=
  formEncode (fst nv) ++ "=" ++ formEncode (snd nv).

Fixpoint usp_toString (p : URLSearchParams) : string :=
  match p with
  | [] => ""
  | [nv] => usp_pair nv
  | nv :: rest => usp_pair nv ++ "&" ++ usp_toString rest
  end.

(** [s.includes(sub)]. *)
Fixpoint includes (s sub : string) : bool :=
  String.prefix sub s ||
  match s with
  | EmptyString => false
  | String _ r => includes r sub
  end.

(** [s.replace(pat, by)] with a string pattern and a replacement without
    [$]: the first occurrence only. *)
Fixpoint replace (s pat by_ : string) : string :=
  if String.prefix pat s
  then by_ ++ String.substring (String.length pat)
                               (String.length s - String.length pat) s
  else match s with
       | EmptyString => EmptyString
       | String c r => String c (replace r pat by_)
       end.

(** The line feed of a template literal. *)
Definition nl : string := String (ascii_of_nat 10) EmptyString.

(** *** White space and [trim]

    ECMAScript white space and line terminators, read on the UTF-8 bytes:
    TAB, LF, VT, FF, CR, SP (one byte); NBSP (C2 A0); U+1680 (E1 9A 80);
    U+2000..U+200A, U+2028, U+2029, U+202F (E2 80 xx); U+205F (E2 81 9F);
    U+3000 (E3 80 80); U+FEFF (EF BB BF). *)
Definition ws1 (a : nat) : bool :=
  between 9 13 a || (a =? 32)%nat.

Definition ws2 (a b : nat) : bool :=
  (a =? 194)%nat && (b =? 160)%nat.

Definition ws3 (a b c : nat) : bool :=
  ((a =? 225)%nat && (b =? 154)%nat && (c =? 128)%nat)
  || ((a =? 226)%nat && (b =? 128)%nat
        && (between 128 138 c || (c =? 168)%nat || (c =? 169)%nat
              || (c =? 175)%nat))
  || ((a =? 226)%nat && (b =? 129)%nat && (c =? 159)%nat)
  || ((a =? 227)%nat && (b =? 128)%nat && (c =? 128)%nat)
  || ((a =? 239)%nat && (b =? 187)%nat && (c =? 191)%nat).

(** Drop the white space in front of a list of bytes. *)
Fixpoint dropFront (l : list nat) : list nat :=
  match l with
  | a :: r1 =>
      if ws1 a then dropFront r1
      else match r1 with
           | b :: r2 =>
               if ws2 a b then dropFront r2
               else match r2 with
                    | c :: r3 => if ws3 a b c then dropFront r3 else l
                    | [] => l
                    end
           | [] => l
           end
  | [] => l
  end.

(** The same from the back: the list is reversed, so are the patterns. *)
Fixpoint dropFrontRev (l : list nat) : list nat :=
  match l with
  | a :: r1 =>
      if ws1 a then dropFrontRev r1
      else match r1 with
           | b :: r2 =>
               if ws2 b a then dropFrontRev r2
               else match r2 with
                    | c :: r3 => if ws3 c b a then dropFrontRev r3 else l
                    | [] => l
                    end
           | [] => l
           end
  | [] => l
  end.

Definition bytes (s : string) : list nat := map code (list_ascii_of_string s).
Definition unbytes (l : list nat) : string :=
  string_of_list_ascii (map ascii_of_nat l).

Definition trim (s : string) : string :=
  unbytes (rev (dropFrontRev (rev (dropFront (bytes s))))).

(** Truthiness of a string: the empty string is the only falsy one. *)
Definition truthyString (s : string) : bool :=
  negb (String.eqb s "").

(** ** Numbers

    A number is an IEEE 754 binary64 value. *)

Local Open Scope Z_scope.

Definition prec : Z := 53.
Definition emax : Z := 1024.

Definition number : Type := spec_float.

(** The number denoted by the integer [z]. *)
Definition ofZ (z : Z) : number := binary_normalize prec emax z 0 false.

(** The number denoted by the decimal literal [z / 10^scale]; for
    [|z| < 2^53] and [scale <= 15] both operands are exact, so the one
    rounding of the division gives the literal's value. *)
Definition decimal (z : Z) (scale : nat) : number :=
  SFdiv prec emax (ofZ z) (ofZ (10 ^ Z.of_nat scale)).

(** Truthiness: [0], [-0] and [NaN] are falsy. *)
Definition truthyNumber (x : number) : bool :=
  match x with
  | S754_zero _ | S754_nan => false
  | _ => true
  end.

(** *** [Number::toString] (radix 10)

    For a finite positive [x = m * 2^e], ECMAScript asks for integers
    [n], [k], [s] with [10^(k-1) <= s < 10^k], such that [s * 10^(n-k)]
    rounds to [x], with [k] as small as possible (and, among several [s],
    the one nearest to [x]).  The search below compares exact values of
    the form [a * 2^b * 10^c]. *)

Definition pow2 (b : Z) : Z := 2 ^ Z.max 0 b.
Definition pow10 (c : Z) : Z := 10 ^ Z.max 0 c.

(** Compare [a1 * 2^b1 * 10^c1] with [a2 * 2^b2 * 10^c2]. *)
Definition cmpScaled (a1 b1 c1 a2 b2 c2 : Z) : comparison :=
  let bm := Z.min b1 b2 in
  let cm := Z.min c1 c2 in
  Z.compare (a1 * pow2 (b1 - bm) * pow10 (c1 - cm))
            (a2 * pow2 (b2 - bm) * pow10 (c2 - cm)).

(** [floor (a * 2^b * 10^c)] for [a >= 0]. *)
Definition floorScaled (a b c : Z) : Z :=
  (a * pow2 b * pow10 c) / (pow2 (- b) * pow10 (- c)).

(** The least [n] with [m * 2^e < 10^n], searched upwards from [n]. *)
Fixpoint decExponent (fuel : nat) (m e n : Z) : Z :=
  match fuel with
  | O => n
  | S fuel' =>
      match cmpScaled m e 0 1 0 n with
      | Lt => n
      | _ => decExponent fuel' m e (n + 1)
      end
  end.

(** Does the decimal [s * 10^q] round to [m * 2^e]?  The rounding interval
    of [m * 2^e] is written in units of [2^(e-2)]: it ends at [4m + 2],
    and starts at [4m - 2], or at [4m - 1] when [m] is the least mantissa
    of its binade; its ends belong to it when [m] is even. *)
Definition roundsTo (m e s q : Z) : bool :=
  let lowGap := if (m =? 2 ^ 52) && (-1074 <? e) then 1 else 2 in
  let lo := cmpScaled (4 * m - lowGap) (e - 2) 0 s 0 q in
  let hi := cmpScaled s 0 q (4 * m + 2) (e - 2) 0 in
  let inside c := match c with
                  | Lt => true
                  | Eq => Z.even m
                  | Gt => false
                  end in
  inside lo && inside hi.

(** The digits [(s, n)] for a given [k], if some [k]-digit decimal rounds
    to [m * 2^e]; [nv] is the decimal exponent of [m * 2^e]. *)
Definition digitsAt (m e nv k : Z) : option (Z * Z) :=
  let q := nv - k in
  let sLo := floorScaled m e (- q) in
  let sHi := sLo + 1 in
  let okLo := roundsTo m e sLo q in
  let okHi := roundsTo m e sHi q in
  let hi := if sHi =? 10 ^ k then (10 ^ (k - 1), nv + 1) else (sHi, nv) in
  match okLo, okHi with
  | true, false => Some (sLo, nv)
  | false, true => Some hi
  | false, false => None
  | true, true =>
      match cmpScaled (2 * m) e 0 (2 * sLo + 1) 0 q with
      | Lt => Some (sLo, nv)
      | Gt => Some hi
      | Eq => if Z.even sLo then Some (sLo, nv) else Some hi
      end
  end.

Fixpoint shortest (fuel : nat) (m e nv k : Z) : Z * Z * Z :=
  match fuel with
  | O => (0, nv, k)
  | S fuel' =>
      match digitsAt m e nv k with
      | Some (s, n) => (s, n, k)
      | None => shortest fuel' m e nv (k + 1)
      end
  end.

Definition digitsOf (z : Z) : string :=
  NilZero.string_of_uint (N.to_uint (Z.to_N z)).

Fixpoint zeros (n : nat) : string :=
  match n with
  | O => ""
  | S n' => String "0" (zeros n')
  end.

Definition formatDigits (s n k : Z) : string :=
  let ds := digitsOf s in
  if (k <=? n) && (n <=? 21) then
    ds ++ zeros (Z.to_nat (n - k))
  else if (0 <? n) && (n <=? 21) then
    String.substring 0 (Z.to_nat n) ds ++ "."
      ++ String.substring (Z.to_nat n) (Z.to_nat (k - n)) ds
  else if (-6 <? n) && (n <=? 0) then
    "0." ++ zeros (Z.to_nat (- n)) ++ ds
  else
    let ex := (if 0 <=? n - 1 then "+" else "-") ++ digitsOf (Z.abs (n - 1)) in
    if k =? 1 then ds ++ "e" ++ ex
    else String.substring 0 1 ds ++ "."
           ++ String.substring 1 (Z.to_nat (k - 1)) ds ++ "e" ++ ex.

Definition Number_toString (x : number) : string :=
  match x with
  | S754_nan => "NaN"
  | S754_zero _ => "0"
  | S754_infinity s => if s then "-Infinity" else "Infinity"
  | S754_finite sg m e =>
      let nv := decExponent 640 (Zpos m) e (-323) in
      let '(s, n, k) := shortest 17 (Zpos m) e nv 1 in
      (if sg then "-" else "") ++ formatDigits s n k
  end.

Set Warnings "-register-all".

(** ** Values of unknown shape

    What [JSON.parse] hands back is typed [any]: the hooks read properties
    off it without a check, so the embedding keeps the dynamic value. *)

Inductive value : Type :=
| VUndefined
| VNull
| VBool (b : bool)
| VNumber (x : number)
| VString (s : string)
| VArray (items : list value)
| VObject (fields : list (string * value)).

(** [ToBoolean]. *)
Definition truthy (v : value) : bool :=
  match v with
  | VUndefined | VNull => false
  | VBool b => b
  | VNumber x => truthyNumber x
  | VString s => truthyString s
  | VArray _ | VObject _ => true
  end.

(** The own property [k] of an object whose properties are [fields], each
    key listed once. *)
Fixpoint lookupField (k : string) (fields : list (string * value)) : value :=
  match fields with
  | [] => VUndefined
  | (k', v) :: rest => if String.eqb k k' then v else lookupField k rest
  end.

(** [v.k] for a key [k] that no prototype defines (the hooks read [id] and
    [enabled] only): a [TypeError] on [null] and [undefined], the own
    property of an object, [undefined] on everything else. *)
Definition getProp (v : value) (k : string) : Res value :=
  match v with
  | VUndefined | VNull => Throw TypeError
  | VObject fields => Ok (lookupField k fields)
  | _ => Ok VUndefined
  end.

(** [v === s] for a string [s]. *)
Definition strictEqString (v : value) (s : string) : bool :=
  match v with
  | VString s' => String.eqb s' s
  | _ => false
  end.

(** ** [JSON.stringify]

    [None] stands for [undefined], which [JSON.stringify] returns for a
    value it does not serialize; such a value is dropped from an object and
    written [null] in an array. *)

Definition hexLower (n : nat) : ascii :=
  nth n (list_ascii_of_string "0123456789abcdef") "0"%char.

Definition doubleQuote : string := String (ascii_of_nat 34) EmptyString.

(** [QuoteJSONString], one byte at a time: the two-character escapes, then
    [\u00xx] for the other control characters. *)
Definition escapeJSON (c : ascii) : string :=
  let n := code c in
  if (n =? 8)%nat then "\b"
  else if (n =? 9)%nat then "\t"
  else if (n =? 10)%nat then "\n"
  else if (n =? 12)%nat then "\f"
  else if (n =? 13)%nat then "\r"
  else if (n =? 34)%nat then "\" ++ doubleQuote
  else if (n =? 92)%nat then "\\"
  else if (n <? 32)%nat then
    "\u00" ++ String (hexLower (n / 16)) (String (hexLower (n mod 16)) "")
  else String c "".

Definition quoteJSON (s : string) : string :=
  doubleQuote ++ String.concat "" (map escapeJSON (list_ascii_of_string s))
    ++ doubleQuote.

Definition isFinite (x : number) : bool :=
  match x with
  | S754_zero _ | S754_finite _ _ _ => true
  | S754_infinity _ | S754_nan => false
  end.

Fixpoint stringify (v : value) : option string :=
  match v with
  | VUndefined => None
  | VNull => Some "null"
  | VBool b => Some (if b then "true" else "false")
  | VNumber x => Some (if isFinite x then Number_toString x else "null")
  | VString s => Some (quoteJSON s)
  | VArray items =>
      let fix elements (l : list value) : list string :=
        match l with
        | [] => []
        | x :: rest =>
            match stringify x with
            | Some text => text :: elements rest
            | None => "null" :: elements rest
            end
        end in
      Some ("[" ++ String.concat "," (elements items) ++ "]")
  | VObject fields =>
      let fix properties (l : list (string * value)) : list string :=
        match l with
        | [] => []
        | (k, x) :: rest =>
            match stringify x with
            | Some text => (quoteJSON k ++ ":" ++ text) :: properties rest
            | None => properties rest
            end
        end in
      Some ("{" ++ String.concat "," (properties fields) ++ "}")
  end.

End JS.

Import JS.

(* ===================================================================== *)
(** * Asynchronous code: state, exceptions, [try]/[catch]/[finally]       *)
(* ===================================================================== *)

Section Async.
Context {S : Type}.

(** A computation reads and writes a state [S] and ends with a value or
    with a raised error; the state it reached is kept in both cases. *)
Definition M (A : Type) : Type := S -> Res A * S.

Definition ret {A} (a : A) : M A := fun s => (Ok a, s).

Definition bind {A B} (m : M A) (k : A -> M B) : M B :=
  fun s => match m s with
           | (Ok a, s') => k a s'
           | (Throw e, s') => (Throw e, s')
           end.

Definition throw {A} (e : Error) : M A := fun s => (Throw e, s).

(** [await] of a promise that the environment has already settled. *)
Definition settle {A} (r : Res A) : M A := fun s => (r, s).

Definition modify (f : S -> S) : M unit := fun s => (Ok tt, f s).

Definition gets {A} (f : S -> A) : M A := fun s => (Ok (f s), s).

Definition tryCatch {A} (body : M A) (handler : Error -> M A) : M A :=
  fun s => match body s with
           | (Ok a, s') => (Ok a, s')
           | (Throw e, s') => handler e s'
           end.

(** [finally] runs on both exits and keeps the outcome of the body,
    unless it raises itself. *)
Definition tryFinally {A} (body : M A) (fin : M unit) : M A :=
  fun s => match body s with
           | (r, s') =>
               match fin s' with
               | (Ok _, s'') => (r, s'')
               | (Throw e, s'') => (Throw e, s'')
               end
           end.

(** [xs.forEach(f)]. *)
Fixpoint forEach {A} (f : A -> M unit) (xs : list A) : M unit :=
  match xs with
  | [] => ret tt
  | x :: rest => bind (f x) (fun _ => forEach f rest)
  end.
End Async.

Arguments M : clear implicits.

Declare Scope async_scope.
Delimit Scope async_scope with async.
Notation "x <- m ;; k" := (bind m (fun x => k))
  (at level 100, m at next level, right associativity) : async_scope.
Notation "m ;;; k" := (bind m (fun _ => k))
  (at level 100, right associativity) : async_scope.

(* ===================================================================== *)
(** * The data model                                                      *)
(* ===================================================================== *)

(** [interface RideAppConfig].  [enabled] is declared [boolean]; the value
    that [loadAppConfiguration] copies into it comes from [JSON.parse], so
    the field holds a dynamic value. *)
Record RideAppConfig : Type := mkApp {
  id : string;
  name : string;
  icon : string;
  color : string;
  packageId : string;
  enabled : value;
  deepLinkScheme : string;
  playStoreUrl : string;
}.

(** [{ ...app, enabled: v }]. *)
Definition withEnabled (app : RideAppConfig) (v : value) : RideAppConfig :=
  {| id := id app; name := name app; icon := icon app; color := color app;
     packageId := packageId app; enabled := v;
     deepLinkScheme := deepLinkScheme app; playStoreUrl := playStoreUrl app |}.

(** The record as the object it is at run time, its properties in the
    order of the literal (a spread with [enabled] keeps that order). *)
Definition objectOf (app : RideAppConfig) : value :=
  VObject [ ("id", VString (id app)); ("name", VString (name app));
            ("icon", VString (icon app)); ("color", VString (color app));
            ("packageId", VString (packageId app));
            ("enabled", enabled app);
            ("deepLinkScheme", VString (deepLinkScheme app));
            ("playStoreUrl", VString (playStoreUrl app)) ].

(** [JSON.stringify(config)] for a list of providers. *)
Definition JSON_stringify (config : list RideAppConfig) : string :=
  match stringify (VArray (map objectOf config)) with
  | Some text => text
  | None => "undefined"
  end.

(** [interface LocationData] of the dispatch hook. *)
Record LocationData : Type := mkLocation {
  latitude : number;
  longitude : number;
  address : string;
  placeId : option string;
}.

(** [Platform.OS]. *)
Inductive OS : Type := ios | android | windows | macos | web.

Definition isWeb (os : OS) : bool :=
  match os with
  | web => true
  | _ => false
  end.

(* ===================================================================== *)
(** * The provider registry ([useAppManager])                             *)
(* ===================================================================== *)

Module AppManager.

Local Open Scope async_scope.

Definition DEFAULT_RIDE_APPS : list RideAppConfig := [
  {| id := "uber"; name := "Uber"; icon := "🚗"; color := "#000000";
     packageId := "com.ubercab";
     enabled := VBool true;
     deepLinkScheme := "uber";
     playStoreUrl := "market://details?id=com.ubercab" |};
  {| id := "99"; name := "99"; icon := "🟡"; color := "#ffd700";
     packageId := "com.taxis99";
     enabled := VBool true;
     deepLinkScheme := "taxis99";
     playStoreUrl := "market://details?id=com.taxis99" |};
  {| id := "lyft"; name := "Lyft"; icon := "🟣"; color := "#ff00bf";
     packageId := "com.lyft";
     enabled := VBool true;
     deepLinkScheme := "lyft";
     playStoreUrl := "market://details?id=com.lyft" |};
  {| id := "taxirio"; name := "Taxi.Rio"; icon := "🚕"; color := "#ff6b35";
     packageId := "br.gov.rj.taxi.rio.passenger";
     enabled := VBool false;
     deepLinkScheme := "br.gov.rj.taxi.rio.passenger";
     playStoreUrl := "market://details?id=br.gov.rj.taxi.rio.passenger" |};
  {| id := "indriver"; name := "inDriver"; icon := "🔵"; color := "#1e40af";
     packageId := "sinet.startup.inDriver";
     enabled := VBool false;
     deepLinkScheme := "indriver";
     playStoreUrl := "market://details?id=sinet.startup.inDriver" |};
  {| id := "bolt"; name := "Bolt"; icon := "⚡"; color := "#34d399";
     packageId := "ee.mtakso.client";
     enabled := VBool false;
     deepLinkScheme := "bolt";
     playStoreUrl := "market://details?id=ee.mtakso.client" |};
  {| id := "grab"; name := "Grab"; icon := "🟢"; color := "#00b14f";
     packageId := "com.grabtaxi.passenger";
     enabled := VBool false;
     deepLinkScheme := "grab";
     playStoreUrl := "market://details?id=com.grabtaxi.passenger" |};
  {| id := "careem"; name := "Careem"; icon := "🟤"; color := "#8b5a2b";
     packageId := "com.careem.acma";
     enabled := VBool false;
     deepLinkScheme := "careem";
     playStoreUrl := "market://details?id=com.careem.acma" |};
  {| id := "ola"; name := "Ola"; icon := "🟠"; color := "#f97316";
     packageId := "com.olacabs.customer";
     enabled := VBool false;
     deepLinkScheme := "olacabs";
     playStoreUrl := "market://details?id=com.olacabs.customer" |};
  {| id := "yandex"; name := "Yandex Go"; icon := "🔴"; color := "#dc2626";
     packageId := "ru.yandex.taxi";
     enabled := VBool false;
     deepLinkScheme := "yandextaxi";
     playStoreUrl := "market://details?id=ru.yandex.taxi" |}
].

Definition APP_MANAGER_STORAGE_KEY : string := "ridelink_app_manager_config".

(** What one call sees of the world outside the hook: the [JSON.parse] of
    the runtime, and whether the storage promises of this call reject. *)
Record Env : Type := mkEnv {
  JSON_parse : string -> Res value;
  getItem_rejects : bool;
  setItem_rejects : bool;
}.

(** What the hook leaves behind, oldest first: the storage calls that
    completed, and the listeners that [emit] called.  A listener is the
    closure a mounted hook subscribed; calling it starts a reload in that
    hook, which is a [loadAppConfiguration] of its own (see [Request]). *)
Inductive Event : Type :=
| GetItem (key : string)
| SetItem (key data : string)
| Notified (listener : nat).

(** One mounted hook: its two [useState] cells, the storage it shares
    with the rest of the application, the listeners of the emitter (each
    closure named by a number) and the events so far.  An operation reads
    [rideApps] as the hook last rendered it. *)
Record State : Type := mkState {
  rideApps : list RideAppConfig;
  loading : bool;
  storage : gmap string string;
  listeners : list nat;
  events : list Event;
}.

Definition setRideApps (apps : list RideAppConfig) : M State unit :=
  modify (fun st => mkState apps (loading st) (storage st) (listeners st)
                            (events st)).

Definition setLoading (b : bool) : M State unit :=
  modify (fun st => mkState (rideApps st) b (storage st) (listeners st)
                            (events st)).

Definition record (e : Event) : M State unit :=
  modify (fun st => mkState (rideApps st) (loading st) (storage st)
                            (listeners st) (events st ++ [e])).

(** [useState(DEFAULT_RIDE_APPS)], [useState(true)]. *)
Definition mount (store : gmap string string) (ls : list nat) : State :=
  mkState DEFAULT_RIDE_APPS true store ls [].

(** ** [AsyncStorage] *)

Definition AsyncStorage_getItem (env : Env) (key : string)
  : M State (option string) :=
  if getItem_rejects env then throw StorageError
  else (record (GetItem key) ;;; gets (fun st => storage st !! key)).

Definition AsyncStorage_setItem (env : Env) (key data : string)
  : M State unit :=
  if setItem_rejects env then throw StorageError
  else (modify (fun st => mkState (rideApps st) (loading st)
                                  (<[key := data]> (storage st))
                                  (listeners st) (events st)) ;;;
        record (SetItem key data)).

(** ** [class AppConfigEventEmitter] *)

Definition subscribe (listener : nat) : M State unit :=
  modify (fun st => mkState (rideApps st) (loading st) (storage st)
                            (listeners st ++ [listener]) (events st)).

(** The function [subscribe] returns. *)
Definition unsubscribe (listener : nat) : M State unit :=
  modify (fun st => mkState (rideApps st) (loading st) (storage st)
                      (List.filter (fun l => negb (Nat.eqb l listener))
                                   (listeners st))
                      (events st)).

Definition emit : M State unit :=
  (ls <- gets listeners ;;
   forEach (fun l => record (Notified l)) ls).

(** ** The merge of [loadAppConfiguration] *)

Definition bindRes {A B} (r : Res A) (k : A -> Res B) : Res B :=
  match r with
  | Ok a => k a
  | Throw e => Throw e
  end.

(** [items.find(pred)] on the elements of an array. *)
Fixpoint findItem (pred : value -> Res bool) (items : list value)
  : Res value :=
  match items with
  | [] => Ok VUndefined
  | x :: rest =>
      bindRes (pred x) (fun hit => if hit then Ok x else findItem pred rest)
  end.

(** [v.find(pred)]: only an array has a [find] to call. *)
Definition find (v : value) (pred : value -> Res bool) : Res value :=
  match v with
  | VArray items => findItem pred items
  | _ => Throw TypeError
  end.

(** [xs.map(f)] for an [f] that may raise. *)
Fixpoint mapRes {A B} (f : A -> Res B) (xs : list A) : Res (list B) :=
  match xs with
  | [] => Ok []
  | x :: rest =>
      bindRes (f x) (fun y =>
      bindRes (mapRes f rest) (fun ys => Ok (y :: ys)))
  end.

(** The callback of [DEFAULT_RIDE_APPS.map] in [loadAppConfiguration]. *)
Definition mergeOne (storedConfig : value) (defaultApp : RideAppConfig)
  : Res RideAppConfig :=
  bindRes (find storedConfig
             (fun app => bindRes (getProp app "id")
                           (fun i => Ok (strictEqString i (id defaultApp)))))
    (fun storedApp =>
       if truthy storedApp
       then bindRes (getProp storedApp "enabled")
              (fun e => Ok (withEnabled defaultApp e))
       else Ok defaultApp).

Definition mergeApps (defaults : list RideAppConfig) (storedConfig : value)
  : Res (list RideAppConfig) :=
  mapRes (mergeOne storedConfig) defaults.

(** ** The operations of the hook *)

Definition loadAppConfiguration (env : Env) : M State unit :=
  tryFinally
    (tryCatch
       (stored <- AsyncStorage_getItem env APP_MANAGER_STORAGE_KEY ;;
        match stored with
        | Some text =>
            if truthyString text then
              storedConfig <- settle (JSON_parse env text) ;;
              mergedApps <- settle (mergeApps DEFAULT_RIDE_APPS storedConfig) ;;
              setRideApps mergedApps
            else ret tt
        | None => ret tt
        end)
       (fun _ => ret tt))
    (setLoading false).

Definition saveAppConfiguration (env : Env) (newConfig : list RideAppConfig)
  : M State unit :=
  tryCatch
    (AsyncStorage_setItem env APP_MANAGER_STORAGE_KEY
                          (JSON_stringify newConfig) ;;;
     setRideApps newConfig ;;;
     emit)
    (fun error => throw error).

(** The callback of [rideApps.map] in [toggleAppEnabled]. *)
Definition toggleOne (appId : string) (app : RideAppConfig) : RideAppConfig :=
  if String.eqb (id app) appId
  then withEnabled app (VBool (negb (truthy (enabled app))))
  else app.

Definition toggleAppEnabled (env : Env) (appId : string) : M State unit :=
  tryCatch
    (apps <- gets rideApps ;;
     let updatedApps := map (toggleOne appId) apps in
     saveAppConfiguration env updatedApps)
    (fun error => throw error).

Definition getEnabledApps (st : State) : list RideAppConfig :=
  List.filter (fun app => truthy (enabled app)) (rideApps st).

Definition resetToDefaults (env : Env) : M State unit :=
  tryCatch (saveAppConfiguration env DEFAULT_RIDE_APPS)
           (fun error => throw error).

(** ** Histories of a mounted hook

    The requests a user, the emitter or a caller of [refresh] can make of
    one hook, each with the environment it meets. *)
Inductive Request : Type :=
| Load (env : Env)
| Toggle (env : Env) (appId : string)
| Reset (env : Env).

Definition perform (r : Request) : M State unit :=
  match r with
  | Load env => loadAppConfiguration env
  | Toggle env appId => toggleAppEnabled env appId
  | Reset env => resetToDefaults env
  end.

(** Requests are served one after the other; a rejected one leaves the
    state it reached and the next one goes on from there. *)
Fixpoint run (rs : list Request) (st : State) : State :=
  match rs with
  | [] => st
  | r :: rest => run rest (snd (perform r st))
  end.

End AppManager.

(* ===================================================================== *)
(** * The dispatch ([useRideApps])                                        *)
(* ===================================================================== *)

Module RideApps.

Local Open Scope async_scope.

(** ** [createDeepLink] *)

Definition createDeepLink (os : OS) (app : RideAppConfig)
           (pickup destination : LocationData) : string :=
  let pickupAddress := encodeURIComponent (address pickup) in
  let destinationAddress := encodeURIComponent (address destination) in
  let latO := latitude pickup in
  let lngO := longitude pickup in
  let latD := latitude destination in
  let lngD := longitude destination in
  let num := Number_toString in
  if String.eqb (id app) "uber" then
    if negb (isWeb os) then
      "uber://?action=setPickup&pickup[formatted_address]=" ++ pickupAddress
        ++ "&dropoff[formatted_address]=" ++ destinationAddress
    else
      let p0 := usp_append [] "action" "setPickup" in
      let p1 := usp_append p0 "pickup[formatted_address]" (address pickup) in
      let p2 := usp_append p1 "dropoff[formatted_address]"
                           (address destination) in
      let p3 := if truthyNumber latO && truthyNumber lngO
                then usp_append (usp_append p2 "pickup[latitude]" (num latO))
                                "pickup[longitude]" (num lngO)
                else p2 in
      let p4 := if truthyNumber latD && truthyNumber lngD
                then usp_append (usp_append p3 "dropoff[latitude]" (num latD))
                                "dropoff[longitude]" (num lngD)
                else p3 in
      "https://m.uber.com/ul/?" ++ usp_toString p4
  else if String.eqb (id app) "99" then
    "taxis99://call?pickup_latitude=" ++ num latO
      ++ "&pickup_longitude=" ++ num lngO
      ++ "&pickup_title=" ++ pickupAddress
      ++ "&dropoff_latitude=" ++ num latD
      ++ "&dropoff_longitude=" ++ num lngD
      ++ "&dropoff_title=" ++ destinationAddress
  else if String.eqb (id app) "taxirio" then
    "br.gov.rj.taxi.rio.passenger://ride"
  else if String.eqb (id app) "indriver" then
    "indriver://open"
  else if String.eqb (id app) "lyft" then
    "lyft://ridetype?id=lyft&pickup[latitude]=" ++ num latO
      ++ "&pickup[longitude]=" ++ num lngO
      ++ "&destination[latitude]=" ++ num latD
      ++ "&destination[longitude]=" ++ num lngD
  else if String.eqb (id app) "bolt" then
    "bolt://ride?pickup_lat=" ++ num latO
      ++ "&pickup_lng=" ++ num lngO
      ++ "&destination_lat=" ++ num latD
      ++ "&destination_lng=" ++ num lngD
  else if String.eqb (id app) "grab" then
    "grab://open?screenType=BOOK&type=TRANSPORT&pickup.latitude=" ++ num latO
      ++ "&pickup.longitude=" ++ num lngO
      ++ "&dropoff.latitude=" ++ num latD
      ++ "&dropoff.longitude=" ++ num lngD
  else if String.eqb (id app) "careem" then
    "careem://ride?pickup_latitude=" ++ num latO
      ++ "&pickup_longitude=" ++ num lngO
      ++ "&dropoff_latitude=" ++ num latD
      ++ "&dropoff_longitude=" ++ num lngD
  else if String.eqb (id app) "ola" then
    "olacabs://app/setpickup?lat=" ++ num latO
      ++ "&lng=" ++ num lngO
      ++ "&drop_lat=" ++ num latD
      ++ "&drop_lng=" ++ num lngD
  else if String.eqb (id app) "yandex" then
    "yandextaxi://route?start-lat=" ++ num latO
      ++ "&start-lon=" ++ num lngO
      ++ "&end-lat=" ++ num latD
      ++ "&end-lon=" ++ num lngD
  else "".

(** The ids [createDeepLink] has a case for. *)
Definition knownIds : list string :=
  ["uber"; "99"; "taxirio"; "indriver"; "lyft"; "bolt"; "grab"; "careem";
   "ola"; "yandex"].

(** ** The platform as one dispatch meets it *)

Record Env : Type := mkEnv {
  Platform_OS : OS;
  t : string -> list (string * string) -> string;
  Linking_canOpenURL : string -> Res bool;
  Linking_openURL : string -> Res unit;
  WebBrowser_openBrowserAsync : string -> Res unit;
}.

(** What a button of an alert does when it is pressed. *)
Inductive Action : Type :=
| PressOpenURL (url : string)                 (* Linking.openURL(url) *)
| PressWindowOpen (url target : string)       (* window.open(url, target) *).

Record Button : Type := mkButton {
  text : string;
  style : option string;
  onPress : option Action;
}.

(** The calls a dispatch makes, oldest first. *)
Inductive Call : Type :=
| CanOpenURL (url : string)
| OpenURL (url : string)
| OpenBrowserAsync (url : string)
| Alert (title message : string) (buttons : list Button)
| SetTimeoutAlert (title message : string) (buttons : list Button) (ms : Z).

Record State : Type := mkState {
  isLoading : bool;
  calls : list Call;
}.

Definition setIsLoading (b : bool) : M State unit :=
  modify (fun st => mkState b (calls st)).

Definition call (c : Call) : M State unit :=
  modify (fun st => mkState (isLoading st) (calls st ++ [c])).

Definition canOpenURL (env : Env) (url : string) : M State bool :=
  call (CanOpenURL url) ;;; settle (Linking_canOpenURL env url).

Definition openURL (env : Env) (url : string) : M State unit :=
  call (OpenURL url) ;;; settle (Linking_openURL env url).

Definition openBrowserAsync (env : Env) (url : string) : M State unit :=
  call (OpenBrowserAsync url) ;;; settle (WebBrowser_openBrowserAsync env url).

(** ** [openRideApp] *)

(** The two buttons of the prompts that offer the store. *)
Definition storeButtons (env : Env) (store : Action) : list Button :=
  [ mkButton (t env "alert.cancel" []) (Some "cancel") None;
    mkButton (t env "alert.openPlayStore" []) None (Some store) ].

(** [pickup: <address>\n destination: <address>], the tail of the messages. *)
Definition addressLines (env : Env) (pickup destination : LocationData)
  : string :=
  t env "rideApp.pickup" [] ++ " " ++ address pickup ++ nl
    ++ t env "rideApp.destination" [] ++ " " ++ address destination.

(** The ids whose deep link carries the route. *)
Definition prefillIds : list string :=
  ["uber"; "99"; "lyft"; "bolt"; "grab"; "careem"; "ola"; "yandex"].

Definition webUnsupportedAlert (env : Env) (app : RideAppConfig) : Call :=
  Alert (name app ++ " " ++ t env "rideApp.notInstalled" [])
        (t env "rideApp.webNotSupported" [])
        (storeButtons env
           (PressWindowOpen
              (replace (playStoreUrl app) "market://"
                       "https://play.google.com/store/apps/")
              "_blank")).

Definition openedAlert (env : Env) (app : RideAppConfig)
           (pickup destination : LocationData) : Call :=
  SetTimeoutAlert
    (name app ++ " " ++ t env "rideApp.opened" [])
    (t env "rideApp.verifyAddresses" [] ++ nl ++ nl
       ++ addressLines env pickup destination)
    [ mkButton (t env "alert.ok" []) None None ]
    1000.

Definition notInstalledAlert (env : Env) (app : RideAppConfig)
           (pickup destination : LocationData) : Call :=
  Alert (name app ++ " " ++ t env "rideApp.notInstalled" [])
        (t env "rideApp.appNotInstalled" [("appName", name app)] ++ nl ++ nl
           ++ t env "rideApp.manualEntry" [] ++ nl
           ++ addressLines env pickup destination)
        (storeButtons env (PressOpenURL (playStoreUrl app))).

Definition linkingErrorAlert (env : Env) (app : RideAppConfig)
           (pickup destination : LocationData) : Call :=
  Alert (t env "rideApp.openingPlayStore" [])
        (t env "rideApp.manualEntry" [] ++ nl ++ nl
           ++ addressLines env pickup destination)
        (storeButtons env (PressOpenURL (playStoreUrl app))).

Definition errorAlert (env : Env) : Call :=
  Alert (t env "alert.error" []) (t env "rideApp.errorOpening" []) [].

Definition openRideApp (env : Env) (app : RideAppConfig)
           (pickup destination : LocationData) : M State unit :=
  setIsLoading true ;;;
  tryFinally
    (tryCatch
       (let deepLink := createDeepLink (Platform_OS env) app pickup destination in
        if isWeb (Platform_OS env) then
          if String.eqb (id app) "uber"
          then openBrowserAsync env deepLink
          else call (webUnsupportedAlert env app)
        else
          tryCatch
            (canOpen <- canOpenURL env deepLink ;;
             if canOpen then
               openURL env deepLink ;;;
               if existsb (String.eqb (id app)) prefillIds
               then call (openedAlert env app pickup destination)
               else ret tt
             else
               call (notInstalledAlert env app pickup destination))
            (fun linkingError =>
               call (linkingErrorAlert env app pickup destination)))
       (fun error => call (errorAlert env)))
    (setIsLoading false).

(** A dispatch starts with no call made. *)
Definition idle : State := mkState false [].

(** The calls of one dispatch. *)
Definition dispatch (env : Env) (app : RideAppConfig)
           (pickup destination : LocationData) : list Call :=
  calls (snd (openRideApp env app pickup destination idle)).

(** Calls into the URI-launch facility and the browser. *)
Definition isPlatformCall (c : Call) : bool :=
  match c with
  | CanOpenURL _ | OpenURL _ | OpenBrowserAsync _ => true
  | Alert _ _ _ | SetTimeoutAlert _ _ _ _ => false
  end.

Definition platformCalls (cs : list Call) : list Call :=
  List.filter isPlatformCall cs.

End RideApps.

(* ===================================================================== *)
(** * The home screen: [handleRideAppPress]                               *)
(* ===================================================================== *)

Module HomeScreen.

Import RideApps.
Local Open Scope async_scope.

(** The [useState] cells of the screen that the handler reads. *)
Record Screen : Type := mkScreen {
  pickupAddress : string;
  pickupCoords : option (number * number);        (* latitude, longitude *)
  pickupPlaceId : option string;
  destinationAddress : string;
  destinationCoords : option (number * number);
  destinationPlaceId : option string;
  rideApps : list RideAppConfig;                  (* the enabled providers *)
}.

Definition requiredAddressesAlert (env : Env) : Call :=
  Alert (t env "alert.error" []) (t env "alert.requiredAddresses" []) [].

Definition coordinatesRequiredAlert (env : Env) : Call :=
  Alert (t env "alert.error" []) (t env "alert.coordinatesRequired" []) [].

Definition handleRideAppPress (env : Env) (ui : Screen) (appIndex : nat)
  : M State unit :=
  if negb (truthyString (trim (pickupAddress ui)))
     || negb (truthyString (trim (destinationAddress ui)))
  then call (requiredAddressesAlert env)
  else
    match pickupCoords ui, destinationCoords ui with
    | Some (latO, lngO), Some (latD, lngD) =>
        let pickupLocation :=
          mkLocation latO lngO (pickupAddress ui) (pickupPlaceId ui) in
        let destinationLocation :=
          mkLocation latD lngD (destinationAddress ui)
                     (destinationPlaceId ui) in
        match nth_error (rideApps ui) appIndex with
        | Some app => openRideApp env app pickupLocation destinationLocation
        | None => throw TypeError      (* [rideApps[appIndex].name] *)
        end
    | _, _ => call (coordinatesRequiredAlert env)
    end.

End HomeScreen.

(* ===================================================================== *)
(** * Vocabulary of the statements, and sample inputs                     *)
(* ===================================================================== *)

Module Samples.

Local Open Scope Z_scope.

(** A translation table that has no entry: [t] then returns the key. *)
Definition t_key (key : string) (params : list (string * string)) : string :=
  key.

(** A native platform on which [canOpenURL] always gives the same answer
    and every other call succeeds. *)
Definition native (canOpen : Res bool) : RideApps.Env :=
  RideApps.mkEnv android t_key (fun _ => canOpen) (fun _ => Ok tt)
                 (fun _ => Ok tt).

Definition browser : RideApps.Env :=
  RideApps.mkEnv web t_key (fun _ => Ok true) (fun _ => Ok tt)
                 (fun _ => Ok tt).

(** The route of the two scenarios. *)
Definition pickupRio : LocationData :=
  mkLocation (decimal (-229068) 4) (decimal (-431729) 4)
             "Rua Senador Vergueiro 218, Rio de Janeiro" None.

Definition destinationRio : LocationData :=
  mkLocation (decimal (-229249) 4) (decimal (-431777) 4)
             "Rua do Catete 214, Rio de Janeiro" None.

(** The same pickup point with the address left empty. *)
Definition pickupNoAddress : LocationData :=
  mkLocation (decimal (-229068) 4) (decimal (-431729) 4) "" None.

Definition uber : RideAppConfig :=
  mkApp "uber" "Uber" "🚗" "#000000" "com.ubercab" (VBool true) "uber"
        "market://details?id=com.ubercab".

Definition taxis99 : RideAppConfig :=
  mkApp "99" "99" "🟡" "#ffd700" "com.taxis99" (VBool true) "taxis99"
        "market://details?id=com.taxis99".

(** A provider the builder has no case for. *)
Definition cabify : RideAppConfig :=
  mkApp "cabify" "Cabify" "" "#7350ff" "com.cabify.rider" (VBool true)
        "cabify" "market://details?id=com.cabify.rider".

(** A storage whose reads and writes are rejected or not, for the calls
    that do not get as far as [JSON.parse] (a toggle, a reset, a load
    whose read is rejected); [JSON.parse] rejects every text. *)
Definition noJSON (getRejects setRejects : bool) : AppManager.Env :=
  AppManager.mkEnv (fun _ => Throw SyntaxError) getRejects setRejects.

(** A runtime whose [JSON.parse] returns [v] for every text. *)
Definition parsesTo (v : value) : AppManager.Env :=
  AppManager.mkEnv (fun _ => Ok v) false false.

End Samples.

Module Registry.

Import AppManager.

(** The stored override for an id: the first stored record whose [id] is
    that string. *)
Definition overrideFor (i : string) (records : list (list (string * value)))
  : option (list (string * value)) :=
  List.find (fun r => strictEqString (lookupField "id" r) i) records.

(** What the merge makes of one default provider. *)
Definition merged (records : list (list (string * value)))
           (d : RideAppConfig) : RideAppConfig :=
  match overrideFor (id d) records with
  | Some r => withEnabled d (lookupField "enabled" r)
  | None => d
  end.

(** Is the provider with this id switched on in the list? *)
Definition enabledIn (apps : list RideAppConfig) (i : string) : bool :=
  existsb (fun app => String.eqb (id app) i && truthy (enabled app)) apps.

(** State updates, for the statements about what an operation leaves. *)
Definition stored (st : State) (data : string) : State :=
  mkState (rideApps st) (loading st)
          (<[APP_MANAGER_STORAGE_KEY := data]> (storage st))
          (listeners st) (events st).

Definition withApps (st : State) (apps : list RideAppConfig) : State :=
  mkState apps (loading st) (storage st) (listeners st) (events st).

Definition withEvents (st : State) (es : list Event) : State :=
  mkState (rideApps st) (loading st) (storage st) (listeners st) es.

(** The state after a successful [saveAppConfiguration]. *)
Definition saved (st : State) (apps : list RideAppConfig) : State :=
  let data := JSON_stringify apps in
  withEvents (withApps (stored st data) apps)
             (events st ++ [SetItem APP_MANAGER_STORAGE_KEY data]
                ++ map Notified (listeners st))%list.

(** The reads that give [loadAppConfiguration] nothing to merge: the
    storage rejects the read, the key is missing, the stored text is
    empty, [JSON.parse] raises, or the parsed value has a shape on which
    the merge raises. *)
Inductive Unreadable (env : Env) (st : State) : Prop :=
| read_rejected :
    getItem_rejects env = true -> Unreadable env st
| key_missing :
    storage st !! APP_MANAGER_STORAGE_KEY = None -> Unreadable env st
| text_empty :
    storage st !! APP_MANAGER_STORAGE_KEY = Some "" -> Unreadable env st
| parse_raises text e :
    storage st !! APP_MANAGER_STORAGE_KEY = Some text ->
    JSON_parse env text = Throw e -> Unreadable env st
| merge_raises text v e :
    storage st !! APP_MANAGER_STORAGE_KEY = Some text ->
    JSON_parse env text = Ok v ->
    mergeApps DEFAULT_RIDE_APPS v = Throw e -> Unreadable env st.

End Registry.

(* ===================================================================== *)
(** * The callers of the registry                                         *)
(* ===================================================================== *)

(** ** The reset button of [AppManagerModal] *)

Module AppManagerModal.

Local Open Scope async_scope.

(** The component: the hook it mounts and its own [isResetting] cell. *)
Record State : Type := mkState {
  hook : AppManager.State;
  isResetting : bool;
}.

Definition setIsResetting (b : bool) : M State unit :=
  modify (fun st => mkState (hook st) b).

(** An operation of the hook, called from the component. *)
Definition onHook {A} (m : M AppManager.State A) : M State A :=
  fun st => match m (hook st) with
            | (r, h) => (r, mkState h (isResetting st))
            end.

(** The [onPress] of the confirming button in [handleResetToDefaults]. *)
Definition confirmReset (env : AppManager.Env) : M State unit :=
  setIsResetting true ;;;
  onHook (AppManager.resetToDefaults env) ;;;
  setIsResetting false.

End AppManagerModal.

(** ** The ride-app buttons of the home screen *)

Module HomeScreenButtons.

Import HomeScreen.

(** The [disabled] property of a [RideAppButton]. *)
Definition disabled (isLoading : bool) (ui : Screen) : bool :=
  isLoading
  || negb (truthyString (trim (pickupAddress ui)))
  || negb (truthyString (trim (destinationAddress ui)))
  || negb (match pickupCoords ui with Some _ => true | None => false end)
  || negb (match destinationCoords ui with Some _ => true | None => false end).

(** [rideApps.map((app, index) => ...)]: the indices the buttons press. *)
Definition buttonIndices (ui : Screen) : list nat :=
  seq 0 (length (rideApps ui)).

End HomeScreenButtons.

(* ===================================================================== *)
(** * The saved language ([LanguageContext])                              *)
(* ===================================================================== *)

Module LanguageContext.

Local Open Scope async_scope.

(** [type Language = 'en' | 'pt' | 'es']. *)
Inductive Language : Type := en | pt | es.

(** The string a language is at run time. *)
Definition code (l : Language) : string :=
  match l with
  | en => "en"
  | pt => "pt"
  | es => "es"
  end.

Definition LANGUAGE_STORAGE_KEY : string := "app_language".

Record Env : Type := mkEnv {
  getItem_rejects : bool;
  setItem_rejects : bool;
}.

(** The provider: its two [useState] cells and the storage. *)
Record State : Type := mkState {
  language : Language;
  isLoading : bool;
  storage : gmap string string;
}.

(** [useState<Language>('en')], [useState(true)]. *)
Definition mount (store : gmap string string) : State :=
  mkState en true store.

Definition setCurrentLanguage (l : Language) : M State unit :=
  modify (fun st => mkState l (isLoading st) (storage st)).

Definition setIsLoading (b : bool) : M State unit :=
  modify (fun st => mkState (language st) b (storage st)).

Definition AsyncStorage_getItem (env : Env) (key : string)
  : M State (option string) :=
  if getItem_rejects env then throw StorageError
  else gets (fun st => storage st !! key).

Definition AsyncStorage_setItem (env : Env) (key data : string)
  : M State unit :=
  if setItem_rejects env then throw StorageError
  else modify (fun st => mkState (language st) (isLoading st)
                                 (<[key := data]> (storage st))).

(** [savedLanguage as Language], once [['en', 'pt', 'es'].includes] has
    said yes. *)
Definition asLanguage (s : string) : option Language :=
  if String.eqb s "en" then Some en
  else if String.eqb s "pt" then Some pt
  else if String.eqb s "es" then Some es
  else None.

Definition loadSavedLanguage (env : Env) : M State unit :=
  tryFinally
    (tryCatch
       (savedLanguage <- AsyncStorage_getItem env LANGUAGE_STORAGE_KEY ;;
        match savedLanguage with
        | Some s =>
            if truthyString s
               && existsb (String.eqb s) ["en"; "pt"; "es"]
            then match asLanguage s with
                 | Some l => setCurrentLanguage l
                 | None => ret tt
                 end
            else ret tt
        | None => ret tt
        end)
       (fun _ => ret tt))
    (setIsLoading false).

Definition setLanguage (env : Env) (lang : Language) : M State unit :=
  tryCatch
    (AsyncStorage_setItem env LANGUAGE_STORAGE_KEY (code lang) ;;;
     setCurrentLanguage lang)
    (fun error => setCurrentLanguage lang ;;; throw error).

End LanguageContext.

(* ===================================================================== *)
(** * Favourite places ([useFavorites])                                   *)
(* ===================================================================== *)

Module Favorites.

Local Open Scope async_scope.

(** A [Date], by its time value in milliseconds. *)
Definition Date : Type := Z.

(** [interface FavoriteDestination]. *)
Record FavoriteDestination : Type := mkFavorite {
  id : string;
  name : string;
  address : string;
  latitude : option number;
  longitude : option number;
  placeId : option string;
  createdAt : Date;
}.

(** [Partial<FavoriteDestination>]: a property is absent or present; a
    present optional property may hold [undefined]. *)
Record Updates : Type := mkUpdates {
  u_id : option string;
  u_name : option string;
  u_address : option string;
  u_latitude : option (option number);
  u_longitude : option (option number);
  u_placeId : option (option string);
  u_createdAt : option Date;
}.

Definition or_keep {A} (u : option A) (old : A) : A :=
  match u with
  | Some v => v
  | None => old
  end.

(** [{ ...fav, ...updates }]. *)
Definition spread (fav : FavoriteDestination) (updates : Updates)
  : FavoriteDestination :=
  mkFavorite (or_keep (u_id updates) (id fav))
             (or_keep (u_name updates) (name fav))
             (or_keep (u_address updates) (address fav))
             (or_keep (u_latitude updates) (latitude fav))
             (or_keep (u_longitude updates) (longitude fav))
             (or_keep (u_placeId updates) (placeId fav))
             (or_keep (u_createdAt updates) (createdAt fav)).

Definition FAVORITES_KEY : string := "ride_launcher_favorites".

(** What one call meets: the runtime's [JSON.stringify] on the list;
    [JSON.parse] followed by the map that turns every [createdAt] into a
    [Date], typed as the state cell is; the two readings of the clock an
    addition makes; and whether the storage promises reject. *)
Record Env : Type := mkEnv {
  JSON_stringify : list FavoriteDestination -> string;
  revive : string -> Res (list FavoriteDestination);
  Date_now : Z;
  new_Date : Date;
  getItem_rejects : bool;
  setItem_rejects : bool;
}.

Inductive Event : Type :=
| GetItem (key : string)
| SetItem (key data : string).

Record State : Type := mkState {
  favorites : list FavoriteDestination;
  loading : bool;
  storage : gmap string string;
  events : list Event;
}.

(** [useState([])], [useState(true)]. *)
Definition mount (store : gmap string string) : State :=
  mkState [] true store [].

Definition setFavorites (favs : list FavoriteDestination) : M State unit :=
  modify (fun st => mkState favs (loading st) (storage st) (events st)).

Definition setLoading (b : bool) : M State unit :=
  modify (fun st => mkState (favorites st) b (storage st) (events st)).

Definition record (e : Event) : M State unit :=
  modify (fun st => mkState (favorites st) (loading st) (storage st)
                            (events st ++ [e])).

Definition AsyncStorage_getItem (env : Env) (key : string)
  : M State (option string) :=
  if getItem_rejects env then throw StorageError
  else (record (GetItem key) ;;; gets (fun st => storage st !! key)).

Definition AsyncStorage_setItem (env : Env) (key data : string)
  : M State unit :=
  if setItem_rejects env then throw StorageError
  else (modify (fun st => mkState (favorites st) (loading st)
                                  (<[key := data]> (storage st))
                                  (events st)) ;;;
        record (SetItem key data)).

Definition loadFavorites (env : Env) : M State unit :=
  tryFinally
    (tryCatch
       (stored <- AsyncStorage_getItem env FAVORITES_KEY ;;
        match stored with
        | Some text =>
            if truthyString text then
              parsed <- settle (revive env text) ;;
              setFavorites parsed
            else ret tt
        | None => ret tt
        end)
       (fun _ => ret tt))
    (setLoading false).

Definition saveFavorites (env : Env) (newFavorites : list FavoriteDestination)
  : M State unit :=
  tryCatch
    (AsyncStorage_setItem env FAVORITES_KEY (JSON_stringify env newFavorites) ;;;
     setFavorites newFavorites)
    (fun error => throw error).

(** The favourite [addFavorite] builds. *)
Definition newFavorite (env : Env) (name_ address_ : string)
           (coordinates : option (number * number)) (placeId_ : option string)
  : FavoriteDestination :=
  mkFavorite (Number_toString (ofZ (Date_now env)))
             name_ address_
             (option_map fst coordinates)
             (option_map snd coordinates)
             placeId_
             (new_Date env).

Definition addFavorite (env : Env) (name_ address_ : string)
           (coordinates : option (number * number)) (placeId_ : option string)
  : M State unit :=
  tryCatch
    (favs <- gets favorites ;;
     let newFavorites :=
       newFavorite env name_ address_ coordinates placeId_ :: favs in
     saveFavorites env newFavorites)
    (fun error => throw error).

Definition removeFavorite (env : Env) (id_ : string) : M State unit :=
  tryCatch
    (favs <- gets favorites ;;
     let newFavorites :=
       List.filter (fun fav => negb (String.eqb (id fav) id_)) favs in
     saveFavorites env newFavorites)
    (fun error => throw error).

Definition updateFavorite (env : Env) (id_ : string) (updates : Updates)
  : M State unit :=
  tryCatch
    (favs <- gets favorites ;;
     let newFavorites :=
       map (fun fav => if String.eqb (id fav) id_ then spread fav updates
                       else fav) favs in
     saveFavorites env newFavorites)
    (fun error => throw error).

End Favorites.

(* ===================================================================== *)
(** * Favourite routes ([useRouteFavorites])                              *)
(* ===================================================================== *)

Module RouteFavorites.

Local Open Scope async_scope.

Definition Date : Type := Z.

(** One end of a [FavoriteRoute]. *)
Record Endpoint : Type := mkEndpoint {
  address : string;
  latitude : option number;
  longitude : option number;
  placeId : option string;
}.

(** [interface FavoriteRoute]. *)
Record FavoriteRoute : Type := mkRoute {
  id : string;
  name : string;
  pickup : Endpoint;
  destination : Endpoint;
  createdAt : Date;
}.

(** [Partial<FavoriteRoute>]. *)
Record Updates : Type := mkUpdates {
  u_id : option string;
  u_name : option string;
  u_pickup : option Endpoint;
  u_destination : option Endpoint;
  u_createdAt : option Date;
}.

(** [{ ...route, ...updates }]. *)
Definition spread (route : FavoriteRoute) (updates : Updates) : FavoriteRoute :=
  mkRoute (Favorites.or_keep (u_id updates) (id route))
          (Favorites.or_keep (u_name updates) (name route))
          (Favorites.or_keep (u_pickup updates) (pickup route))
          (Favorites.or_keep (u_destination updates) (destination route))
          (Favorites.or_keep (u_createdAt updates) (createdAt route)).

Definition ROUTE_FAVORITES_KEY : string := "ride_launcher_route_favorites".

(** As for the favourite places: [JSON.stringify], [JSON.parse] with the
    reviving map, the clock, the storage. *)
Record Env : Type := mkEnv {
  JSON_stringify : list FavoriteRoute -> string;
  revive : string -> Res (list FavoriteRoute);
  Date_now : Z;
  new_Date : Date;
  getItem_rejects : bool;
  setItem_rejects : bool;
}.

Inductive Event : Type :=
| GetItem (key : string)
| SetItem (key data : string)
| Notified (listener : nat).

Record State : Type := mkState {
  routeFavorites : list FavoriteRoute;
  loading : bool;
  storage : gmap string string;
  listeners : list nat;
  events : list Event;
}.

(** [useState([])], [useState(true)]. *)
Definition mount (store : gmap string string) (ls : list nat) : State :=
  mkState [] true store ls [].

Definition setRouteFavorites (routes : list FavoriteRoute) : M State unit :=
  modify (fun st => mkState routes (loading st) (storage st) (listeners st)
                            (events st)).

Definition setLoading (b : bool) : M State unit :=
  modify (fun st => mkState (routeFavorites st) b (storage st) (listeners st)
                            (events st)).

Definition record (e : Event) : M State unit :=
  modify (fun st => mkState (routeFavorites st) (loading st) (storage st)
                            (listeners st) (events st ++ [e])).

Definition AsyncStorage_getItem (env : Env) (key : string)
  : M State (option string) :=
  if getItem_rejects env then throw StorageError
  else (record (GetItem key) ;;; gets (fun st => storage st !! key)).

Definition AsyncStorage_setItem (env : Env) (key data : string)
  : M State unit :=
  if setItem_rejects env then throw StorageError
  else (modify (fun st => mkState (routeFavorites st) (loading st)
                                  (<[key := data]> (storage st))
                                  (listeners st) (events st)) ;;;
        record (SetItem key data)).

(** [routeFavoritesEmitter.emit()]. *)
Definition emit : M State unit :=
  (ls <- gets listeners ;;
   forEach (fun l => record (Notified l)) ls).

Definition loadRouteFavorites (env : Env) : M State unit :=
  tryFinally
    (tryCatch
       (stored <- AsyncStorage_getItem env ROUTE_FAVORITES_KEY ;;
        match stored with
        | Some text =>
            if truthyString text then
              routes <- settle (revive env text) ;;
              setRouteFavorites routes
            else setRouteFavorites []
        | None => setRouteFavorites []
        end)
       (fun _ => setRouteFavorites []))
    (setLoading false).

Definition saveRouteFavorites (env : Env) (newRouteFavorites : list FavoriteRoute)
  : M State unit :=
  tryCatch
    (AsyncStorage_setItem env ROUTE_FAVORITES_KEY
                          (JSON_stringify env newRouteFavorites) ;;;
     setRouteFavorites newRouteFavorites ;;;
     emit)
    (fun error => throw error).

(** The route [addRouteFavorite] builds. *)
Definition newRouteFavorite (env : Env) (name_ : string)
           (pickup_ destination_ : Endpoint) : FavoriteRoute :=
  mkRoute (Number_toString (ofZ (Date_now env))) name_ pickup_ destination_
          (new_Date env).

Definition addRouteFavorite (env : Env) (name_ : string)
           (pickup_ destination_ : Endpoint) : M State FavoriteRoute :=
  tryCatch
    (routes <- gets routeFavorites ;;
     let added := newRouteFavorite env name_ pickup_ destination_ in
     saveRouteFavorites env (added :: routes) ;;;
     ret added)
    (fun error => throw error).

Definition removeRouteFavorite (env : Env) (id_ : string) : M State unit :=
  tryCatch
    (routes <- gets routeFavorites ;;
     let newRouteFavorites :=
       List.filter (fun route => negb (String.eqb (id route) id_)) routes in
     saveRouteFavorites env newRouteFavorites)
    (fun error => throw error).

Definition updateRouteFavorite (env : Env) (id_ : string) (updates : Updates)
  : M State unit :=
  tryCatch
    (routes <- gets routeFavorites ;;
     let newRouteFavorites :=
       map (fun route => if String.eqb (id route) id_
                         then spread route updates else route) routes in
     saveRouteFavorites env newRouteFavorites)
    (fun error => throw error).

End RouteFavorites.

(* ===================================================================== *)
(** * From a favourite to the home screen                                 *)
(* ===================================================================== *)

Module AutoFill.

Import HomeScreen.

(** One end of [interface AutoFillData]. *)
Record Place : Type := mkPlace {
  address : string;
  coordinates : option (number * number);
  placeId : option string;
}.

Inductive Source : Type := favorite_place | favorite_route.

(** [interface AutoFillData]. *)
Record AutoFillData : Type := mkAutoFill {
  pickup : option Place;
  destination : option Place;
  source : Source;
  timestamp : Z;
}.

(** [lat && lng ? { latitude: lat, longitude: lng } : undefined]. *)
Definition coordinatesOf (lat lng : option number) : option (number * number) :=
  match lat, lng with
  | Some a, Some b => if truthyNumber a && truthyNumber b then Some (a, b)
                      else None
  | _, _ => None
  end.

(** What [handleUseFavoritePlace] passes to [setAutoFillData]. *)
Definition handleUseFavoritePlace (now : Z)
           (favorite : Favorites.FavoriteDestination) : AutoFillData :=
  mkAutoFill None
             (Some (mkPlace (Favorites.address favorite)
                            (coordinatesOf (Favorites.latitude favorite)
                                           (Favorites.longitude favorite))
                            (Favorites.placeId favorite)))
             favorite_place now.

Definition placeOf (e : RouteFavorites.Endpoint) : Place :=
  mkPlace (RouteFavorites.address e)
          (coordinatesOf (RouteFavorites.latitude e)
                         (RouteFavorites.longitude e))
          (RouteFavorites.placeId e).

(** What [handleUseRoute] passes to [setAutoFillData]. *)
Definition handleUseRoute (now : Z) (route : RouteFavorites.FavoriteRoute)
  : AutoFillData :=
  mkAutoFill (Some (placeOf (RouteFavorites.pickup route)))
             (Some (placeOf (RouteFavorites.destination route)))
             favorite_route now.

(** The effect of the home screen on [autoFillData], on the cells that
    [handleRideAppPress] reads ([coordinates || null] is the option
    itself). *)
Definition fill (data : AutoFillData) (ui : Screen) : Screen :=
  let ui1 :=
    match pickup data with
    | Some p => mkScreen (address p) (coordinates p) (placeId p)
                         (destinationAddress ui) (destinationCoords ui)
                         (destinationPlaceId ui) (rideApps ui)
    | None => ui
    end in
  match destination data with
  | Some d => mkScreen (pickupAddress ui1) (pickupCoords ui1)
                       (pickupPlaceId ui1)
                       (address d) (coordinates d) (placeId d) (rideApps ui1)
  | None => ui1
  end.

End AutoFill.

(* ===================================================================== *)
(** * Further vocabulary and sample inputs                                *)
(* ===================================================================== *)

Module Shapes.

Import AppManager.

(** A list that is the catalogue up to the [enabled] flags. *)
Definition catalogueShaped (apps : list RideAppConfig) : Prop :=
  Forall2 (fun d a => exists e, a = withEnabled d e) DEFAULT_RIDE_APPS apps.

(** Every flag of the list is a boolean. *)
Definition booleanFlags (apps : list RideAppConfig) : Prop :=
  Forall (fun a => exists b, enabled a = VBool b) apps.

(** The properties of the object a provider is. *)
Definition fieldsOf (app : RideAppConfig) : list (string * value) :=
  match objectOf app with
  | VObject fields => fields
  | _ => []
  end.

(** A stored record names no provider of the catalogue. *)
Definition foreignRecord (r : list (string * value)) : Prop :=
  Forall (fun d => strictEqString (lookupField "id" r) (id d) = false)
         DEFAULT_RIDE_APPS.

(** The characters an encoded component is made of: the unreserved ones
    and the percent sign. *)
Definition componentChar (c : ascii) : bool :=
  uriUnreserved c || Ascii.eqb c "%".

(** The characters that structure a query string or a URI. *)
Definition separators : list ascii :=
  list_ascii_of_string "&=?#/+ :;,@[]".

End Shapes.

Module MoreSamples.

Local Open Scope Z_scope.

(** A runtime whose [JSON.parse] reads back the one text [text] as [v] and
    rejects every other text. *)
Definition parsesOnly (text : string) (v : value) : AppManager.Env :=
  AppManager.mkEnv (fun s => if String.eqb s text then Ok v
                             else Throw SyntaxError)
                   false false.

(** The home screen with both places picked in Rio and two providers. *)
Definition screenRio : HomeScreen.Screen :=
  HomeScreen.mkScreen
    "Rua Senador Vergueiro 218, Rio de Janeiro"
    (Some (decimal (-229068) 4, decimal (-431729) 4)) None
    "Rua do Catete 214, Rio de Janeiro"
    (Some (decimal (-229249) 4, decimal (-431777) 4)) None
    [Samples.uber; Samples.taxis99].

(** A favourite place on the equator: its latitude is [0]. *)
Definition quito : Favorites.FavoriteDestination :=
  Favorites.mkFavorite "1700000000000" "Mitad del Mundo"
                       "Av. Manuel Cordova Galarza, Quito"
                       (Some (ofZ 0)) (Some (decimal (-784558) 4)) None
                       1700000000000.

Definition home : Favorites.FavoriteDestination :=
  Favorites.mkFavorite "1700000000001" "Casa"
                       "Rua do Catete 214, Rio de Janeiro"
                       (Some (decimal (-229249) 4))
                       (Some (decimal (-431777) 4)) None
                       1700000000001.

(** A clock and a storage for the favourite places; the serialisation
    is not looked at. *)
Definition favoritesEnv (now : Z) (getRejects setRejects : bool)
  : Favorites.Env :=
  Favorites.mkEnv (fun _ => "[...]") (fun _ => Throw SyntaxError) now now
                  getRejects setRejects.

Definition rioEnd : RouteFavorites.Endpoint :=
  RouteFavorites.mkEndpoint "Rua Senador Vergueiro 218, Rio de Janeiro"
                            (Some (decimal (-229068) 4))
                            (Some (decimal (-431729) 4)) None.

Definition cateteEnd : RouteFavorites.Endpoint :=
  RouteFavorites.mkEndpoint "Rua do Catete 214, Rio de Janeiro"
                            (Some (decimal (-229249) 4))
                            (Some (decimal (-431777) 4)) None.

Definition commute : RouteFavorites.FavoriteRoute :=
  RouteFavorites.mkRoute "1700000000002" "Trabalho" rioEnd cateteEnd
                         1700000000002.

Definition routesEnv (now : Z) (getRejects setRejects : bool)
  : RouteFavorites.Env :=
  RouteFavorites.mkEnv (fun _ => "[...]") (fun _ => Throw SyntaxError)
                       now now getRejects setRejects.

End MoreSamples.

(* ===================================================================== *)
(** * The runtime model on known values                                   *)
(* ===================================================================== *)

Module RuntimeFacts.

Local Open Scope Z_scope.

(** The literal [-22.9068] is the binary64 value [-0x1.6e8240b780347p+4]. *)
Example literal_bits :
  decimal (-229068) 4 = S754_finite true 6447690996515655 (-48).
Proof. vm_compute. reflexivity. Qed.

Example toString_shortest :
  map Number_toString
      [ decimal 1 1; decimal 15 1; ofZ 100; decimal 1 6; decimal 1 7;
        SFdiv prec emax (ofZ 1) (ofZ 3);
        SFadd prec emax (decimal 1 1) (decimal 2 1);
        ofZ 123456789012345678; ofZ (10 ^ 21);
        S754_finite false 1 (-1074);
        S754_finite false 9007199254740991 971;
        S754_zero true; S754_nan; S754_infinity true ]
  = [ "0.1"; "1.5"; "100"; "0.000001"; "1e-7";
      "0.3333333333333333";
      "0.30000000000000004";
      "123456789012345680"; "1e+21";
      "5e-324";
      "1.7976931348623157e+308";
      "0"; "NaN"; "-Infinity" ].
Proof. vm_compute. reflexivity. Qed.

Example encodeURIComponent_reserved :
  encodeURIComponent "a b&c=d/e?f,g-h_i.j!k~l*m'n(o)p"
  = "a%20b%26c%3Dd%2Fe%3Ff%2Cg-h_i.j!k~l*m'n(o)p".
Proof. vm_compute. reflexivity. Qed.

(** [ã] is the two bytes C3 A3. *)
Example encodeURIComponent_utf8 :
  encodeURIComponent "São Paulo" = "S%C3%A3o%20Paulo".
Proof. vm_compute. reflexivity. Qed.

Example formEncode_brackets :
  formEncode "pickup[formatted_address]" = "pickup%5Bformatted_address%5D"
  /\ formEncode "Rua do Catete 214, Rio" = "Rua+do+Catete+214%2C+Rio".
Proof. split; vm_compute; reflexivity. Qed.

(** A tab, a no-break space (C2 A0) and an ideographic space (E3 80 80)
    around [a b]. *)
Example trim_white_space :
  trim (unbytes [9; 194; 160; 97; 32; 98; 227; 128; 128; 10]%nat) = "a b"
  /\ trim "   " = ""
  /\ trim "" = "".
Proof. repeat split; vm_compute; reflexivity. Qed.

Example replace_first_only :
  replace "market://details?id=market://" "market://" "https://store/"
  = "https://store/details?id=market://".
Proof. vm_compute. reflexivity. Qed.

Example stringify_values :
  stringify (VArray [VUndefined; VNumber (decimal 15 1); VNumber S754_nan;
                     VObject [("a", VUndefined); ("b", VBool true)]])
  = Some ("[null,1.5,null,{" ++ doubleQuote ++ "b" ++ doubleQuote
            ++ ":true}]").
Proof. vm_compute. reflexivity. Qed.

Lemma encodeURIComponent_app (a b : string) :
  encodeURIComponent (a ++ b) = encodeURIComponent a ++ encodeURIComponent b.
Proof.
  induction a as [|c a IH]; [reflexivity|].
  simpl. rewrite IH.
  destruct (uriUnreserved c); reflexivity.
Qed.

Lemma append_nil_r (a : string) : a ++ "" = a.
Proof.
  induction a as [|c a IH]; [reflexivity|].
  change (String c a ++ "") with (String c (a ++ "")). now rewrite IH.
Qed.

Lemma append_assoc (a b c : string) : (a ++ b) ++ c = a ++ b ++ c.
Proof.
  induction a as [|x a IH]; [reflexivity|].
  change ((String x a ++ b) ++ c) with (String x ((a ++ b) ++ c)).
  now rewrite IH.
Qed.

Lemma prefix_append (a b : string) : String.prefix a (a ++ b) = true.
Proof.
  induction a as [|c a IH]; simpl.
  - now destruct b.
  - destruct (ascii_dec c c); [exact IH|contradiction].
Qed.

Lemma includes_prefix (s sub : string) :
  String.prefix sub s = true -> includes s sub = true.
Proof.
  intros Hpre. destruct s; cbn [includes]; rewrite Hpre; reflexivity.
Qed.

(** A string includes each of its infixes. *)
Lemma includes_infix (a b c : string) : includes (a ++ b ++ c) b = true.
Proof.
  induction a as [|x a IH].
  - change ("" ++ b ++ c) with (b ++ c).
    apply includes_prefix, prefix_append.
  - change (String x a ++ b ++ c) with (String x (a ++ b ++ c)).
    cbn [includes]. rewrite IH. apply orb_true_r.
Qed.

End RuntimeFacts.

(* ===================================================================== *)
(** * Properties of the registry                                          *)
(* ===================================================================== *)

Module RegistryFacts.

Import AppManager Registry.

Lemma forEach_notify (ls : list nat) (st : State) :
  forEach (fun l => record (Notified l)) ls st
  = (Ok tt, withEvents st (events st ++ map Notified ls)%list).
Proof.
  revert st. induction ls as [|l ls IH]; intros [apps ld sto lst evs].
  - cbn. unfold withEvents; cbn. now rewrite app_nil_r.
  - cbn [forEach]. unfold bind at 1. cbn. rewrite IH.
    unfold withEvents; cbn. now rewrite <- app_assoc.
Qed.

Lemma emit_events (st : State) :
  emit st = (Ok tt, withEvents st (events st ++ map Notified (listeners st))%list).
Proof.
  unfold emit, bind, gets. apply forEach_notify.
Qed.

(** [subscribe] appends; the function it returns removes the listener. *)
Lemma subscribe_listeners (l : nat) (st : State) :
  listeners (snd (subscribe l st)) = (listeners st ++ [l])%list.
Proof. reflexivity. Qed.

Lemma unsubscribe_listeners (l : nat) (st : State) :
  ~ In l (listeners (snd (unsubscribe l st))).
Proof.
  cbn. intros Hin. apply filter_In in Hin. destruct Hin as [_ Hne].
  now rewrite Nat.eqb_refl in Hne.
Qed.

(** A save whose write succeeds stores the list, publishes it in memory
    and calls the listeners, in that order. *)
Lemma save_resolves (env : Env) (apps : list RideAppConfig) (st : State) :
  setItem_rejects env = false ->
  saveAppConfiguration env apps st = (Ok tt, saved st apps).
Proof.
  intros Hset. destruct st as [a ld sto lst evs].
  unfold saveAppConfiguration, tryCatch, bind, AsyncStorage_setItem.
  rewrite Hset. cbn -[emit]. rewrite emit_events. cbn.
  unfold saved, withEvents, withApps, stored; cbn.
  now rewrite <- app_assoc.
Qed.

(** A save whose write is rejected raises and touches nothing. *)
Lemma save_rejects (env : Env) (apps : list RideAppConfig) (st : State) :
  setItem_rejects env = true ->
  saveAppConfiguration env apps st = (Throw StorageError, st).
Proof.
  intros Hset.
  unfold saveAppConfiguration, tryCatch, bind, AsyncStorage_setItem.
  now rewrite Hset.
Qed.

Lemma toggle_resolves (env : Env) (appId : string) (st : State) :
  setItem_rejects env = false ->
  toggleAppEnabled env appId st
  = (Ok tt, saved st (map (toggleOne appId) (rideApps st))).
Proof.
  intros Hset. unfold toggleAppEnabled, tryCatch, bind, gets.
  now rewrite save_resolves.
Qed.

Lemma toggle_rejects (env : Env) (appId : string) (st : State) :
  setItem_rejects env = true ->
  toggleAppEnabled env appId st = (Throw StorageError, st).
Proof.
  intros Hset. unfold toggleAppEnabled, tryCatch, bind, gets.
  now rewrite save_rejects.
Qed.

Lemma reset_resolves (env : Env) (st : State) :
  setItem_rejects env = false ->
  resetToDefaults env st = (Ok tt, saved st DEFAULT_RIDE_APPS).
Proof.
  intros Hset. unfold resetToDefaults, tryCatch.
  now rewrite save_resolves.
Qed.

Lemma reset_rejects (env : Env) (st : State) :
  setItem_rejects env = true ->
  resetToDefaults env st = (Throw StorageError, st).
Proof.
  intros Hset. unfold resetToDefaults, tryCatch.
  now rewrite save_rejects.
Qed.

(** A toggle with an id that no provider has maps every provider to
    itself. *)
Lemma toggle_unknown_id (appId : string) (apps : list RideAppConfig) :
  Forall (fun app => id app <> appId) apps ->
  map (toggleOne appId) apps = apps.
Proof.
  induction 1 as [|app apps Hne _ IH]; [reflexivity|].
  cbn. rewrite IH. unfold toggleOne.
  destruct (String.eqb_spec (id app) appId); [contradiction|reflexivity].
Qed.

Lemma toggleOne_id (appId : string) (app : RideAppConfig) :
  id (toggleOne appId app) = id app.
Proof.
  unfold toggleOne. now destruct (String.eqb (id app) appId).
Qed.

(** ** The merge *)

Lemma findItem_records (i : string) (records : list (list (string * value))) :
  findItem (fun app => bindRes (getProp app "id")
                         (fun v => Ok (strictEqString v i)))
           (map VObject records)
  = Ok (match overrideFor i records with
        | Some r => VObject r
        | None => VUndefined
        end).
Proof.
  unfold overrideFor.
  induction records as [|r records IH]; [reflexivity|].
  cbn. destruct (strictEqString (lookupField "id" r) i); [reflexivity|].
  exact IH.
Qed.

Lemma mergeOne_records (records : list (list (string * value)))
      (d : RideAppConfig) :
  mergeOne (VArray (map VObject records)) d = Ok (merged records d).
Proof.
  unfold mergeOne, find, merged. rewrite findItem_records.
  now destruct (overrideFor (id d) records).
Qed.

Lemma mergeApps_records (records : list (list (string * value)))
      (defaults : list RideAppConfig) :
  mergeApps defaults (VArray (map VObject records))
  = Ok (map (merged records) defaults).
Proof.
  unfold mergeApps.
  induction defaults as [|d defaults IH]; [reflexivity|].
  cbn [mapRes map]. rewrite mergeOne_records, IH. reflexivity.
Qed.

(** Whatever the stored value, a merge that returns has kept every field
    of the default provider but [enabled]. *)
Lemma mergeOne_frame (v : value) (d m : RideAppConfig) :
  mergeOne v d = Ok m -> exists e, m = withEnabled d e.
Proof.
  unfold mergeOne.
  destruct (find v _) as [storedApp|]; cbn; [|discriminate].
  destruct (truthy storedApp).
  - destruct (getProp storedApp "enabled") as [e|]; cbn; [|discriminate].
    intros [= <-]. now exists e.
  - intros [= <-]. exists (enabled d). now destruct d.
Qed.

Lemma mergeApps_ids (v : value) (defaults ms : list RideAppConfig) :
  mergeApps defaults v = Ok ms -> map id ms = map id defaults.
Proof.
  unfold mergeApps. revert ms.
  induction defaults as [|d defaults IH]; intros ms; cbn.
  - now intros [= <-].
  - destruct (mergeOne v d) as [m|] eqn:Hm; cbn; [|discriminate].
    destruct (mapRes (mergeOne v) defaults) as [ms'|]; cbn; [|discriminate].
    intros [= <-]. cbn. rewrite (IH ms' eq_refl).
    destruct (mergeOne_frame _ _ _ Hm) as [e ->]. reflexivity.
Qed.

(** ** The load *)

(** [loadAppConfiguration] always returns; it clears [loading], leaves
    storage and listeners alone, and either keeps the list or publishes a
    merge. *)
Lemma load_cases (env : Env) (st : State) :
  exists apps evs,
    loadAppConfiguration env st
    = (Ok tt, mkState apps false (storage st) (listeners st) evs)
    /\ (apps = rideApps st
        \/ exists text v,
             getItem_rejects env = false
             /\ storage st !! APP_MANAGER_STORAGE_KEY = Some text
             /\ truthyString text = true
             /\ JSON_parse env text = Ok v
             /\ mergeApps DEFAULT_RIDE_APPS v = Ok apps).
Proof.
  destruct st as [a ld sto lst evs].
  unfold loadAppConfiguration, tryFinally, tryCatch, bind,
    AsyncStorage_getItem.
  destruct (getItem_rejects env) eqn:Hget; cbn -[mergeApps DEFAULT_RIDE_APPS].
  { eexists _, _. split; [reflexivity|now left]. }
  destruct (sto !! APP_MANAGER_STORAGE_KEY) as [text|] eqn:Hsto; cbn -[mergeApps DEFAULT_RIDE_APPS].
  2:{ eexists _, _. split; [reflexivity|now left]. }
  destruct (truthyString text) eqn:Htext; cbn -[mergeApps DEFAULT_RIDE_APPS].
  2:{ eexists _, _. split; [reflexivity|now left]. }
  unfold settle.
  destruct (JSON_parse env text) as [v|] eqn:Hparse; cbn -[mergeApps DEFAULT_RIDE_APPS].
  2:{ eexists _, _. split; [reflexivity|now left]. }
  destruct (mergeApps DEFAULT_RIDE_APPS v) as [ms|] eqn:Hmerge; cbn -[mergeApps DEFAULT_RIDE_APPS].
  2:{ eexists _, _. split; [reflexivity|now left]. }
  eexists _, _. split; [reflexivity|]. right.
  exists text, v. auto.
Qed.

Lemma truthyString_nonempty (text : string) :
  text <> "" -> truthyString text = true.
Proof.
  unfold truthyString. destruct (String.eqb_spec text ""); [contradiction|].
  reflexivity.
Qed.

(** A readable text whose merge returns is published. *)
Lemma load_publishes (env : Env) (st : State) (text : string) (v : value)
      (apps : list RideAppConfig) :
  getItem_rejects env = false ->
  storage st !! APP_MANAGER_STORAGE_KEY = Some text ->
  text <> "" ->
  JSON_parse env text = Ok v ->
  mergeApps DEFAULT_RIDE_APPS v = Ok apps ->
  loadAppConfiguration env st
  = (Ok tt, mkState apps false (storage st) (listeners st)
                    (events st ++ [GetItem APP_MANAGER_STORAGE_KEY])).
Proof.
  intros Hget Hsto Htext Hparse Hmerge.
  destruct st as [a ld sto lst evs]. cbn in Hsto.
  unfold loadAppConfiguration, tryFinally, tryCatch, bind,
    AsyncStorage_getItem, settle.
  rewrite Hget. cbn -[mergeApps DEFAULT_RIDE_APPS].
  rewrite Hsto, (truthyString_nonempty _ Htext), Hparse, Hmerge.
  reflexivity.
Qed.

Lemma load_returns (env : Env) (st : State) :
  fst (loadAppConfiguration env st) = Ok tt.
Proof.
  destruct (load_cases env st) as (apps & evs & -> & _). reflexivity.
Qed.

Lemma load_unreadable (env : Env) (st : State) :
  Unreadable env st ->
  rideApps (snd (loadAppConfiguration env st)) = rideApps st.
Proof.
  intros Hbad.
  destruct (load_cases env st) as (apps & evs & -> & [->|Hmerge]);
    [reflexivity|].
  destruct Hmerge as (text & v & Hget & Hsto & Htext & Hparse & Hmerge).
  exfalso.
  destruct Hbad as [H|H|H|text' e H H'|text' v' e H H' H''];
    try congruence;
    rewrite Hsto in H; injection H as ->; (discriminate || congruence).
Qed.

(** ** Histories *)

Lemma map_toggleOne_ids (appId : string) (apps : list RideAppConfig) :
  map id (map (toggleOne appId) apps) = map id apps.
Proof.
  rewrite map_map. apply map_ext. intros app. apply toggleOne_id.
Qed.

(** No request changes the ids of the list or their order. *)
Lemma perform_ids (r : Request) (st : State) :
  map id (rideApps st) = map id DEFAULT_RIDE_APPS ->
  map id (rideApps (snd (perform r st))) = map id DEFAULT_RIDE_APPS.
Proof.
  intros Hids. destruct r as [env|env appId|env]; cbn [perform].
  - destruct (load_cases env st) as (apps & evs & -> & [->|Hmerge]);
      cbn [snd rideApps]; [exact Hids|].
    destruct Hmerge as (text & v & _ & _ & _ & _ & Hmerge).
    exact (mergeApps_ids _ _ _ Hmerge).
  - destruct (setItem_rejects env) eqn:Hset.
    + now rewrite toggle_rejects.
    + rewrite toggle_resolves by assumption. cbn.
      now rewrite map_toggleOne_ids.
  - destruct (setItem_rejects env) eqn:Hset.
    + now rewrite reset_rejects.
    + now rewrite reset_resolves.
Qed.

Lemma run_ids (rs : list Request) (st : State) :
  map id (rideApps st) = map id DEFAULT_RIDE_APPS ->
  map id (rideApps (run rs st)) = map id DEFAULT_RIDE_APPS.
Proof.
  revert st. induction rs as [|r rs IH]; intros st Hids; cbn [run].
  - exact Hids.
  - apply IH, perform_ids, Hids.
Qed.

Lemma default_ids_distinct : NoDup (map id DEFAULT_RIDE_APPS).
Proof.
  apply (bool_decide_unpack _). vm_compute. exact I.
Qed.

(** ** The projection on the enabled providers *)

Lemma enabledIn_member (apps : list RideAppConfig) (app : RideAppConfig) :
  NoDup (map id apps) -> In app apps ->
  enabledIn apps (id app) = truthy (enabled app).
Proof.
  unfold enabledIn.
  induction apps as [|a apps IH]; cbn; intros Hnd Hin; [contradiction|].
  apply NoDup_cons in Hnd. destruct Hnd as [Hfresh Hnd].
  destruct Hin as [->|Hin].
  - rewrite String.eqb_refl. cbn.
    destruct (truthy (enabled app)); [reflexivity|]. cbn.
    apply not_true_is_false. intros Hex.
    apply existsb_exists in Hex. destruct Hex as (b & Hb & Hcond).
    apply andb_true_iff in Hcond. destruct Hcond as [Heq _].
    apply String.eqb_eq in Heq. apply Hfresh.
    rewrite <- Heq. apply list_elem_of_In, in_map, Hb.
  - destruct (String.eqb_spec (id a) (id app)) as [Heq|_]; cbn.
    + exfalso. apply Hfresh. rewrite Heq.
      apply list_elem_of_In, in_map, Hin.
    + now apply IH.
Qed.

Lemma filter_ids (P : string -> bool) (apps : list RideAppConfig) :
  (forall app, In app apps -> P (id app) = truthy (enabled app)) ->
  map id (List.filter (fun app => truthy (enabled app)) apps)
  = List.filter P (map id apps).
Proof.
  induction apps as [|a apps IH]; cbn; intros HP; [reflexivity|].
  rewrite (HP a (or_introl eq_refl)).
  destruct (truthy (enabled a)); cbn; rewrite IH; auto.
Qed.

Lemma filter_sublist {A} (P : A -> bool) (l : list A) :
  sublist (List.filter P l) l.
Proof.
  induction l as [|x l IH]; cbn; [constructor|].
  destruct (P x); now constructor.
Qed.

End RegistryFacts.

(* ===================================================================== *)
(** * The registry: the stated properties                                 *)
(* ===================================================================== *)

Module RegistryClaims.

Import AppManager Registry RegistryFacts.

(** C2.  The merge of the load: when the stored text parses to an array
    of override records, [loadAppConfiguration] returns and publishes a
    list with one entry per compiled-in provider, in the catalogue's
    order and with the catalogue's ids; each entry is the default
    provider with nothing but [enabled] replaced, and [enabled] is the
    value stored in the (first) override with that id, or the default's
    own value when no override has that id. *)
Theorem C2_load_merges_overrides
        (env : Env) (st : State) (text : string)
        (records : list (list (string * value))) :
  getItem_rejects env = false ->
  storage st !! APP_MANAGER_STORAGE_KEY = Some text ->
  text <> "" ->
  JSON_parse env text = Ok (VArray (map VObject records)) ->
  let apps := rideApps (snd (loadAppConfiguration env st)) in
  fst (loadAppConfiguration env st) = Ok tt
  /\ length apps = length DEFAULT_RIDE_APPS
  /\ map id apps = map id DEFAULT_RIDE_APPS
  /\ Forall2 (fun d m =>
                m = withEnabled d
                      (match overrideFor (id d) records with
                       | Some r => lookupField "enabled" r
                       | None => enabled d
                       end))
             DEFAULT_RIDE_APPS apps.
Proof.
  intros Hget Hsto Htext Hparse apps. subst apps.
  rewrite (load_publishes env st text _ _ Hget Hsto Htext Hparse
             (mergeApps_records records DEFAULT_RIDE_APPS)).
  cbn [fst snd rideApps].
  split; [reflexivity|].
  split; [now rewrite length_map|].
  split.
  - rewrite map_map. apply map_ext. intros d. unfold merged.
    now destruct (overrideFor (id d) records).
  - induction DEFAULT_RIDE_APPS as [|d ds IH]; cbn [map]; constructor.
    + unfold merged. destruct (overrideFor (id d) records); [reflexivity|].
      now destruct d.
    + exact IH.
Qed.

(** The stored overrides of the witness: [uber] switched off, [bolt]
    switched on, and a record for an id the catalogue does not have. *)
Lemma C2_witness :
  map enabled
      (rideApps
         (snd (loadAppConfiguration
                 (Samples.parsesTo
                    (VArray (map VObject
                       [ [("id", VString "uber"); ("enabled", VBool false)];
                         [("id", VString "bolt"); ("enabled", VBool true)];
                         [("id", VString "cabify"); ("enabled", VBool true)]
                       ])))
                 (mount {[ APP_MANAGER_STORAGE_KEY := "[...]" ]} []))))
  = map VBool [false; true; true; false; false; true; false; false; false;
               false]
  /\ map id
         (rideApps
            (snd (loadAppConfiguration
                 (Samples.parsesTo
                    (VArray (map VObject
                       [ [("id", VString "uber"); ("enabled", VBool false)];
                         [("id", VString "bolt"); ("enabled", VBool true)];
                         [("id", VString "cabify"); ("enabled", VBool true)]
                       ])))
                 (mount {[ APP_MANAGER_STORAGE_KEY := "[...]" ]} []))))
     = map id DEFAULT_RIDE_APPS.
Proof.
  destruct (C2_load_merges_overrides
              (Samples.parsesTo
                 (VArray (map VObject
                    [ [("id", VString "uber"); ("enabled", VBool false)];
                      [("id", VString "bolt"); ("enabled", VBool true)];
                      [("id", VString "cabify"); ("enabled", VBool true)]
                    ])))
              (mount {[ APP_MANAGER_STORAGE_KEY := "[...]" ]} [])
              "[...]"
              [ [("id", VString "uber"); ("enabled", VBool false)];
                [("id", VString "bolt"); ("enabled", VBool true)];
                [("id", VString "cabify"); ("enabled", VBool true)] ])
    as (_ & _ & Hids & _).
  - reflexivity.
  - vm_compute. reflexivity.
  - discriminate.
  - reflexivity.
  - split; [vm_compute; reflexivity | exact Hids].
Defined.

(** C6, as the code has it.  When the write of a toggle is rejected, the
    error reaches the caller and nothing else happens: the list in memory
    is the one before the toggle (the flag is not flipped), storage is
    untouched and no listener is called. *)
Theorem C6_rejected_write_keeps_memory
        (env : Env) (appId : string) (st : State) :
  setItem_rejects env = true ->
  toggleAppEnabled env appId st = (Throw StorageError, st)
  /\ rideApps (snd (toggleAppEnabled env appId st)) = rideApps st
  /\ getEnabledApps (snd (toggleAppEnabled env appId st)) = getEnabledApps st.
Proof.
  intros Hset. rewrite (toggle_rejects env appId st Hset). auto.
Qed.

Lemma C6_witness :
  setItem_rejects (Samples.noJSON false true) = true
  /\ toggleAppEnabled (Samples.noJSON false true) "uber" (mount ∅ [7])
     = (Throw StorageError, mount ∅ [7]).
Proof.
  split; [reflexivity|].
  apply (C6_rejected_write_keeps_memory (Samples.noJSON false true) "uber"
           (mount ∅ [7])).
  reflexivity.
Defined.

(** C6, as stated, fails: the user switches [uber] off on a freshly
    mounted registry and the write is rejected; the call raises, and
    [uber] is still switched on in memory. *)
Lemma C6_counterexample :
  fst (toggleAppEnabled (Samples.noJSON false true) "uber" (mount ∅ [7]))
  = Throw StorageError
  /\ enabledIn (rideApps (mount ∅ [7])) "uber" = true
  /\ enabledIn
       (rideApps (snd (toggleAppEnabled (Samples.noJSON false true) "uber"
                                        (mount ∅ [7]))))
       "uber" = true
  /\ map id
       (getEnabledApps
          (snd (toggleAppEnabled (Samples.noJSON false true) "uber"
                                 (mount ∅ [7]))))
     = ["uber"; "99"; "lyft"].
Proof.
  repeat split; vm_compute; reflexivity.
Qed.

(** What [loadAppConfiguration] does on a read that gives nothing to
    merge (rejected read, missing key, empty text, text that does not
    parse, parsed value on which the merge raises): it never raises and
    clears [loading], and its [catch] calls no setter, so the list in
    memory is the one the hook held before the load.  On a hook that has
    just been mounted that list is the compiled-in one, which is the only
    reason the defaults are seen there. *)
Lemma load_never_raises_keeps_list (env : Env) (st : State) :
  fst (loadAppConfiguration env st) = Ok tt
  /\ loading (snd (loadAppConfiguration env st)) = false
  /\ (Unreadable env st ->
      rideApps (snd (loadAppConfiguration env st)) = rideApps st)
  /\ (forall store ls,
        st = mount store ls -> Unreadable env st ->
        rideApps (snd (loadAppConfiguration env st)) = DEFAULT_RIDE_APPS).
Proof.
  split; [apply load_returns|].
  split.
  { destruct (load_cases env st) as (apps & evs & -> & _). reflexivity. }
  split; [apply load_unreadable|].
  intros store ls -> Hbad. now rewrite load_unreadable.
Qed.

(** A stored value of the wrong shape: an array that holds [null]. *)
Lemma load_never_raises_keeps_list_witness :
  Unreadable (Samples.parsesTo (VArray [VNull]))
             (mount {[ APP_MANAGER_STORAGE_KEY := "[null]" ]} [])
  /\ fst (loadAppConfiguration
            (Samples.parsesTo (VArray [VNull]))
            (mount {[ APP_MANAGER_STORAGE_KEY := "[null]" ]} []))
     = Ok tt
  /\ rideApps (snd (loadAppConfiguration
                      (Samples.parsesTo (VArray [VNull]))
                      (mount {[ APP_MANAGER_STORAGE_KEY := "[null]" ]} [])))
     = DEFAULT_RIDE_APPS.
Proof.
  assert (Hbad : Unreadable (Samples.parsesTo (VArray [VNull]))
                   (mount {[ APP_MANAGER_STORAGE_KEY := "[null]" ]} [])).
  { apply (merge_raises _ _ "[null]" (VArray [VNull]) TypeError);
      vm_compute; reflexivity. }
  split; [exact Hbad|].
  destruct (load_never_raises_keeps_list
              (Samples.parsesTo (VArray [VNull]))
              (mount {[ APP_MANAGER_STORAGE_KEY := "[null]" ]} []))
    as (_ & _ & _ & Hdefaults).
  specialize (Hdefaults _ _ eq_refl Hbad).
  split; [apply load_returns | exact Hdefaults].
Defined.

(** C7.  On a read or parse error the load is to yield exactly the
    compiled-in list, and the [catch] of [loadAppConfiguration] says so
    ("just use defaults"), but it calls no setter.  On a reload the code
    departs from that: the user switches [bolt] on and the write succeeds;
    the emitter calls the listener of the hook, whose read is rejected.
    The load returns without raising, and the list in memory still has
    [bolt] switched on, where the compiled-in list has it switched off.
    ([loadRouteFavorites] does reset its list on the same path.) *)
Theorem C7_failed_reload_keeps_toggled_list :
  Unreadable (Samples.noJSON true false)
             (snd (toggleAppEnabled (Samples.noJSON false false) "bolt"
                                    (mount ∅ [7])))
  /\ events (snd (toggleAppEnabled (Samples.noJSON false false) "bolt"
                                   (mount ∅ [7])))
     = [SetItem APP_MANAGER_STORAGE_KEY
                (JSON_stringify (map (toggleOne "bolt") DEFAULT_RIDE_APPS));
        Notified 7]
  /\ fst (loadAppConfiguration (Samples.noJSON true false)
            (snd (toggleAppEnabled (Samples.noJSON false false) "bolt"
                                   (mount ∅ [7]))))
     = Ok tt
  /\ enabledIn
       (rideApps
          (snd (loadAppConfiguration (Samples.noJSON true false)
                  (snd (toggleAppEnabled (Samples.noJSON false false) "bolt"
                                         (mount ∅ [7]))))))
       "bolt" = true
  /\ enabledIn DEFAULT_RIDE_APPS "bolt" = false.
Proof.
  split; [apply read_rejected; reflexivity|].
  repeat split; vm_compute; reflexivity.
Qed.

(** C8.  Whatever requests a mounted hook has served (toggles in any
    order, with reloads and resets among them, each write or read
    succeeding or not), its list has the ids of the compiled-in catalogue
    in the catalogue's order, and [getEnabledApps] returns exactly the
    catalogue's providers that are switched on, in the catalogue's order:
    an order-preserving sub-list of the catalogue. *)
Theorem C8_enabled_in_catalogue_order
        (rs : list Request) (store : gmap string string) (ls : list nat) :
  let st := run rs (mount store ls) in
  map id (rideApps st) = map id DEFAULT_RIDE_APPS
  /\ map id (getEnabledApps st)
     = List.filter (enabledIn (rideApps st)) (map id DEFAULT_RIDE_APPS)
  /\ sublist (map id (getEnabledApps st)) (map id DEFAULT_RIDE_APPS).
Proof.
  intros st.
  assert (Hids : map id (rideApps st) = map id DEFAULT_RIDE_APPS)
    by (apply run_ids; reflexivity).
  assert (Hen : map id (getEnabledApps st)
                = List.filter (enabledIn (rideApps st)) (map id (rideApps st))).
  { apply filter_ids. intros app Hin. apply enabledIn_member; [|exact Hin].
    rewrite Hids. apply default_ids_distinct. }
  split; [exact Hids|].
  split; [now rewrite Hen, Hids|].
  rewrite Hen, Hids. apply filter_sublist.
Qed.

(** Scenario D and the two-toggle scenario: [bolt] switched on comes
    after [lyft]; [grab] and then [bolt] switched on, [uber] switched off:
    [bolt] stands before [grab] although it was toggled later. *)
Example toggles_keep_catalogue_order (env : Env) :
  setItem_rejects env = false ->
  map id (getEnabledApps (run [Toggle env "bolt"] (mount ∅ [])))
  = ["uber"; "99"; "lyft"; "bolt"]
  /\ map id (getEnabledApps
               (run [Toggle env "grab"; Toggle env "bolt"; Toggle env "uber"]
                    (mount ∅ [])))
     = ["99"; "lyft"; "bolt"; "grab"].
Proof.
  intros Hset. cbn [run perform].
  repeat (rewrite toggle_resolves by assumption; cbn [snd]).
  split; reflexivity.
Qed.

(** C9.  A toggle and a reset whose write succeeds leave, after the
    events there were, the completed write and then one call of every
    subscribed listener, in the order of subscription; the stored text is
    the serialisation of the list they publish.  When the write is
    rejected they raise and leave the state as it was: no listener is
    called. *)
Theorem C9_listeners_called_after_write
        (env : Env) (appId : string) (st : State) :
  let toggled := map (toggleOne appId) (rideApps st) in
  (if setItem_rejects env
   then toggleAppEnabled env appId st = (Throw StorageError, st)
        /\ resetToDefaults env st = (Throw StorageError, st)
   else fst (toggleAppEnabled env appId st) = Ok tt
        /\ events (snd (toggleAppEnabled env appId st))
           = (events st
                ++ SetItem APP_MANAGER_STORAGE_KEY (JSON_stringify toggled)
                :: map Notified (listeners st))%list
        /\ storage (snd (toggleAppEnabled env appId st))
             !! APP_MANAGER_STORAGE_KEY
           = Some (JSON_stringify toggled)
        /\ fst (resetToDefaults env st) = Ok tt
        /\ events (snd (resetToDefaults env st))
           = (events st
                ++ SetItem APP_MANAGER_STORAGE_KEY
                           (JSON_stringify DEFAULT_RIDE_APPS)
                :: map Notified (listeners st))%list
        /\ storage (snd (resetToDefaults env st))
             !! APP_MANAGER_STORAGE_KEY
           = Some (JSON_stringify DEFAULT_RIDE_APPS)).
Proof.
  intros toggled. destruct (setItem_rejects env) eqn:Hset.
  - now rewrite toggle_rejects, reset_rejects.
  - rewrite toggle_resolves, reset_resolves by assumption.
    cbn [fst snd saved withEvents withApps stored events storage].
    rewrite !lookup_insert_eq. auto 10.
Qed.

(** C10.  A toggle with an id that no provider of the list has, and whose
    write succeeds, returns without raising and leaves every provider as
    it was; it still writes the serialisation of that unchanged list and
    calls every listener. *)
Theorem C10_toggle_unknown_id_changes_nothing
        (env : Env) (appId : string) (st : State) :
  Forall (fun app => id app <> appId) (rideApps st) ->
  setItem_rejects env = false ->
  fst (toggleAppEnabled env appId st) = Ok tt
  /\ rideApps (snd (toggleAppEnabled env appId st)) = rideApps st
  /\ events (snd (toggleAppEnabled env appId st))
     = (events st
          ++ SetItem APP_MANAGER_STORAGE_KEY (JSON_stringify (rideApps st))
          :: map Notified (listeners st))%list
  /\ storage (snd (toggleAppEnabled env appId st))
     = <[APP_MANAGER_STORAGE_KEY := JSON_stringify (rideApps st)]> (storage st).
Proof.
  intros Hunknown Hset.
  rewrite toggle_resolves by assumption.
  rewrite (toggle_unknown_id _ _ Hunknown).
  cbn. auto.
Qed.

Lemma C10_witness :
  rideApps (snd (toggleAppEnabled (Samples.noJSON false false) "cabify"
                                  (mount ∅ [7; 9])))
  = DEFAULT_RIDE_APPS
  /\ events (snd (toggleAppEnabled (Samples.noJSON false false) "cabify"
                                   (mount ∅ [7; 9])))
     = [SetItem APP_MANAGER_STORAGE_KEY (JSON_stringify DEFAULT_RIDE_APPS);
        Notified 7; Notified 9].
Proof.
  destruct (C10_toggle_unknown_id_changes_nothing
              (Samples.noJSON false false) "cabify" (mount ∅ [7; 9]))
    as (_ & Happs & Hevents & _).
  - cbn [rideApps mount].
    apply Forall_forall. intros app Hin.
    apply list_elem_of_In in Hin. cbn in Hin.
    repeat (destruct Hin as [<-|Hin]; [discriminate|]). destruct Hin.
  - reflexivity.
  - split; [exact Happs | exact Hevents].
Defined.

End RegistryClaims.


(* ===================================================================== *)
(** * Properties of the dispatch                                          *)
(* ===================================================================== *)

Module DispatchFacts.

Import RideApps.

Lemma isWeb_false (os : OS) : os <> web -> isWeb os = false.
Proof. destruct os; intros H; [reflexivity..|contradiction]. Qed.

(** The builder has nothing for an id outside its cases. *)
Lemma createDeepLink_unknown (os : OS) (app : RideAppConfig)
      (pickup destination : LocationData) :
  ~ In (id app) knownIds ->
  createDeepLink os app pickup destination = "".
Proof.
  intros Hunknown. unfold createDeepLink.
  repeat match goal with
         | |- context [String.eqb (id app) ?s] =>
             destruct (String.eqb_spec (id app) s) as [Heq|_];
             [exfalso; apply Hunknown; rewrite Heq; cbn; tauto|]
         end.
  reflexivity.
Qed.

Lemma unknown_not_prefill (app : RideAppConfig) :
  ~ In (id app) knownIds -> existsb (String.eqb (id app)) prefillIds = false.
Proof.
  intros Hunknown. apply not_true_is_false. intros Hex.
  apply existsb_exists in Hex. destruct Hex as (i & Hin & Heq).
  apply String.eqb_eq in Heq. apply Hunknown. rewrite Heq.
  cbn in Hin |- *. tauto.
Qed.

(** The run of a native dispatch, by the answers of the platform. *)
Lemma native_run (env : Env) (app : RideAppConfig)
      (pickup destination : LocationData) :
  isWeb (Platform_OS env) = false ->
  let link := createDeepLink (Platform_OS env) app pickup destination in
  openRideApp env app pickup destination idle
  = (Ok tt,
     mkState false
       (CanOpenURL link ::
        match Linking_canOpenURL env link with
        | Ok true =>
            OpenURL link ::
            match Linking_openURL env link with
            | Ok _ =>
                if existsb (String.eqb (id app)) prefillIds
                then [openedAlert env app pickup destination]
                else []
            | Throw _ => [linkingErrorAlert env app pickup destination]
            end
        | Ok false => [notInstalledAlert env app pickup destination]
        | Throw _ => [linkingErrorAlert env app pickup destination]
        end)).
Proof.
  intros Hnative link. subst link.
  unfold openRideApp, tryFinally, tryCatch, bind, canOpenURL, openURL, settle.
  rewrite Hnative. cbn -[createDeepLink existsb].
  destruct (Linking_canOpenURL env _) as [[|]|]; cbn -[createDeepLink existsb];
    [|reflexivity..].
  destruct (Linking_openURL env _); cbn -[createDeepLink existsb];
    [|reflexivity].
  destruct (existsb _ _); reflexivity.
Qed.

(** On a native platform every dispatch starts by asking [canOpenURL]
    about the link it built, whatever the route. *)
Lemma native_asks_first (env : Env) (app : RideAppConfig)
      (pickup destination : LocationData) :
  isWeb (Platform_OS env) = false ->
  exists rest,
    dispatch env app pickup destination
    = CanOpenURL (createDeepLink (Platform_OS env) app pickup destination)
        :: rest.
Proof.
  intros Hnative. unfold dispatch.
  rewrite (native_run env app pickup destination Hnative).
  cbn [snd calls]. eexists. reflexivity.
Qed.

(** The run of a dispatch in the browser. *)
Lemma web_run (env : Env) (app : RideAppConfig)
      (pickup destination : LocationData) :
  isWeb (Platform_OS env) = true ->
  id app <> "uber" ->
  openRideApp env app pickup destination idle
  = (Ok tt, mkState false [webUnsupportedAlert env app]).
Proof.
  intros Hweb Hid.
  unfold openRideApp, tryFinally, tryCatch, bind.
  rewrite Hweb. destruct (String.eqb_spec (id app) "uber"); [contradiction|].
  reflexivity.
Qed.

(** Off the web, the Uber link carries the action and both encoded
    addresses, whatever the route. *)
Lemma uber_link_carries_addresses (os : OS) (app : RideAppConfig)
      (pickup destination : LocationData) :
  os <> web -> id app = "uber" ->
  let link := createDeepLink os app pickup destination in
  includes link "action=setPickup" = true
  /\ includes link (encodeURIComponent (address pickup)) = true
  /\ includes link (encodeURIComponent (address destination)) = true.
Proof.
  intros Hnative Hid link. subst link. apply isWeb_false in Hnative.
  unfold createDeepLink. rewrite Hid, Hnative.
  cbn [String.eqb Ascii.eqb Bool.eqb negb].
  set (p := encodeURIComponent (address pickup)).
  set (d := encodeURIComponent (address destination)).
  split; [|split].
  - apply (RuntimeFacts.includes_infix "uber://?" "action=setPickup"
             ("&pickup[formatted_address]=" ++ p
                ++ "&dropoff[formatted_address]=" ++ d)).
  - apply (RuntimeFacts.includes_infix
             "uber://?action=setPickup&pickup[formatted_address]=" p
             ("&dropoff[formatted_address]=" ++ d)).
  - replace ("uber://?action=setPickup&pickup[formatted_address]=" ++ p
               ++ "&dropoff[formatted_address]=" ++ d)
      with (("uber://?action=setPickup&pickup[formatted_address]=" ++ p
               ++ "&dropoff[formatted_address]=") ++ d ++ "").
    + apply RuntimeFacts.includes_infix.
    + rewrite RuntimeFacts.append_nil_r, !RuntimeFacts.append_assoc.
      reflexivity.
Qed.

(** The two branches of the browser, and the one way into the generic
    error: the browser call raises. *)
Example browser_opens_uber :
  dispatch Samples.browser Samples.uber Samples.pickupRio
           Samples.destinationRio
  = [ OpenBrowserAsync "https://m.uber.com/ul/?action=setPickup&pickup%5Bformatted_address%5D=Rua+Senador+Vergueiro+218%2C+Rio+de+Janeiro&dropoff%5Bformatted_address%5D=Rua+do+Catete+214%2C+Rio+de+Janeiro&pickup%5Blatitude%5D=-22.9068&pickup%5Blongitude%5D=-43.1729&dropoff%5Blatitude%5D=-22.9249&dropoff%5Blongitude%5D=-43.1777" ].
Proof. vm_compute. reflexivity. Qed.

Example browser_offers_store :
  dispatch Samples.browser Samples.taxis99 Samples.pickupRio
           Samples.destinationRio
  = [ Alert "99 rideApp.notInstalled" "rideApp.webNotSupported"
        [ mkButton "alert.cancel" (Some "cancel") None;
          mkButton "alert.openPlayStore" None
            (Some (PressWindowOpen
                     "https://play.google.com/store/apps/details?id=com.taxis99"
                     "_blank")) ] ].
Proof. vm_compute. reflexivity. Qed.

Example browser_failure_is_caught :
  openRideApp (mkEnv web Samples.t_key (fun _ => Ok true) (fun _ => Ok tt)
                     (fun _ => Throw LinkingError))
              Samples.taxis99 Samples.pickupRio Samples.destinationRio idle
  = (Ok tt,
     mkState false
       [ Alert "99 rideApp.notInstalled" "rideApp.webNotSupported"
           [ mkButton "alert.cancel" (Some "cancel") None;
             mkButton "alert.openPlayStore" None
               (Some (PressWindowOpen
                        "https://play.google.com/store/apps/details?id=com.taxis99"
                        "_blank")) ] ])
  /\ openRideApp (mkEnv web Samples.t_key (fun _ => Ok true) (fun _ => Ok tt)
                        (fun _ => Throw LinkingError))
                 Samples.cabify Samples.pickupRio Samples.destinationRio idle
     = (Ok tt,
        mkState false
          [ Alert "Cabify rideApp.notInstalled" "rideApp.webNotSupported"
              [ mkButton "alert.cancel" (Some "cancel") None;
                mkButton "alert.openPlayStore" None
                  (Some (PressWindowOpen
                           "https://play.google.com/store/apps/details?id=com.cabify.rider"
                           "_blank")) ] ])
  /\ calls (snd (openRideApp
                   (mkEnv web Samples.t_key (fun _ => Ok true)
                          (fun _ => Ok tt) (fun _ => Throw LinkingError))
                   Samples.uber Samples.pickupRio Samples.destinationRio idle))
     = [ OpenBrowserAsync
           (createDeepLink web Samples.uber Samples.pickupRio
                           Samples.destinationRio);
         Alert "alert.error" "rideApp.errorOpening" [] ].
Proof. repeat split; vm_compute; reflexivity. Qed.

End DispatchFacts.

(* ===================================================================== *)
(** * The dispatch: the stated properties                                 *)
(* ===================================================================== *)

Module DispatchClaims.

Import RideApps HomeScreen DispatchFacts.

(** C1, as the code has it.  The gate on the route is in the handler of
    the home screen: when the pickup or the destination address is blank,
    or the coordinates of either end are missing, [handleRideAppPress]
    shows its alert (addresses first, then coordinates), returns, and
    makes no call into the platform.  [openRideApp] has no such gate: on a
    native platform it asks [canOpenURL] about the link built from
    whatever route it is given. *)
Theorem C1_route_gate_in_handler
        (env : Env) (ui : Screen) (appIndex : nat) :
  trim (pickupAddress ui) = "" \/ trim (destinationAddress ui) = ""
  \/ pickupCoords ui = None \/ destinationCoords ui = None ->
  let blank := negb (truthyString (trim (pickupAddress ui)))
               || negb (truthyString (trim (destinationAddress ui))) in
  handleRideAppPress env ui appIndex idle
  = (Ok tt,
     mkState false [if blank then requiredAddressesAlert env
                    else coordinatesRequiredAlert env])
  /\ platformCalls (calls (snd (handleRideAppPress env ui appIndex idle))) = []
  /\ (forall app pickup destination,
        isWeb (Platform_OS env) = false ->
        exists rest,
          dispatch env app pickup destination
          = CanOpenURL
              (createDeepLink (Platform_OS env) app pickup destination)
              :: rest).
Proof.
  intros Hbad blank.
  assert (Hrun : handleRideAppPress env ui appIndex idle
                 = (Ok tt,
                    mkState false [if blank then requiredAddressesAlert env
                                   else coordinatesRequiredAlert env])).
  { unfold handleRideAppPress. fold blank.
    destruct blank eqn:Hblank; [reflexivity|].
    apply orb_false_iff in Hblank. destruct Hblank as [Hp Hd].
    apply negb_false_iff in Hp, Hd.
    destruct Hbad as [H|[H|Hcoords]];
      [rewrite H in Hp; discriminate | rewrite H in Hd; discriminate |].
    destruct (pickupCoords ui) as [[latO lngO]|],
             (destinationCoords ui) as [[latD lngD]|];
      try reflexivity.
    destruct Hcoords; discriminate. }
  split; [exact Hrun|].
  split.
  - rewrite Hrun. cbn [snd calls]. now destruct blank.
  - intros app pickup destination Hnative. now apply native_asks_first.
Qed.

(** A screen with both addresses typed in and no place picked for the
    destination: the coordinates of the destination are missing. *)
Lemma C1_witness :
  handleRideAppPress
    (Samples.native (Ok true))
    (mkScreen "Rua Senador Vergueiro 218, Rio de Janeiro"
              (Some (decimal (-229068) 4, decimal (-431729) 4)) None
              "Rua do Catete 214, Rio de Janeiro" None None
              [Samples.uber])
    0 idle
  = (Ok tt, mkState false [coordinatesRequiredAlert (Samples.native (Ok true))]).
Proof.
  destruct (C1_route_gate_in_handler
              (Samples.native (Ok true))
              (mkScreen "Rua Senador Vergueiro 218, Rio de Janeiro"
                        (Some (decimal (-229068) 4, decimal (-431729) 4)) None
                        "Rua do Catete 214, Rio de Janeiro" None None
                        [Samples.uber])
              0) as (Hrun & _).
  - right. right. right. reflexivity.
  - exact Hrun.
Defined.

(** C1, as stated, fails: [openRideApp] is given a route whose pickup
    address is empty, on a native platform where the Uber app is
    installed.  It shows no error; it asks [canOpenURL] and then opens the
    link it built around the empty address. *)
Lemma C1_counterexample :
  address Samples.pickupNoAddress = ""
  /\ openRideApp (Samples.native (Ok true)) Samples.uber
                 Samples.pickupNoAddress Samples.destinationRio idle
     = (Ok tt,
        mkState false
          [ CanOpenURL "uber://?action=setPickup&pickup[formatted_address]=&dropoff[formatted_address]=Rua%20do%20Catete%20214%2C%20Rio%20de%20Janeiro";
            OpenURL "uber://?action=setPickup&pickup[formatted_address]=&dropoff[formatted_address]=Rua%20do%20Catete%20214%2C%20Rio%20de%20Janeiro";
            openedAlert (Samples.native (Ok true)) Samples.uber
                        Samples.pickupNoAddress Samples.destinationRio ])
  /\ platformCalls
       (dispatch (Samples.native (Ok true)) Samples.uber
                 Samples.pickupNoAddress Samples.destinationRio)
     = [ CanOpenURL "uber://?action=setPickup&pickup[formatted_address]=&dropoff[formatted_address]=Rua%20do%20Catete%20214%2C%20Rio%20de%20Janeiro";
         OpenURL "uber://?action=setPickup&pickup[formatted_address]=&dropoff[formatted_address]=Rua%20do%20Catete%20214%2C%20Rio%20de%20Janeiro" ].
Proof.
  repeat split; vm_compute; reflexivity.
Qed.

(** C3.  Scenarios A and B.  For the route from Rua Senador Vergueiro 218
    (-22.9068, -43.1729) to Rua do Catete 214 (-22.9249, -43.1777), off
    the web, the link built for a provider whose id is [uber] contains
    [action=setPickup] and the two percent-encoded addresses, and the
    link built for a provider whose id is [99] contains the four
    coordinates under [pickup_latitude], [pickup_longitude],
    [dropoff_latitude] and [dropoff_longitude]. *)
Theorem C3_scenario_links (os : OS) (app : RideAppConfig) :
  os <> web ->
  let link := createDeepLink os app Samples.pickupRio Samples.destinationRio in
  (id app = "uber" ->
   link = "uber://?action=setPickup&pickup[formatted_address]=Rua%20Senador%20Vergueiro%20218%2C%20Rio%20de%20Janeiro&dropoff[formatted_address]=Rua%20do%20Catete%20214%2C%20Rio%20de%20Janeiro"
   /\ includes link "action=setPickup" = true
   /\ encodeURIComponent (address Samples.pickupRio)
      = "Rua%20Senador%20Vergueiro%20218%2C%20Rio%20de%20Janeiro"
   /\ includes link (encodeURIComponent (address Samples.pickupRio)) = true
   /\ encodeURIComponent (address Samples.destinationRio)
      = "Rua%20do%20Catete%20214%2C%20Rio%20de%20Janeiro"
   /\ includes link (encodeURIComponent (address Samples.destinationRio))
      = true)
  /\ (id app = "99" ->
      link = "taxis99://call?pickup_latitude=-22.9068&pickup_longitude=-43.1729&pickup_title=Rua%20Senador%20Vergueiro%20218%2C%20Rio%20de%20Janeiro&dropoff_latitude=-22.9249&dropoff_longitude=-43.1777&dropoff_title=Rua%20do%20Catete%20214%2C%20Rio%20de%20Janeiro"
      /\ includes link "pickup_latitude=-22.9068" = true
      /\ includes link "pickup_longitude=-43.1729" = true
      /\ includes link "dropoff_latitude=-22.9249" = true
      /\ includes link "dropoff_longitude=-43.1777" = true).
Proof.
  intros Hnative link. subst link. apply isWeb_false in Hnative.
  unfold createDeepLink. rewrite Hnative.
  split; intros ->; cbn [String.eqb Ascii.eqb Bool.eqb negb];
    repeat split; vm_compute; reflexivity.
Qed.

Lemma C3_witness :
  includes (createDeepLink android Samples.uber Samples.pickupRio
                           Samples.destinationRio)
           "action=setPickup" = true
  /\ includes (createDeepLink android Samples.taxis99 Samples.pickupRio
                              Samples.destinationRio)
              "dropoff_longitude=-43.1777" = true.
Proof.
  split.
  - destruct (C3_scenario_links android Samples.uber) as [Huber _];
      [discriminate|].
    destruct (Huber eq_refl) as (_ & H & _). exact H.
  - destruct (C3_scenario_links android Samples.taxis99) as [_ H99];
      [discriminate|].
    destruct (H99 eq_refl) as (_ & _ & _ & _ & H). exact H.
Defined.

(** C4.  On a native platform, for every provider and every route, when
    [canOpenURL] answers [false] for the link that was built, the
    dispatch returns after exactly two calls: the question, and the
    not-installed prompt with a cancel button and a store button whose
    press opens the store listing of the provider.  [openURL] is not
    called at all, so not on the link. *)
Theorem C4_cannot_open_prompts_install
        (env : Env) (app : RideAppConfig) (pickup destination : LocationData) :
  Platform_OS env <> web ->
  Linking_canOpenURL env
    (createDeepLink (Platform_OS env) app pickup destination) = Ok false ->
  let link := createDeepLink (Platform_OS env) app pickup destination in
  openRideApp env app pickup destination idle
  = (Ok tt,
     mkState false
       [ CanOpenURL link;
         Alert (name app ++ " " ++ t env "rideApp.notInstalled" [])
               (t env "rideApp.appNotInstalled" [("appName", name app)]
                  ++ nl ++ nl ++ t env "rideApp.manualEntry" [] ++ nl
                  ++ addressLines env pickup destination)
               [ mkButton (t env "alert.cancel" []) (Some "cancel") None;
                 mkButton (t env "alert.openPlayStore" []) None
                          (Some (PressOpenURL (playStoreUrl app))) ] ])
  /\ (forall url, ~ In (OpenURL url) (dispatch env app pickup destination))
  /\ platformCalls (dispatch env app pickup destination) = [CanOpenURL link].
Proof.
  intros Hnative Hcannot link. apply isWeb_false in Hnative.
  assert (Hrun := native_run env app pickup destination Hnative).
  cbv zeta in Hrun. fold link in Hrun, Hcannot. rewrite Hcannot in Hrun.
  unfold dispatch. rewrite Hrun. cbn [snd calls].
  split; [reflexivity|]. split; [|reflexivity].
  intros url [H|[H|[]]]; discriminate.
Qed.

Lemma C4_witness :
  platformCalls (dispatch (Samples.native (Ok false)) Samples.taxis99
                          Samples.pickupRio Samples.destinationRio)
  = [ CanOpenURL
        (createDeepLink android Samples.taxis99 Samples.pickupRio
                        Samples.destinationRio) ].
Proof.
  destruct (C4_cannot_open_prompts_install
              (Samples.native (Ok false)) Samples.taxis99
              Samples.pickupRio Samples.destinationRio) as (_ & _ & H).
  - discriminate.
  - reflexivity.
  - exact H.
Defined.

(** C5, as the code has it.  For a provider id the builder has no case
    for, the link is the empty string, and the dispatch does not test for
    it.  In the browser it shows the not-supported prompt and opens
    nothing.  On a native platform it asks [canOpenURL] about the empty
    string, and calls [openURL] on it exactly when the answer is [true];
    when the answer is [false] or the question raises, it shows a store
    prompt and [openURL] is not called. *)
Theorem C5_unknown_id_link_is_passed_on
        (env : Env) (app : RideAppConfig) (pickup destination : LocationData) :
  ~ In (id app) knownIds ->
  createDeepLink (Platform_OS env) app pickup destination = ""
  /\ dispatch env app pickup destination
     = (if isWeb (Platform_OS env)
        then [webUnsupportedAlert env app]
        else CanOpenURL "" ::
             match Linking_canOpenURL env "" with
             | Ok true =>
                 OpenURL "" ::
                 match Linking_openURL env "" with
                 | Ok _ => []
                 | Throw _ => [linkingErrorAlert env app pickup destination]
                 end
             | Ok false => [notInstalledAlert env app pickup destination]
             | Throw _ => [linkingErrorAlert env app pickup destination]
             end)
  /\ (In (OpenURL "") (dispatch env app pickup destination)
      <-> isWeb (Platform_OS env) = false
          /\ Linking_canOpenURL env "" = Ok true).
Proof.
  intros Hunknown.
  assert (Hlink := createDeepLink_unknown (Platform_OS env) app pickup
                     destination Hunknown).
  assert (Hrun :
    dispatch env app pickup destination
    = (if isWeb (Platform_OS env)
       then [webUnsupportedAlert env app]
       else CanOpenURL "" ::
            match Linking_canOpenURL env "" with
            | Ok true =>
                OpenURL "" ::
                match Linking_openURL env "" with
                | Ok _ => []
                | Throw _ => [linkingErrorAlert env app pickup destination]
                end
            | Ok false => [notInstalledAlert env app pickup destination]
            | Throw _ => [linkingErrorAlert env app pickup destination]
            end)).
  { unfold dispatch. destruct (isWeb (Platform_OS env)) eqn:Hweb.
    - rewrite web_run; [reflexivity|exact Hweb|].
      intros Heq. apply Hunknown. rewrite Heq. cbn. tauto.
    - assert (Hn := native_run env app pickup destination Hweb).
      cbv zeta in Hn. rewrite Hlink in Hn. rewrite Hn. cbn [snd calls].
      now rewrite (unknown_not_prefill app Hunknown). }
  split; [exact Hlink|]. split; [exact Hrun|].
  rewrite Hrun. destruct (isWeb (Platform_OS env)).
  - split; [intros [H|[]]; discriminate | intros [H _]; discriminate].
  - destruct (Linking_canOpenURL env "") as [[|]|e].
    + split; [auto|]. intros _. right. now left.
    + split; [intros [H|[H|[]]]; discriminate | intros [_ H]; discriminate].
    + split; [intros [H|[H|[]]]; discriminate | intros [_ H]; discriminate].
Qed.

Lemma C5_witness :
  createDeepLink android Samples.cabify Samples.pickupRio
                 Samples.destinationRio = ""
  /\ platformCalls (dispatch (Samples.native (Ok false)) Samples.cabify
                             Samples.pickupRio Samples.destinationRio)
     = [CanOpenURL ""].
Proof.
  destruct (C5_unknown_id_link_is_passed_on
              (Samples.native (Ok false)) Samples.cabify
              Samples.pickupRio Samples.destinationRio) as (Hlink & Hrun & _).
  - cbn. intros H.
    repeat (destruct H as [H|H]; [discriminate|]). destruct H.
  - split; [exact Hlink|]. rewrite Hrun. reflexivity.
Defined.

(** C5, as stated, fails: for a provider the builder does not know, on a
    native platform, the dispatch hands the empty link to the platform.
    When [canOpenURL] answers [true] it calls [openURL] on the empty link
    and shows no error; when [canOpenURL] raises on it, the outcome is
    the store prompt, not the error alert. *)
Lemma C5_counterexample :
  createDeepLink android Samples.cabify Samples.pickupRio
                 Samples.destinationRio = ""
  /\ openRideApp (Samples.native (Ok true)) Samples.cabify
                 Samples.pickupRio Samples.destinationRio idle
     = (Ok tt, mkState false [CanOpenURL ""; OpenURL ""])
  /\ openRideApp (Samples.native (Throw LinkingError)) Samples.cabify
                 Samples.pickupRio Samples.destinationRio idle
     = (Ok tt,
        mkState false
          [ CanOpenURL "";
            linkingErrorAlert (Samples.native (Throw LinkingError))
                              Samples.cabify Samples.pickupRio
                              Samples.destinationRio ]).
Proof.
  repeat split; vm_compute; reflexivity.
Qed.

End DispatchClaims.

(* ===================================================================== *)
(** * The registry: further properties                                    *)
(* ===================================================================== *)

Module RegistryExtras.

Import AppManager Registry RegistryFacts Shapes.

(** ** Which flags a toggle changes *)

Lemma enabledIn_toggle_other (appId j : string) (apps : list RideAppConfig) :
  j <> appId ->
  enabledIn (map (toggleOne appId) apps) j = enabledIn apps j.
Proof.
  intros Hne. unfold enabledIn.
  induction apps as [|a apps IH]; [reflexivity|].
  cbn [map existsb]. rewrite IH. f_equal.
  unfold toggleOne.
  destruct (String.eqb_spec (id a) appId) as [Heq|_]; [|reflexivity].
  cbn [id withEnabled].
  destruct (String.eqb_spec (id a) j) as [Hj|_]; [congruence|reflexivity].
Qed.

Lemma enabledIn_toggle_same (appId : string) (apps : list RideAppConfig) :
  NoDup (map id apps) -> In appId (map id apps) ->
  enabledIn (map (toggleOne appId) apps) appId = negb (enabledIn apps appId).
Proof.
  intros Hnd Hin. apply in_map_iff in Hin. destruct Hin as (a & <- & Hin).
  rewrite <- (toggleOne_id (id a) a) at 2.
  rewrite (enabledIn_member (map (toggleOne (id a)) apps)
                            (toggleOne (id a) a)).
  - rewrite (enabledIn_member apps a Hnd Hin).
    unfold toggleOne. rewrite String.eqb_refl. reflexivity.
  - now rewrite map_toggleOne_ids.
  - now apply in_map.
Qed.

(** X1.  On a hook with any history, a toggle whose write succeeds flips
    the flag of the provider with that id and of no other: an id of the
    catalogue that was switched on is switched off and conversely, and
    every other id is as it was. *)
Theorem X1_toggle_flips_one_flag
        (rs : list Request) (store : gmap string string) (ls : list nat)
        (env : Env) (appId : string) :
  setItem_rejects env = false ->
  let st := run rs (mount store ls) in
  let st' := snd (toggleAppEnabled env appId st) in
  (In appId (map id DEFAULT_RIDE_APPS) ->
   enabledIn (rideApps st') appId = negb (enabledIn (rideApps st) appId))
  /\ (forall j, j <> appId ->
                enabledIn (rideApps st') j = enabledIn (rideApps st) j).
Proof.
  intros Hset st st'. subst st'.
  rewrite (toggle_resolves env appId st Hset). cbn [snd saved withEvents
    withApps stored rideApps].
  assert (Hids : map id (rideApps st) = map id DEFAULT_RIDE_APPS)
    by (apply run_ids; reflexivity).
  split.
  - intros Hin. apply enabledIn_toggle_same.
    + rewrite Hids. apply default_ids_distinct.
    + now rewrite Hids.
  - intros j Hne. now apply enabledIn_toggle_other.
Qed.

Lemma X1_witness :
  enabledIn (rideApps (snd (toggleAppEnabled (Samples.noJSON false false)
                              "bolt" (run [] (mount ∅ []))))) "bolt" = true
  /\ enabledIn (rideApps (snd (toggleAppEnabled (Samples.noJSON false false)
                                 "bolt" (run [] (mount ∅ []))))) "uber" = true.
Proof.
  destruct (X1_toggle_flips_one_flag [] ∅ [] (Samples.noJSON false false)
                                     "bolt" eq_refl) as [Hsame Hother].
  split.
  - rewrite Hsame; [reflexivity|]. cbn. tauto.
  - rewrite Hother; [reflexivity|discriminate].
Defined.

(** ** Two toggles *)

Lemma toggleOne_twice (appId : string) (a : RideAppConfig) :
  (exists b, enabled a = VBool b) ->
  toggleOne appId (toggleOne appId a) = a.
Proof.
  intros [b Hb]. unfold toggleOne.
  destruct (String.eqb (id a) appId) eqn:Heq; [|now rewrite Heq].
  cbn [id withEnabled]. rewrite Heq. cbn [enabled withEnabled].
  rewrite Hb. cbn [truthy]. rewrite negb_involutive.
  destruct a; cbn in *. now subst.
Qed.

(** X2.  Two toggles of the same id, both written, give back the list
    there was, when its flags are booleans; the storage then holds the
    serialisation of that list. *)
Theorem X2_toggle_twice_restores
        (env1 env2 : Env) (appId : string) (st : State) :
  setItem_rejects env1 = false -> setItem_rejects env2 = false ->
  booleanFlags (rideApps st) ->
  let st2 :=
    snd (toggleAppEnabled env2 appId (snd (toggleAppEnabled env1 appId st))) in
  rideApps st2 = rideApps st
  /\ storage st2 !! APP_MANAGER_STORAGE_KEY
     = Some (JSON_stringify (rideApps st)).
Proof.
  intros H1 H2 Hbool st2. subst st2.
  rewrite (toggle_resolves env1 appId st H1). cbn [snd].
  rewrite (toggle_resolves env2 appId _ H2).
  cbn [snd saved withEvents withApps stored rideApps storage].
  assert (Hback : map (toggleOne appId) (map (toggleOne appId) (rideApps st))
                  = rideApps st).
  { rewrite map_map. induction Hbool as [|a apps Ha _ IH]; [reflexivity|].
    cbn [map]. now rewrite toggleOne_twice, IH. }
  rewrite Hback. split; [reflexivity|]. apply lookup_insert_eq.
Qed.

Lemma X2_witness :
  rideApps
    (snd (toggleAppEnabled (Samples.noJSON false false) "lyft"
            (snd (toggleAppEnabled (Samples.noJSON false false) "lyft"
                                   (mount ∅ [])))))
  = DEFAULT_RIDE_APPS.
Proof.
  destruct (X2_toggle_twice_restores
              (Samples.noJSON false false) (Samples.noJSON false false)
              "lyft" (mount ∅ [])) as [Hback _].
  - reflexivity.
  - reflexivity.
  - unfold booleanFlags. cbn [rideApps mount].
    repeat constructor; eexists; reflexivity.
  - exact Hback.
Defined.

(** ** Reset *)

(** X3.  A reset whose write succeeds publishes the compiled-in list,
    whatever the list was: the enabled providers are then [uber], [99]
    and [lyft].  A second reset changes neither the list nor the
    storage. *)
Theorem X3_reset_restores_and_is_idempotent
        (env1 env2 : Env) (st : State) :
  setItem_rejects env1 = false -> setItem_rejects env2 = false ->
  let st1 := snd (resetToDefaults env1 st) in
  let st2 := snd (resetToDefaults env2 st1) in
  rideApps st1 = DEFAULT_RIDE_APPS
  /\ map id (getEnabledApps st1) = ["uber"; "99"; "lyft"]
  /\ storage st1 !! APP_MANAGER_STORAGE_KEY
     = Some (JSON_stringify DEFAULT_RIDE_APPS)
  /\ rideApps st2 = rideApps st1
  /\ storage st2 = storage st1.
Proof.
  intros H1 H2 st1 st2. subst st2 st1.
  rewrite (reset_resolves env1 st H1). cbn [snd].
  rewrite (reset_resolves env2 _ H2).
  cbn [snd saved withEvents withApps stored rideApps storage].
  split; [reflexivity|]. split; [reflexivity|].
  split; [apply lookup_insert_eq|]. split; [reflexivity|].
  apply insert_insert_eq.
Qed.

Lemma X3_witness :
  map id (getEnabledApps
            (snd (resetToDefaults (Samples.noJSON false false)
                    (snd (toggleAppEnabled (Samples.noJSON false false)
                                           "uber" (mount ∅ []))))))
  = ["uber"; "99"; "lyft"].
Proof.
  destruct (X3_reset_restores_and_is_idempotent
              (Samples.noJSON false false) (Samples.noJSON false false)
              (snd (toggleAppEnabled (Samples.noJSON false false) "uber"
                                     (mount ∅ []))))
    as (_ & Henabled & _); [reflexivity..|exact Henabled].
Defined.

(** ** What no operation touches *)

Lemma perform_frame (r : Request) (st : State) (k : string) :
  k <> APP_MANAGER_STORAGE_KEY ->
  storage (snd (perform r st)) !! k = storage st !! k
  /\ listeners (snd (perform r st)) = listeners st
  /\ exists es, events (snd (perform r st)) = (events st ++ es)%list.
Proof.
  intros Hk. destruct r as [env|env appId|env]; cbn [perform].
  - destruct (load_cases env st) as (apps & evs & Hrun & _).
    rewrite Hrun. cbn [snd storage listeners events].
    split; [reflexivity|]. split; [reflexivity|].
    revert Hrun. destruct st as [a ld sto lst evs0].
    unfold loadAppConfiguration, tryFinally, tryCatch, bind,
      AsyncStorage_getItem, settle.
    destruct (getItem_rejects env); cbn -[mergeApps DEFAULT_RIDE_APPS].
    { intros [= _ <-]. exists []. now rewrite app_nil_r. }
    destruct (sto !! APP_MANAGER_STORAGE_KEY) as [text|];
      cbn -[mergeApps DEFAULT_RIDE_APPS];
      [|intros [= _ <-]; eexists; reflexivity].
    destruct (truthyString text); cbn -[mergeApps DEFAULT_RIDE_APPS];
      [|intros [= _ <-]; eexists; reflexivity].
    destruct (JSON_parse env text) as [v|]; cbn -[mergeApps DEFAULT_RIDE_APPS];
      [|intros [= _ <-]; eexists; reflexivity].
    destruct (mergeApps DEFAULT_RIDE_APPS v);
      cbn -[mergeApps DEFAULT_RIDE_APPS];
      intros [= _ <-]; eexists; reflexivity.
  - destruct (setItem_rejects env) eqn:Hset.
    + rewrite toggle_rejects by assumption. cbn [snd].
      split; [reflexivity|]. split; [reflexivity|].
      exists []. now rewrite app_nil_r.
    + rewrite toggle_resolves by assumption.
      cbn [snd saved withEvents withApps stored storage listeners events].
      split; [now apply lookup_insert_ne|]. split; [reflexivity|].
      eexists; reflexivity.
  - destruct (setItem_rejects env) eqn:Hset.
    + rewrite reset_rejects by assumption. cbn [snd].
      split; [reflexivity|]. split; [reflexivity|].
      exists []. now rewrite app_nil_r.
    + rewrite reset_resolves by assumption.
      cbn [snd saved withEvents withApps stored storage listeners events].
      split; [now apply lookup_insert_ne|]. split; [reflexivity|].
      eexists; reflexivity.
Qed.

(** X4.  Whatever requests a hook serves, it writes under its own key
    only: every other key of the storage keeps its value; it never
    changes the listeners of the emitter; and it only appends to the
    events. *)
Theorem X4_operations_keep_other_keys
        (rs : list Request) (st : State) (k : string) :
  k <> APP_MANAGER_STORAGE_KEY ->
  storage (run rs st) !! k = storage st !! k
  /\ listeners (run rs st) = listeners st
  /\ exists es, events (run rs st) = (events st ++ es)%list.
Proof.
  intros Hk. revert st.
  induction rs as [|r rs IH]; intros st; cbn [run].
  - split; [reflexivity|]. split; [reflexivity|].
    exists []. now rewrite app_nil_r.
  - destruct (IH (snd (perform r st))) as (Hsto & Hls & es & Hes).
    destruct (perform_frame r st k Hk) as (Hsto' & Hls' & es' & Hes').
    split; [congruence|]. split; [congruence|].
    exists (es' ++ es)%list. rewrite Hes, Hes'. now rewrite app_assoc.
Qed.

Lemma X4_witness :
  storage (run [Toggle (Samples.noJSON false false) "grab";
                Reset (Samples.noJSON false false)]
               (mount {[ "app_language" := "pt" ]} [3]))
    !! "app_language"
  = Some "pt".
Proof.
  destruct (X4_operations_keep_other_keys
              [Toggle (Samples.noJSON false false) "grab";
               Reset (Samples.noJSON false false)]
              (mount {[ "app_language" := "pt" ]} [3])
              "app_language") as (Hsto & _).
  - discriminate.
  - rewrite Hsto. reflexivity.
Defined.

(** ** The presentation data *)

Lemma withEnabled_twice (d : RideAppConfig) (e v : value) :
  withEnabled (withEnabled d e) v = withEnabled d v.
Proof. reflexivity. Qed.

Lemma withEnabled_same (d : RideAppConfig) : withEnabled d (enabled d) = d.
Proof. now destruct d. Qed.

Lemma defaults_shaped : catalogueShaped DEFAULT_RIDE_APPS.
Proof.
  unfold catalogueShaped.
  induction DEFAULT_RIDE_APPS as [|d ds IH]; constructor; [|exact IH].
  exists (enabled d). symmetry. apply withEnabled_same.
Qed.

Lemma mergeApps_shaped (v : value) (defaults ms : list RideAppConfig) :
  mergeApps defaults v = Ok ms ->
  Forall2 (fun d a => exists e, a = withEnabled d e) defaults ms.
Proof.
  unfold mergeApps. revert ms.
  induction defaults as [|d defaults IH]; intros ms; cbn.
  - intros [= <-]. constructor.
  - destruct (mergeOne v d) as [m|] eqn:Hm; cbn; [|discriminate].
    destruct (mapRes (mergeOne v) defaults) as [ms'|]; cbn; [|discriminate].
    intros [= <-]. constructor; [|now apply IH].
    exact (mergeOne_frame _ _ _ Hm).
Qed.

Lemma toggle_shaped (appId : string) (apps : list RideAppConfig) :
  catalogueShaped apps -> catalogueShaped (map (toggleOne appId) apps).
Proof.
  unfold catalogueShaped.
  induction 1 as [|d a ds apps [e ->] _ IH]; cbn [map]; constructor;
    [|exact IH].
  unfold toggleOne. destruct (String.eqb _ _); eexists; reflexivity.
Qed.

Lemma perform_shaped (r : Request) (st : State) :
  catalogueShaped (rideApps st) ->
  catalogueShaped (rideApps (snd (perform r st))).
Proof.
  intros Hshape. destruct r as [env|env appId|env]; cbn [perform].
  - destruct (load_cases env st) as (apps & evs & -> & [->|Hmerge]);
      cbn [snd rideApps]; [exact Hshape|].
    destruct Hmerge as (text & v & _ & _ & _ & _ & Hmerge).
    exact (mergeApps_shaped _ _ _ Hmerge).
  - destruct (setItem_rejects env) eqn:Hset.
    + now rewrite toggle_rejects.
    + rewrite toggle_resolves by assumption. cbn.
      now apply toggle_shaped.
  - destruct (setItem_rejects env) eqn:Hset.
    + now rewrite reset_rejects.
    + rewrite reset_resolves by assumption. cbn. apply defaults_shaped.
Qed.

Lemma run_shaped (rs : list Request) (st : State) :
  catalogueShaped (rideApps st) -> catalogueShaped (rideApps (run rs st)).
Proof.
  revert st. induction rs as [|r rs IH]; intros st Hshape; cbn [run].
  - exact Hshape.
  - apply IH, perform_shaped, Hshape.
Qed.

(** X5.  No history of loads, toggles and resets changes what a provider
    is: entry by entry, the list of a hook has the id, name, icon,
    colour, package, scheme and store address of the catalogue, whatever
    the storage held and whatever was toggled. *)
Theorem X5_presentation_data_is_the_catalogue
        (rs : list Request) (store : gmap string string) (ls : list nat) :
  Forall2 (fun d a =>
             id a = id d /\ name a = name d /\ icon a = icon d
             /\ color a = color d /\ packageId a = packageId d
             /\ deepLinkScheme a = deepLinkScheme d
             /\ playStoreUrl a = playStoreUrl d)
          DEFAULT_RIDE_APPS (rideApps (run rs (mount store ls))).
Proof.
  assert (Hshape := run_shaped rs (mount store ls) defaults_shaped).
  unfold catalogueShaped in Hshape.
  induction Hshape as [|d a ds apps [e ->] _ IH]; constructor; [|exact IH].
  cbn. auto 10.
Qed.

(** ** Write, then read *)

Lemma overrideFor_fields (apps : list RideAppConfig) (a : RideAppConfig) :
  NoDup (map id apps) -> In a apps ->
  overrideFor (id a) (map fieldsOf apps) = Some (fieldsOf a).
Proof.
  unfold overrideFor.
  induction apps as [|a0 apps IH]; cbn [map]; intros Hnd Hin;
    [contradiction|].
  apply NoDup_cons in Hnd. destruct Hnd as [Hfresh Hnd].
  cbn [List.find fieldsOf objectOf lookupField String.eqb Ascii.eqb
       Bool.eqb strictEqString].
  change (lookupField "id" (fieldsOf a0)) with (VString (id a0)).
  cbn [strictEqString].
  destruct Hin as [->|Hin]; [now rewrite String.eqb_refl|].
  destruct (String.eqb_spec (id a0) (id a)) as [Heq|_]; [|now apply IH].
  exfalso. apply Hfresh. rewrite Heq. apply list_elem_of_In, in_map, Hin.
Qed.

(** The merge reads back a list of the catalogue's shape from its own
    objects. *)
Lemma merge_of_own_objects (apps : list RideAppConfig) :
  catalogueShaped apps ->
  mergeApps DEFAULT_RIDE_APPS (VArray (map objectOf apps)) = Ok apps.
Proof.
  intros Hshape.
  assert (Hids : map id apps = map id DEFAULT_RIDE_APPS).
  { unfold catalogueShaped in Hshape.
    induction Hshape as [|d a ds l [e ->] _ IH]; [reflexivity|].
    cbn. now rewrite IH. }
  assert (Hnd : NoDup (map id apps))
    by (rewrite Hids; apply default_ids_distinct).
  replace (map objectOf apps) with (map VObject (map fieldsOf apps))
    by (rewrite map_map; reflexivity).
  rewrite mergeApps_records. f_equal.
  assert (Haux : forall ds l,
             Forall2 (fun d a => exists e, a = withEnabled d e) ds l ->
             (forall a, In a l -> In a apps) ->
             map (merged (map fieldsOf apps)) ds = l).
  { induction 1 as [|d a ds l [e Hda] _ IH]; intros Hsub; [reflexivity|].
    cbn [map]. rewrite IH by (intros x Hx; apply Hsub; now right).
    f_equal. unfold merged.
    replace (id d) with (id a) by (rewrite Hda; reflexivity).
    rewrite (overrideFor_fields apps a Hnd (Hsub a (or_introl eq_refl))).
    rewrite Hda. reflexivity. }
  apply (Haux _ _ Hshape). auto.
Qed.

Lemma JSON_stringify_nonempty (apps : list RideAppConfig) :
  JSON_stringify apps <> "".
Proof.
  unfold JSON_stringify. cbn [stringify]. discriminate.
Qed.

(** X6.  What a hook has written, every hook reads back.  After a toggle
    or a reset whose write succeeded, on a hook with any history, a load
    by any hook that shares the storage (whatever its own list), whose
    read succeeds and whose [JSON.parse] gives back the objects that
    were serialised, publishes exactly the writer's list. *)
Theorem X6_saved_list_is_read_back
        (rs : list Request) (store : gmap string string) (ls : list nat)
        (env envR : Env) (r : Request) (reader : State) :
  r = Reset env \/ (exists appId, r = Toggle env appId) ->
  setItem_rejects env = false ->
  let written := snd (perform r (run rs (mount store ls))) in
  storage reader = storage written ->
  getItem_rejects envR = false ->
  JSON_parse envR (JSON_stringify (rideApps written))
  = Ok (VArray (map objectOf (rideApps written))) ->
  fst (loadAppConfiguration envR reader) = Ok tt
  /\ rideApps (snd (loadAppConfiguration envR reader)) = rideApps written.
Proof.
  intros Hr Hset written Hshared Hget Hparse.
  assert (Hshape : catalogueShaped (rideApps written)).
  { apply perform_shaped, run_shaped, defaults_shaped. }
  assert (Hsto : storage written !! APP_MANAGER_STORAGE_KEY
                 = Some (JSON_stringify (rideApps written))).
  { subst written. destruct Hr as [->|[appId ->]]; cbn [perform].
    - rewrite reset_resolves by assumption. cbn. apply lookup_insert_eq.
    - rewrite toggle_resolves by assumption. cbn. apply lookup_insert_eq. }
  rewrite <- Hshared in Hsto.
  rewrite (load_publishes envR reader _ _ _ Hget Hsto
             (JSON_stringify_nonempty _) Hparse
             (merge_of_own_objects _ Hshape)).
  split; reflexivity.
Qed.

Lemma X6_witness :
  rideApps
    (snd (loadAppConfiguration
            (MoreSamples.parsesOnly
               (JSON_stringify (map (toggleOne "bolt") DEFAULT_RIDE_APPS))
               (VArray (map objectOf
                            (map (toggleOne "bolt") DEFAULT_RIDE_APPS))))
            (mount (storage (snd (toggleAppEnabled
                                    (Samples.noJSON false false) "bolt"
                                    (mount ∅ [1; 2]))))
                   [1; 2])))
  = map (toggleOne "bolt") DEFAULT_RIDE_APPS.
Proof.
  destruct (X6_saved_list_is_read_back
              [] ∅ [1; 2] (Samples.noJSON false false)
              (MoreSamples.parsesOnly
                 (JSON_stringify (map (toggleOne "bolt") DEFAULT_RIDE_APPS))
                 (VArray (map objectOf
                              (map (toggleOne "bolt") DEFAULT_RIDE_APPS))))
              (Toggle (Samples.noJSON false false) "bolt")
              (mount (storage (snd (toggleAppEnabled
                                      (Samples.noJSON false false) "bolt"
                                      (mount ∅ [1; 2]))))
                     [1; 2]))
    as (_ & Hread).
  - right. now exists "bolt".
  - reflexivity.
  - reflexivity.
  - reflexivity.
  - vm_compute. reflexivity.
  - exact Hread.
Defined.

(** ** The emitter *)

Lemma filter_absent (l : nat) (ls : list nat) :
  ~ In l ls -> List.filter (fun x => negb (Nat.eqb x l)) ls = ls.
Proof.
  induction ls as [|x ls IH]; cbn; intros Hnot; [reflexivity|].
  destruct (Nat.eqb_spec x l) as [->|_]; cbn.
  - exfalso. apply Hnot. now left.
  - rewrite IH; [reflexivity|]. intros Hin. apply Hnot. now right.
Qed.

(** X7.  A listener that subscribes is called last by the next [emit];
    the function [subscribe] returned takes it out again and leaves the
    other listeners in their order, so that the next [emit] calls them
    and not it. *)
Theorem X7_subscribe_and_unsubscribe (l : nat) (st : State) :
  ~ In l (listeners st) ->
  events (snd (emit (snd (subscribe l st))))
  = (events st ++ map Notified (listeners st) ++ [Notified l])%list
  /\ listeners (snd (unsubscribe l (snd (subscribe l st)))) = listeners st
  /\ events (snd (emit (snd (unsubscribe l (snd (subscribe l st))))))
     = (events st ++ map Notified (listeners st))%list.
Proof.
  intros Hfresh. rewrite !emit_events.
  cbn [snd subscribe unsubscribe modify withEvents events listeners].
  rewrite List.filter_app. cbn [List.filter].
  rewrite Nat.eqb_refl. cbn [negb]. rewrite app_nil_r.
  rewrite (filter_absent l _ Hfresh).
  split; [now rewrite map_app|]. split; reflexivity.
Qed.

Lemma X7_witness :
  events (snd (emit (snd (subscribe 5 (mount ∅ [1; 2])))))
  = [Notified 1; Notified 2; Notified 5]
  /\ listeners (snd (unsubscribe 5 (snd (subscribe 5 (mount ∅ [1; 2])))))
     = [1; 2].
Proof.
  destruct (X7_subscribe_and_unsubscribe 5 (mount ∅ [1; 2]))
    as (Hemit & Hback & _).
  - cbn. intros [H|[H|[]]]; discriminate.
  - split; [exact Hemit | exact Hback].
Defined.

(** ** Stored records of other providers *)

Lemma overrideFor_foreign (records : list (list (string * value)))
      (d : RideAppConfig) :
  Forall foreignRecord records -> In d DEFAULT_RIDE_APPS ->
  overrideFor (id d) records = None.
Proof.
  intros Hforeign Hin. unfold overrideFor.
  induction Hforeign as [|r records Hr _ IH]; [reflexivity|].
  cbn [List.find]. unfold foreignRecord in Hr.
  rewrite Forall_forall in Hr.
  rewrite (Hr d (proj2 (list_elem_of_In _ _) Hin)). exact IH.
Qed.

(** X8.  Stored records that name no provider of the catalogue are
    ignored: when the stored array holds only such records (the array may
    be empty), the load publishes the compiled-in list unchanged, so that
    every provider keeps its compiled-in flag. *)
Theorem X8_foreign_records_are_ignored
        (env : Env) (st : State) (text : string)
        (records : list (list (string * value))) :
  getItem_rejects env = false ->
  storage st !! APP_MANAGER_STORAGE_KEY = Some text ->
  text <> "" ->
  JSON_parse env text = Ok (VArray (map VObject records)) ->
  Forall foreignRecord records ->
  fst (loadAppConfiguration env st) = Ok tt
  /\ rideApps (snd (loadAppConfiguration env st)) = DEFAULT_RIDE_APPS.
Proof.
  intros Hget Hsto Htext Hparse Hforeign.
  rewrite (load_publishes env st text _ _ Hget Hsto Htext Hparse
             (mergeApps_records records DEFAULT_RIDE_APPS)).
  cbn [fst snd rideApps]. split; [reflexivity|].
  assert (Haux : forall ds, (forall d, In d ds -> In d DEFAULT_RIDE_APPS) ->
                            map (merged records) ds = ds).
  { induction ds as [|d ds IH]; intros Hsub; [reflexivity|].
    cbn [map]. rewrite IH by (intros x Hx; apply Hsub; now right).
    unfold merged.
    now rewrite (overrideFor_foreign records d Hforeign
                   (Hsub d (or_introl eq_refl))). }
  apply Haux. auto.
Qed.

Lemma X8_witness :
  rideApps
    (snd (loadAppConfiguration
            (Samples.parsesTo
               (VArray (map VObject
                  [ [("id", VString "cabify"); ("enabled", VBool true)];
                    [("enabled", VBool false)] ])))
            (mkState (map (toggleOne "uber") DEFAULT_RIDE_APPS) false
                     {[ APP_MANAGER_STORAGE_KEY := "[...]" ]} [] [])))
  = DEFAULT_RIDE_APPS.
Proof.
  destruct (X8_foreign_records_are_ignored
              (Samples.parsesTo
                 (VArray (map VObject
                    [ [("id", VString "cabify"); ("enabled", VBool true)];
                      [("enabled", VBool false)] ])))
              (mkState (map (toggleOne "uber") DEFAULT_RIDE_APPS) false
                       {[ APP_MANAGER_STORAGE_KEY := "[...]" ]} [] [])
              "[...]"
              [ [("id", VString "cabify"); ("enabled", VBool true)];
                [("enabled", VBool false)] ])
    as (_ & Hdefaults).
  - reflexivity.
  - vm_compute. reflexivity.
  - discriminate.
  - reflexivity.
  - repeat constructor.
  - exact Hdefaults.
Defined.

End RegistryExtras.

(* ===================================================================== *)
(** * The reset button: further properties                                *)
(* ===================================================================== *)

Module ModalExtras.

Import AppManager Registry RegistryFacts.

(** X9.  The confirmed reset of the manager: when the write succeeds, the
    hook holds the compiled-in list and [isResetting] is [false] again;
    when the write is rejected, the error leaves the callback, the list
    is untouched, and [isResetting] stays [true], which keeps the reset
    button disabled. *)
Theorem X9_failed_reset_leaves_button_disabled
        (env : Env) (st : AppManagerModal.State) :
  AppManagerModal.confirmReset env st
  = if setItem_rejects env
    then (Throw StorageError,
          AppManagerModal.mkState (AppManagerModal.hook st) true)
    else (Ok tt,
          AppManagerModal.mkState
            (saved (AppManagerModal.hook st) DEFAULT_RIDE_APPS) false).
Proof.
  unfold AppManagerModal.confirmReset, AppManagerModal.onHook,
    AppManagerModal.setIsResetting, bind, modify.
  cbn [AppManagerModal.hook AppManagerModal.isResetting].
  destruct (setItem_rejects env) eqn:Hset.
  - now rewrite reset_rejects.
  - now rewrite reset_resolves.
Qed.

End ModalExtras.

(* ===================================================================== *)
(** * The dispatch: further properties                                    *)
(* ===================================================================== *)

Module DispatchExtras.

Import RideApps HomeScreen DispatchFacts.

(** A dispatch from any state: it returns, and has appended its calls. *)
Lemma openRideApp_from (env : Env) (app : RideAppConfig)
      (pickup destination : LocationData) (st : State) :
  openRideApp env app pickup destination st
  = (Ok tt,
     mkState false (calls st ++ dispatch env app pickup destination)).
Proof.
  destruct st as [ld cs].
  unfold dispatch, openRideApp, tryFinally, tryCatch, bind, canOpenURL,
    openURL, openBrowserAsync, settle.
  destruct (isWeb (Platform_OS env)); cbn -[createDeepLink existsb].
  - destruct (String.eqb (id app) "uber"); cbn -[createDeepLink existsb];
      [|reflexivity].
    destruct (WebBrowser_openBrowserAsync env _) as [[]|];
      cbn -[createDeepLink existsb]; [reflexivity|].
    now rewrite <- app_assoc.
  - destruct (Linking_canOpenURL env _) as [[|]|];
      cbn -[createDeepLink existsb]; try (now rewrite <- app_assoc).
    destruct (Linking_openURL env _); cbn -[createDeepLink existsb];
      [|now rewrite <- !app_assoc].
    destruct (existsb _ _); cbn -[createDeepLink];
      now rewrite <- !app_assoc.
Qed.

(** X10.  [openRideApp] never raises, whatever the platform answers or
    raises: it returns, with [isLoading] back to [false], and the calls
    there were are still there, followed by those of this dispatch. *)
Theorem X10_openRideApp_never_raises
        (env : Env) (app : RideAppConfig)
        (pickup destination : LocationData) (st : State) :
  fst (openRideApp env app pickup destination st) = Ok tt
  /\ isLoading (snd (openRideApp env app pickup destination st)) = false
  /\ calls (snd (openRideApp env app pickup destination st))
     = (calls st ++ dispatch env app pickup destination)%list.
Proof.
  rewrite openRideApp_from. auto.
Qed.

(** The calls of a dispatch in the browser. *)
Lemma web_dispatch (env : Env) (app : RideAppConfig)
      (pickup destination : LocationData) :
  isWeb (Platform_OS env) = true ->
  dispatch env app pickup destination
  = if String.eqb (id app) "uber"
    then OpenBrowserAsync
           (createDeepLink (Platform_OS env) app pickup destination)
         :: match WebBrowser_openBrowserAsync env
                    (createDeepLink (Platform_OS env) app pickup destination)
            with
            | Ok _ => []
            | Throw _ => [errorAlert env]
            end
    else [webUnsupportedAlert env app].
Proof.
  intros Hweb.
  unfold dispatch, openRideApp, tryFinally, tryCatch, bind,
    openBrowserAsync, settle.
  rewrite Hweb.
  destruct (String.eqb (id app) "uber"); cbn -[createDeepLink];
    [|reflexivity].
  destruct (WebBrowser_openBrowserAsync env _); reflexivity.
Qed.

Lemma native_dispatch (env : Env) (app : RideAppConfig)
      (pickup destination : LocationData) :
  isWeb (Platform_OS env) = false ->
  let link := createDeepLink (Platform_OS env) app pickup destination in
  dispatch env app pickup destination
  = CanOpenURL link ::
    match Linking_canOpenURL env link with
    | Ok true =>
        OpenURL link ::
        match Linking_openURL env link with
        | Ok _ =>
            if existsb (String.eqb (id app)) prefillIds
            then [openedAlert env app pickup destination]
            else []
        | Throw _ => [linkingErrorAlert env app pickup destination]
        end
    | Ok false => [notInstalledAlert env app pickup destination]
    | Throw _ => [linkingErrorAlert env app pickup destination]
    end.
Proof.
  intros Hnative link. unfold dispatch.
  now rewrite (native_run env app pickup destination Hnative).
Qed.

(** X11.  The platform calls of a dispatch.  On a native platform
    [canOpenURL] is asked once, about the link that was built, and
    [openURL] is called at most once, on that same link and exactly when
    the answer was [true]; the browser is never opened.  On the web no
    [Linking] call is made at all: the browser is opened once when the
    provider is [uber], and nothing is opened otherwise. *)
Theorem X11_platform_calls
        (env : Env) (app : RideAppConfig) (pickup destination : LocationData) :
  let link := createDeepLink (Platform_OS env) app pickup destination in
  platformCalls (dispatch env app pickup destination)
  = if isWeb (Platform_OS env)
    then (if String.eqb (id app) "uber" then [OpenBrowserAsync link] else [])
    else CanOpenURL link ::
         match Linking_canOpenURL env link with
         | Ok true => [OpenURL link]
         | _ => []
         end.
Proof.
  intros link. subst link.
  destruct (isWeb (Platform_OS env)) eqn:Hweb.
  - rewrite (web_dispatch env app pickup destination Hweb).
    destruct (String.eqb (id app) "uber"); [|reflexivity].
    destruct (WebBrowser_openBrowserAsync env _); reflexivity.
  - rewrite (native_dispatch env app pickup destination Hweb).
    destruct (Linking_canOpenURL env _) as [[|]|]; try reflexivity.
    destruct (Linking_openURL env _); [|reflexivity].
    destruct (existsb _ _); reflexivity.
Qed.

(** X12.  When the app is there and [openURL] raises all the same, the
    dispatch ends with the store prompt: no confirmation is scheduled,
    the error alert is not shown, and the store button opens the store
    listing of the provider. *)
Theorem X12_failed_open_offers_store
        (env : Env) (app : RideAppConfig) (pickup destination : LocationData)
        (e : Error) :
  Platform_OS env <> web ->
  let link := createDeepLink (Platform_OS env) app pickup destination in
  Linking_canOpenURL env link = Ok true ->
  Linking_openURL env link = Throw e ->
  openRideApp env app pickup destination idle
  = (Ok tt,
     mkState false
       [ CanOpenURL link; OpenURL link;
         Alert (t env "rideApp.openingPlayStore" [])
               (t env "rideApp.manualEntry" [] ++ nl ++ nl
                  ++ addressLines env pickup destination)
               [ mkButton (t env "alert.cancel" []) (Some "cancel") None;
                 mkButton (t env "alert.openPlayStore" []) None
                          (Some (PressOpenURL (playStoreUrl app))) ] ]).
Proof.
  intros Hnative link Hcan Hopen. apply isWeb_false in Hnative.
  rewrite (native_run env app pickup destination Hnative).
  cbv zeta. fold link. rewrite Hcan, Hopen. reflexivity.
Qed.

Lemma X12_witness :
  calls (snd (openRideApp
                (mkEnv ios Samples.t_key (fun _ => Ok true)
                       (fun _ => Throw LinkingError) (fun _ => Ok tt))
                Samples.uber Samples.pickupRio Samples.destinationRio idle))
  = [ CanOpenURL (createDeepLink ios Samples.uber Samples.pickupRio
                                 Samples.destinationRio);
      OpenURL (createDeepLink ios Samples.uber Samples.pickupRio
                              Samples.destinationRio);
      linkingErrorAlert
        (mkEnv ios Samples.t_key (fun _ => Ok true)
               (fun _ => Throw LinkingError) (fun _ => Ok tt))
        Samples.uber Samples.pickupRio Samples.destinationRio ].
Proof.
  rewrite (X12_failed_open_offers_store
             (mkEnv ios Samples.t_key (fun _ => Ok true)
                    (fun _ => Throw LinkingError) (fun _ => Ok tt))
             Samples.uber Samples.pickupRio Samples.destinationRio
             LinkingError);
    [reflexivity | discriminate | reflexivity | reflexivity].
Defined.

(** ** The links *)

Lemma literal_append_nonempty (c : ascii) (s x : string) :
  String c s ++ x <> "".
Proof. change (String c (s ++ x) <> ""). discriminate. Qed.

(** X13.  The builder returns the empty string for the ids it has no case
    for and for no other id: every provider of the catalogue gets a link
    that is not empty, on every platform and for every route. *)
Theorem X13_link_empty_iff_unknown
        (os : OS) (app : RideAppConfig) (pickup destination : LocationData) :
  createDeepLink os app pickup destination = "" <-> ~ In (id app) knownIds.
Proof.
  split; [|apply createDeepLink_unknown].
  intros Hempty Hknown. revert Hempty.
  unfold createDeepLink. cbv zeta.
  repeat match goal with
         | |- context [String.eqb (id app) ?s] =>
             destruct (String.eqb_spec (id app) s) as [_|?];
             [try (destruct (isWeb os); cbn [negb]);
              first [apply literal_append_nonempty | discriminate]|]
         end.
  intros _. unfold knownIds in Hknown. cbn [In] in Hknown.
  repeat (destruct Hknown as [Hk|Hknown]; [symmetry in Hk; contradiction|]).
  destruct Hknown.
Qed.

Lemma X13_witness :
  createDeepLink android Samples.cabify Samples.pickupRio
                 Samples.destinationRio = ""
  /\ createDeepLink web Samples.taxis99 Samples.pickupRio
                    Samples.destinationRio <> "".
Proof.
  split.
  - apply (X13_link_empty_iff_unknown android Samples.cabify).
    cbn. intros H. repeat (destruct H as [H|H]; [discriminate|]). destruct H.
  - intros Hempty.
    apply (X13_link_empty_iff_unknown web Samples.taxis99) in Hempty.
    apply Hempty. cbn. tauto.
Defined.

(** X14.  For [taxirio] and [indriver] the link is a bare opening of the
    app: it is the same on every platform and for every route, and a
    dispatch that opens it schedules no confirmation of the addresses. *)
Theorem X14_providers_without_prefill
        (env : Env) (app : RideAppConfig) (pickup destination : LocationData) :
  id app = "taxirio" \/ id app = "indriver" ->
  let link := if String.eqb (id app) "taxirio"
              then "br.gov.rj.taxi.rio.passenger://ride"
              else "indriver://open" in
  (forall os p d, createDeepLink os app p d = link)
  /\ (Platform_OS env <> web ->
      Linking_canOpenURL env link = Ok true ->
      Linking_openURL env link = Ok tt ->
      dispatch env app pickup destination = [CanOpenURL link; OpenURL link]).
Proof.
  intros Hid link.
  assert (Hlink : forall os p d, createDeepLink os app p d = link).
  { intros os p d. subst link. unfold createDeepLink.
    destruct Hid as [-> | ->]; reflexivity. }
  split; [exact Hlink|].
  intros Hnative Hcan Hopen. apply isWeb_false in Hnative.
  rewrite (native_dispatch env app pickup destination Hnative).
  cbv zeta. rewrite Hlink, Hcan, Hopen.
  destruct Hid as [-> | ->]; reflexivity.
Qed.

Lemma X14_witness :
  dispatch (Samples.native (Ok true))
           (mkApp "indriver" "inDriver" "" "#1e40af" "sinet.startup.inDriver"
                  (VBool true) "indriver"
                  "market://details?id=sinet.startup.inDriver")
           Samples.pickupRio Samples.destinationRio
  = [CanOpenURL "indriver://open"; OpenURL "indriver://open"].
Proof.
  destruct (X14_providers_without_prefill
              (Samples.native (Ok true))
              (mkApp "indriver" "inDriver" "" "#1e40af"
                     "sinet.startup.inDriver" (VBool true) "indriver"
                     "market://details?id=sinet.startup.inDriver")
              Samples.pickupRio Samples.destinationRio) as [_ Hrun].
  - now right.
  - apply Hrun; [discriminate | reflexivity | reflexivity].
Defined.

(** ** The encoding of an address *)

Lemma chars_append (a b : string) :
  list_ascii_of_string (a ++ b)
  = (list_ascii_of_string a ++ list_ascii_of_string b)%list.
Proof.
  induction a as [|c a IH]; [reflexivity|].
  change (String c a ++ b) with (String c (a ++ b)).
  cbn [list_ascii_of_string]. now rewrite IH.
Qed.

Lemma encoded_char (c : ascii) :
  forallb Shapes.componentChar
          (list_ascii_of_string
             (if uriUnreserved c then String c "" else percentByte c))
  = true.
Proof.
  destruct c as [[] [] [] [] [] [] [] []]; vm_compute; reflexivity.
Qed.

(** X15.  Whatever the address, its encoding is made of unreserved
    characters and percent signs only; none of the characters that
    structure a link ([& = ? # / + : ; , @ [ ]] and the space) occurs in
    it.  An address therefore cannot add a parameter to the link it is
    put in: off the web, the Uber link has exactly two [&], whatever the
    two addresses. *)
Theorem X15_encoded_address_has_no_separator
        (s : string) (os : OS) (app : RideAppConfig)
        (pickup destination : LocationData) :
  forallb Shapes.componentChar (list_ascii_of_string (encodeURIComponent s))
  = true
  /\ Forall (fun c => ~ In c (list_ascii_of_string (encodeURIComponent s)))
            Shapes.separators
  /\ (os <> web -> id app = "uber" ->
      count_occ ascii_dec
                (list_ascii_of_string
                   (createDeepLink os app pickup destination))
                "&"%char
      = 2%nat).
Proof.
  assert (Hsafe : forall x,
             forallb Shapes.componentChar
                     (list_ascii_of_string (encodeURIComponent x)) = true).
  { induction x as [|c x IH]; [reflexivity|].
    cbn [encodeURIComponent]. rewrite chars_append, forallb_app.
    now rewrite encoded_char, IH. }
  assert (Hsep : forall x c,
             In c Shapes.separators ->
             ~ In c (list_ascii_of_string (encodeURIComponent x))).
  { intros x c Hc Hin.
    assert (Hx := Hsafe x). rewrite forallb_forall in Hx.
    specialize (Hx c Hin). cbn in Hc.
    repeat (destruct Hc as [<-|Hc]; [discriminate Hx|]).
    destruct Hc. }
  split; [apply Hsafe|]. split.
  - apply Forall_forall. intros c Hc.
    apply Hsep. now apply list_elem_of_In.
  - intros Hnative Hid. apply isWeb_false in Hnative.
    unfold createDeepLink. rewrite Hid, Hnative.
    cbn [String.eqb Ascii.eqb Bool.eqb negb].
    rewrite !chars_append, !count_occ_app.
    rewrite (proj1 (count_occ_not_In ascii_dec _ _)
                   (Hsep (address pickup) "&"%char
                         ltac:(cbn; tauto))).
    rewrite (proj1 (count_occ_not_In ascii_dec _ _)
                   (Hsep (address destination) "&"%char
                         ltac:(cbn; tauto))).
    reflexivity.
Qed.

(** An address that tries to add a parameter. *)
Lemma X15_witness :
  count_occ ascii_dec
            (list_ascii_of_string
               (createDeepLink android Samples.uber
                               (mkLocation (ofZ 1) (ofZ 1)
                                           "x&dropoff[latitude]=0" None)
                               Samples.destinationRio))
            "&"%char
  = 2%nat.
Proof.
  destruct (X15_encoded_address_has_no_separator
              "" android Samples.uber
              (mkLocation (ofZ 1) (ofZ 1) "x&dropoff[latitude]=0" None)
              Samples.destinationRio) as (_ & _ & Hcount).
  apply Hcount; [discriminate | reflexivity].
Defined.

(** ** The web link of Uber *)

(** X16.  In the browser, the coordinates of the pickup are added to the
    Uber address only when neither of them is [0] (or [NaN]): for a
    pickup on the equator or on the prime meridian the address carries
    the two street addresses, and the coordinates of the destination
    under the same condition, and nothing else. *)
Theorem X16_web_link_drops_zero_coordinates
        (app : RideAppConfig) (pickup destination : LocationData) :
  id app = "uber" ->
  truthyNumber (latitude pickup) && truthyNumber (longitude pickup) = false ->
  createDeepLink web app pickup destination
  = "https://m.uber.com/ul/?action=setPickup&pickup%5Bformatted_address%5D="
      ++ formEncode (address pickup)
      ++ "&dropoff%5Bformatted_address%5D="
      ++ formEncode (address destination)
      ++ (if truthyNumber (latitude destination)
             && truthyNumber (longitude destination)
          then "&dropoff%5Blatitude%5D="
                 ++ formEncode (Number_toString (latitude destination))
                 ++ "&dropoff%5Blongitude%5D="
                 ++ formEncode (Number_toString (longitude destination))
          else "").
Proof.
  intros Hid Hzero. unfold createDeepLink. rewrite Hid, Hzero.
  cbn [String.eqb Ascii.eqb Bool.eqb isWeb negb].
  destruct (truthyNumber (latitude destination)
            && truthyNumber (longitude destination));
    cbv [usp_append List.app usp_toString usp_pair fst snd];
    rewrite ?RuntimeFacts.append_assoc, ?RuntimeFacts.append_nil_r;
    reflexivity.
Qed.

(** The pickup on the equator, at the longitude of Quito. *)
Lemma X16_witness :
  createDeepLink web Samples.uber
                 (mkLocation (ofZ 0) (decimal (-784558) 4)
                             "Mitad del Mundo" None)
                 Samples.destinationRio
  = "https://m.uber.com/ul/?action=setPickup&pickup%5Bformatted_address%5D=Mitad+del+Mundo&dropoff%5Bformatted_address%5D=Rua+do+Catete+214%2C+Rio+de+Janeiro&dropoff%5Blatitude%5D=-22.9249&dropoff%5Blongitude%5D=-43.1777".
Proof.
  rewrite (X16_web_link_drops_zero_coordinates
             Samples.uber
             (mkLocation (ofZ 0) (decimal (-784558) 4) "Mitad del Mundo" None)
             Samples.destinationRio eq_refl eq_refl).
  vm_compute. reflexivity.
Defined.

(** ** The buttons of the home screen *)

(** X17.  A button that is not disabled dispatches: for every index the
    screen renders a button for, when the button is enabled (nothing is
    loading, both addresses have a character that is not white space,
    both places have coordinates), [handleRideAppPress] shows no alert
    and raises no error; it is [openRideApp] on the provider at that
    index, with the addresses, coordinates and place ids of the screen. *)
Theorem X17_enabled_button_dispatches
        (env : Env) (ui : Screen) (loading : bool) (appIndex : nat) :
  HomeScreenButtons.disabled loading ui = false ->
  In appIndex (HomeScreenButtons.buttonIndices ui) ->
  exists app latO lngO latD lngD,
    nth_error (rideApps ui) appIndex = Some app
    /\ pickupCoords ui = Some (latO, lngO)
    /\ destinationCoords ui = Some (latD, lngD)
    /\ handleRideAppPress env ui appIndex idle
       = openRideApp env app
           (mkLocation latO lngO (pickupAddress ui) (pickupPlaceId ui))
           (mkLocation latD lngD (destinationAddress ui)
                       (destinationPlaceId ui))
           idle.
Proof.
  unfold HomeScreenButtons.disabled, HomeScreenButtons.buttonIndices.
  intros Henabled Hindex.
  repeat (apply orb_false_iff in Henabled;
          destruct Henabled as [Henabled ?]).
  apply in_seq in Hindex. destruct Hindex as [_ Hlt]. cbn in Hlt.
  destruct (nth_error (rideApps ui) appIndex) as [app|] eqn:Hnth.
  2:{ apply nth_error_None in Hnth. lia. }
  destruct (pickupCoords ui) as [[latO lngO]|] eqn:Hp; [|discriminate].
  destruct (destinationCoords ui) as [[latD lngD]|] eqn:Hd; [|discriminate].
  exists app, latO, lngO, latD, lngD.
  repeat split.
  unfold handleRideAppPress.
  match goal with
  | H1 : negb (truthyString (trim (pickupAddress ui))) = false,
    H2 : negb (truthyString (trim (destinationAddress ui))) = false |- _ =>
      rewrite H1, H2
  end.
  cbn [orb]. now rewrite Hp, Hd, Hnth.
Qed.

Lemma X17_witness :
  handleRideAppPress (Samples.native (Ok false)) MoreSamples.screenRio 1 idle
  = openRideApp (Samples.native (Ok false)) Samples.taxis99
                Samples.pickupRio Samples.destinationRio idle.
Proof.
  destruct (X17_enabled_button_dispatches
              (Samples.native (Ok false)) MoreSamples.screenRio false 1)
    as (app & latO & lngO & latD & lngD & Hnth & Hp & Hd & Hrun).
  - vm_compute. reflexivity.
  - cbn. tauto.
  - injection Hnth as <-. injection Hp as <- <-. injection Hd as <- <-.
    exact Hrun.
Defined.

End DispatchExtras.

(* ===================================================================== *)
(** * From a favourite to a dispatch                                      *)
(* ===================================================================== *)

Module AutoFillExtras.

Import RideApps HomeScreen.

(** X18.  A favourite place whose latitude or longitude is missing, or is
    [0], reaches the home screen without coordinates: after the screen
    has filled itself from it, every ride-app button is disabled, and
    [handleRideAppPress] shows an alert and makes no platform call. *)
Theorem X18_favourite_without_coordinates_is_gated
        (env : Env) (now : Z) (favorite : Favorites.FavoriteDestination)
        (ui : Screen) (loading : bool) (appIndex : nat) :
  AutoFill.coordinatesOf (Favorites.latitude favorite)
                         (Favorites.longitude favorite) = None ->
  let filled := AutoFill.fill (AutoFill.handleUseFavoritePlace now favorite)
                              ui in
  destinationAddress filled = Favorites.address favorite
  /\ destinationCoords filled = None
  /\ HomeScreenButtons.disabled loading filled = true
  /\ (exists alert,
        handleRideAppPress env filled appIndex idle
        = (Ok tt, mkState false [alert])
        /\ (alert = requiredAddressesAlert env
            \/ alert = coordinatesRequiredAlert env)).
Proof.
  intros Hnone filled. subst filled.
  unfold AutoFill.fill, AutoFill.handleUseFavoritePlace.
  cbn [AutoFill.pickup AutoFill.destination AutoFill.address
       AutoFill.coordinates AutoFill.placeId
       destinationAddress destinationCoords].
  rewrite Hnone.
  split; [reflexivity|]. split; [reflexivity|].
  split.
  - unfold HomeScreenButtons.disabled.
    cbn [destinationCoords negb]. now rewrite !orb_true_r.
  - unfold handleRideAppPress.
    cbn [pickupAddress destinationAddress pickupCoords destinationCoords].
    destruct (negb (truthyString (trim (pickupAddress ui)))
              || negb (truthyString (trim (Favorites.address favorite)))).
    + eexists. split; [reflexivity|now left].
    + destruct (pickupCoords ui) as [[latO lngO]|];
        eexists; (split; [reflexivity|now right]).
Qed.

(** The favourite on the equator, used on a screen whose pickup is set. *)
Lemma X18_witness :
  destinationCoords
    (AutoFill.fill (AutoFill.handleUseFavoritePlace 1700000000500
                                                    MoreSamples.quito)
                   MoreSamples.screenRio)
  = None
  /\ HomeScreenButtons.disabled
       false
       (AutoFill.fill (AutoFill.handleUseFavoritePlace 1700000000500
                                                       MoreSamples.quito)
                      MoreSamples.screenRio)
     = true.
Proof.
  destruct (X18_favourite_without_coordinates_is_gated
              (Samples.native (Ok true)) 1700000000500 MoreSamples.quito
              MoreSamples.screenRio false 0 eq_refl)
    as (_ & Hcoords & Hdisabled & _).
  split; [exact Hcoords | exact Hdisabled].
Defined.

(** X19.  A favourite route whose two ends have coordinates (none of them
    [0]) and addresses that are not blank fills the screen completely:
    the press of the button of a provider is then [openRideApp] on that
    provider with the two ends of the route, addresses, coordinates and
    place ids, whatever the screen held before. *)
Theorem X19_favourite_route_dispatches
        (env : Env) (now : Z) (route : RouteFavorites.FavoriteRoute)
        (ui : Screen) (appIndex : nat) (app : RideAppConfig)
        (latO lngO latD lngD : number) :
  let p := RouteFavorites.pickup route in
  let d := RouteFavorites.destination route in
  AutoFill.coordinatesOf (RouteFavorites.latitude p)
                         (RouteFavorites.longitude p) = Some (latO, lngO) ->
  AutoFill.coordinatesOf (RouteFavorites.latitude d)
                         (RouteFavorites.longitude d) = Some (latD, lngD) ->
  trim (RouteFavorites.address p) <> "" ->
  trim (RouteFavorites.address d) <> "" ->
  nth_error (rideApps ui) appIndex = Some app ->
  let filled := AutoFill.fill (AutoFill.handleUseRoute now route) ui in
  RouteFavorites.latitude p = Some latO
  /\ RouteFavorites.longitude p = Some lngO
  /\ RouteFavorites.latitude d = Some latD
  /\ RouteFavorites.longitude d = Some lngD
  /\ HomeScreenButtons.disabled false filled = false
  /\ handleRideAppPress env filled appIndex idle
     = openRideApp env app
         (mkLocation latO lngO (RouteFavorites.address p)
                     (RouteFavorites.placeId p))
         (mkLocation latD lngD (RouteFavorites.address d)
                     (RouteFavorites.placeId d))
         idle.
Proof.
  intros p d Hp Hd Hpa Hda Hnth filled. subst filled.
  assert (Hcoords : forall lat lng a b,
             AutoFill.coordinatesOf lat lng = Some (a, b) ->
             lat = Some a /\ lng = Some b).
  { intros [x|] [y|] a b; cbn; try discriminate.
    destruct (truthyNumber x && truthyNumber y); [|discriminate].
    now intros [= -> ->]. }
  destruct (Hcoords _ _ _ _ Hp) as [HlatO HlngO].
  destruct (Hcoords _ _ _ _ Hd) as [HlatD HlngD].
  repeat (split; [assumption|]).
  assert (Htruthy : forall s, trim s <> "" ->
                              negb (truthyString (trim s)) = false).
  { intros s Hs. unfold truthyString.
    destruct (String.eqb_spec (trim s) ""); [contradiction|reflexivity]. }
  unfold AutoFill.fill, AutoFill.handleUseRoute, AutoFill.placeOf.
  cbn [AutoFill.pickup AutoFill.destination AutoFill.address
       AutoFill.coordinates AutoFill.placeId
       pickupAddress pickupCoords pickupPlaceId rideApps
       destinationAddress destinationCoords destinationPlaceId].
  fold p d. rewrite Hp, Hd.
  split.
  - unfold HomeScreenButtons.disabled.
    cbn [pickupAddress pickupCoords destinationAddress destinationCoords].
    now rewrite (Htruthy _ Hpa), (Htruthy _ Hda).
  - unfold handleRideAppPress.
    cbn [pickupAddress pickupCoords pickupPlaceId rideApps
         destinationAddress destinationCoords destinationPlaceId].
    now rewrite (Htruthy _ Hpa), (Htruthy _ Hda), Hnth.
Qed.

Lemma X19_witness :
  handleRideAppPress
    (Samples.native (Ok false))
    (AutoFill.fill (AutoFill.handleUseRoute 1700000000500 MoreSamples.commute)
                   (mkScreen "" None None "" None None [Samples.uber]))
    0 idle
  = openRideApp (Samples.native (Ok false)) Samples.uber
                Samples.pickupRio Samples.destinationRio idle.
Proof.
  destruct (X19_favourite_route_dispatches
              (Samples.native (Ok false)) 1700000000500 MoreSamples.commute
              (mkScreen "" None None "" None None [Samples.uber])
              0 Samples.uber
              (decimal (-229068) 4) (decimal (-431729) 4)
              (decimal (-229249) 4) (decimal (-431777) 4))
    as (_ & _ & _ & _ & _ & Hrun).
  - vm_compute. reflexivity.
  - vm_compute. reflexivity.
  - vm_compute. discriminate.
  - vm_compute. discriminate.
  - reflexivity.
  - exact Hrun.
Defined.

End AutoFillExtras.

(* ===================================================================== *)
(** * The saved language: properties                                      *)
(* ===================================================================== *)

Module LanguageExtras.

Import LanguageContext.

Lemma asLanguage_code (l : Language) : asLanguage (code l) = Some l.
Proof. now destruct l. Qed.

Lemma asLanguage_includes (s : string) :
  existsb (String.eqb s) ["en"; "pt"; "es"]
  = match asLanguage s with Some _ => true | None => false end.
Proof.
  unfold asLanguage. cbn [existsb].
  destruct (String.eqb s "en"), (String.eqb s "pt"), (String.eqb s "es");
    reflexivity.
Qed.

Lemma setLanguage_cases (env : Env) (lang : Language) (st : State) :
  setLanguage env lang st
  = if setItem_rejects env
    then (Throw StorageError, mkState lang (isLoading st) (storage st))
    else (Ok tt,
          mkState lang (isLoading st)
                  (<[LANGUAGE_STORAGE_KEY := code lang]> (storage st))).
Proof.
  unfold setLanguage, tryCatch, bind, AsyncStorage_setItem.
  destruct (setItem_rejects env); reflexivity.
Qed.

(** X20.  [setLanguage] changes the language in memory whether the write
    succeeds or not; a rejected write is re-thrown, with the new language
    already in memory and the storage as it was, so that the next load
    brings the stored language back. *)
Theorem X20_setLanguage_changes_memory_either_way
        (env envR : Env) (lang : Language) (st : State) :
  language (snd (setLanguage env lang st)) = lang
  /\ (setItem_rejects env = true ->
      fst (setLanguage env lang st) = Throw StorageError
      /\ storage (snd (setLanguage env lang st)) = storage st
      /\ (getItem_rejects envR = false ->
          storage st !! LANGUAGE_STORAGE_KEY = Some (code (language st)) ->
          language (snd (loadSavedLanguage envR (snd (setLanguage env lang st))))
          = language st)).
Proof.
  rewrite setLanguage_cases.
  split; [now destruct (setItem_rejects env)|].
  intros ->. cbn [fst snd storage language].
  split; [reflexivity|]. split; [reflexivity|].
  intros Hget Hsto.
  unfold loadSavedLanguage, tryFinally, tryCatch, bind, AsyncStorage_getItem.
  rewrite Hget. cbn [gets storage]. rewrite Hsto.
  destruct (language st); reflexivity.
Qed.

Lemma X20_witness :
  language (snd (setLanguage (mkEnv false true) es
                             (mkState pt false
                                      {[ LANGUAGE_STORAGE_KEY := "pt" ]})))
  = es
  /\ language
       (snd (loadSavedLanguage
               (mkEnv false false)
               (snd (setLanguage (mkEnv false true) es
                                 (mkState pt false
                                          {[ LANGUAGE_STORAGE_KEY := "pt" ]})))))
     = pt.
Proof.
  destruct (X20_setLanguage_changes_memory_either_way
              (mkEnv false true) (mkEnv false false) es
              (mkState pt false {[ LANGUAGE_STORAGE_KEY := "pt" ]}))
    as (Hmem & Hfail).
  split; [exact Hmem|].
  destruct (Hfail eq_refl) as (_ & _ & Hreload).
  apply Hreload; [reflexivity | vm_compute; reflexivity].
Defined.

(** What a load makes of the language. *)
Lemma load_language (env : Env) (st : State) :
  loadSavedLanguage env st
  = (Ok tt,
     mkState (if getItem_rejects env then language st
              else match storage st !! LANGUAGE_STORAGE_KEY with
                   | Some s => match asLanguage s with
                               | Some l => l
                               | None => language st
                               end
                   | None => language st
                   end)
             false (storage st)).
Proof.
  destruct st as [l ld sto].
  unfold loadSavedLanguage, tryFinally, tryCatch, bind, AsyncStorage_getItem.
  destruct (getItem_rejects env); [reflexivity|].
  cbn [gets storage language].
  destruct (sto !! LANGUAGE_STORAGE_KEY) as [s|]; [|reflexivity].
  rewrite asLanguage_includes.
  destruct (asLanguage s) as [l'|] eqn:Hs.
  - assert (Htruthy : truthyString s = true).
    { unfold asLanguage in Hs. unfold truthyString.
      destruct (String.eqb_spec s ""); [subst; discriminate|reflexivity]. }
    rewrite Htruthy. reflexivity.
  - rewrite andb_false_r. reflexivity.
Qed.

(** X21.  [loadSavedLanguage] never raises and always clears [isLoading];
    it changes the language only when the stored text is exactly [en],
    [pt] or [es]: on a rejected read, a missing key or any other text
    the language stays what it was. *)
Theorem X21_load_accepts_known_languages_only (env : Env) (st : State) :
  fst (loadSavedLanguage env st) = Ok tt
  /\ isLoading (snd (loadSavedLanguage env st)) = false
  /\ storage (snd (loadSavedLanguage env st)) = storage st
  /\ (getItem_rejects env = true
      \/ storage st !! LANGUAGE_STORAGE_KEY = None
      \/ (exists s, storage st !! LANGUAGE_STORAGE_KEY = Some s
                    /\ s <> "en" /\ s <> "pt" /\ s <> "es") ->
      language (snd (loadSavedLanguage env st)) = language st).
Proof.
  rewrite load_language. cbn [fst snd isLoading storage language].
  repeat (split; [reflexivity|]).
  intros [-> | [Hnone | (s & Hs & Hen & Hpt & Hes)]]; [reflexivity| |].
  - rewrite Hnone. now destruct (getItem_rejects env).
  - rewrite Hs. unfold asLanguage.
    destruct (String.eqb_spec s "en"); [contradiction|].
    destruct (String.eqb_spec s "pt"); [contradiction|].
    destruct (String.eqb_spec s "es"); [contradiction|].
    now destruct (getItem_rejects env).
Qed.

Lemma X21_witness :
  language (snd (loadSavedLanguage (mkEnv false false)
                   (mkState pt true {[ LANGUAGE_STORAGE_KEY := "fr" ]})))
  = pt.
Proof.
  destruct (X21_load_accepts_known_languages_only
              (mkEnv false false)
              (mkState pt true {[ LANGUAGE_STORAGE_KEY := "fr" ]}))
    as (_ & _ & _ & Hkeep).
  apply Hkeep. right. right. exists "fr".
  split; [vm_compute; reflexivity|]. repeat split; discriminate.
Defined.

(** X22.  A language that was set and written is the language after the
    next load, by any provider that shares the storage and whose read
    succeeds, whatever language that provider held. *)
Theorem X22_saved_language_is_loaded
        (env envR : Env) (lang : Language) (st reader : State) :
  setItem_rejects env = false ->
  getItem_rejects envR = false ->
  storage reader = storage (snd (setLanguage env lang st)) ->
  language (snd (loadSavedLanguage envR reader)) = lang.
Proof.
  intros Hset Hget Hshared.
  rewrite setLanguage_cases, Hset in Hshared.
  cbn [snd storage] in Hshared.
  rewrite load_language, Hget, Hshared. cbn [snd language].
  rewrite lookup_insert_eq. now rewrite asLanguage_code.
Qed.

Lemma X22_witness :
  language (snd (loadSavedLanguage
                   (mkEnv false false)
                   (mount (storage (snd (setLanguage (mkEnv false false) es
                                                     (mount ∅)))))))
  = es.
Proof.
  apply (X22_saved_language_is_loaded
           (mkEnv false false) (mkEnv false false) es (mount ∅));
    reflexivity.
Defined.

End LanguageExtras.

(* ===================================================================== *)
(** * Favourite places: properties                                        *)
(* ===================================================================== *)

Module FavoritesExtras.

Import Favorites.
Local Open Scope Z_scope.

(** The state after a successful [saveFavorites]. *)
Lemma saveFavorites_resolves (env : Env) (favs : list FavoriteDestination)
      (st : State) :
  setItem_rejects env = false ->
  saveFavorites env favs st
  = (Ok tt,
     mkState favs (loading st)
             (<[FAVORITES_KEY := JSON_stringify env favs]> (storage st))
             (events st ++ [SetItem FAVORITES_KEY (JSON_stringify env favs)])).
Proof.
  intros Hset. destruct st as [f ld sto evs].
  unfold saveFavorites, tryCatch, bind, AsyncStorage_setItem.
  now rewrite Hset.
Qed.

Lemma saveFavorites_rejects (env : Env) (favs : list FavoriteDestination)
      (st : State) :
  setItem_rejects env = true ->
  saveFavorites env favs st = (Throw StorageError, st).
Proof.
  intros Hset. unfold saveFavorites, tryCatch, bind, AsyncStorage_setItem.
  now rewrite Hset.
Qed.

Lemma remove_resolves (env : Env) (id_ : string) (st : State) :
  setItem_rejects env = false ->
  favorites (snd (removeFavorite env id_ st))
  = List.filter (fun fav => negb (String.eqb (id fav) id_)) (favorites st).
Proof.
  intros Hset. unfold removeFavorite, tryCatch, bind, gets.
  now rewrite saveFavorites_resolves.
Qed.

Lemma filter_twice {A} (P : A -> bool) (l : list A) :
  List.filter P (List.filter P l) = List.filter P l.
Proof.
  induction l as [|x l IH]; [reflexivity|].
  cbn. destruct (P x) eqn:HP; cbn; [rewrite HP|]; now rewrite IH.
Qed.

Lemma filter_all {A} (P : A -> bool) (l : list A) :
  Forall (fun x => P x = true) l -> List.filter P l = l.
Proof.
  induction 1 as [|x l Hx _ IH]; [reflexivity|].
  cbn. now rewrite Hx, IH.
Qed.

(** X23.  [removeFavorite] whose write succeeds removes exactly the
    favourites with that id: a favourite is in the list afterwards when
    it was in it and has another id; those that stay keep their order;
    and removing the same id again changes nothing more.  When the write
    is rejected, the call raises and the list is the one before. *)
Theorem X23_remove_removes_exactly
        (env env' : Env) (id_ : string) (st : State) :
  (setItem_rejects env = true ->
   removeFavorite env id_ st = (Throw StorageError, st))
  /\ (setItem_rejects env = false ->
      fst (removeFavorite env id_ st) = Ok tt
      /\ (forall fav,
             In fav (favorites (snd (removeFavorite env id_ st)))
             <-> In fav (favorites st) /\ id fav <> id_)
      /\ sublist (favorites (snd (removeFavorite env id_ st))) (favorites st)
      /\ (setItem_rejects env' = false ->
          favorites (snd (removeFavorite env' id_
                                         (snd (removeFavorite env id_ st))))
          = favorites (snd (removeFavorite env id_ st)))).
Proof.
  split.
  - intros Hset. unfold removeFavorite, tryCatch, bind, gets.
    now rewrite saveFavorites_rejects.
  - intros Hset. rewrite (remove_resolves env id_ st Hset).
    split.
    { unfold removeFavorite, tryCatch, bind, gets.
      now rewrite saveFavorites_resolves. }
    split.
    { intros fav. rewrite filter_In, negb_true_iff.
      split; intros [Hin Hne]; (split; [exact Hin|]).
      - intros Heq. apply String.eqb_neq in Hne. contradiction.
      - now apply String.eqb_neq. }
    split; [apply RegistryFacts.filter_sublist|].
    intros Hset'. rewrite (remove_resolves env' id_ _ Hset').
    rewrite (remove_resolves env id_ st Hset). apply filter_twice.
Qed.

Lemma X23_witness :
  favorites
    (snd (removeFavorite
            (MoreSamples.favoritesEnv 1700000000500 false false)
            "1700000000000"
            (mkState [MoreSamples.home; MoreSamples.quito] false ∅ [])))
  = [MoreSamples.home].
Proof.
  destruct (X23_remove_removes_exactly
              (MoreSamples.favoritesEnv 1700000000500 false false)
              (MoreSamples.favoritesEnv 1700000000500 false false)
              "1700000000000"
              (mkState [MoreSamples.home; MoreSamples.quito] false ∅ []))
    as (_ & Hok).
  destruct (Hok eq_refl) as (_ & _ & _ & Hagain).
  rewrite <- (Hagain eq_refl). vm_compute. reflexivity.
Defined.

(** X24.  [addFavorite] whose write succeeds puts the new favourite in
    front, with the clock reading in decimal as its id.  Removing that id
    afterwards removes the new favourite together with every favourite
    that already had that id (one added within the same millisecond); it
    gives back the list there was exactly when no favourite had it. *)
Theorem X24_add_then_remove
        (env env' : Env) (name_ address_ : string)
        (coordinates : option (number * number)) (placeId_ : option string)
        (st : State) :
  setItem_rejects env = false -> setItem_rejects env' = false ->
  let added := newFavorite env name_ address_ coordinates placeId_ in
  let st1 := snd (addFavorite env name_ address_ coordinates placeId_ st) in
  let st2 := snd (removeFavorite env' (id added) st1) in
  favorites st1 = added :: favorites st
  /\ id added = Number_toString (ofZ (Date_now env))
  /\ favorites st2
     = List.filter (fun fav => negb (String.eqb (id fav) (id added)))
                   (favorites st)
  /\ (Forall (fun fav => id fav <> id added) (favorites st) ->
      favorites st2 = favorites st).
Proof.
  intros Hset Hset' added st1 st2.
  assert (H1 : favorites st1 = added :: favorites st).
  { subst st1. unfold addFavorite, tryCatch, bind, gets.
    now rewrite saveFavorites_resolves. }
  assert (H2 : favorites st2
               = List.filter (fun fav => negb (String.eqb (id fav) (id added)))
                             (favorites st)).
  { subst st2. rewrite (remove_resolves env' _ st1 Hset'), H1.
    cbn [List.filter]. now rewrite String.eqb_refl. }
  split; [exact H1|]. split; [reflexivity|]. split; [exact H2|].
  intros Hfresh. rewrite H2. apply filter_all.
  apply Forall_forall. intros fav Hin.
  rewrite Forall_forall in Hfresh. apply negb_true_iff.
  now apply String.eqb_neq, Hfresh.
Qed.

Lemma X24_witness :
  favorites
    (snd (addFavorite (MoreSamples.favoritesEnv 1700000000000 false false)
                      "Mitad" "Quito" None None
                      (mkState [MoreSamples.home; MoreSamples.quito]
                               false ∅ [])))
  = [ mkFavorite "1700000000000" "Mitad" "Quito" None None None
                 1700000000000;
      MoreSamples.home; MoreSamples.quito ]
  /\ favorites
       (snd (removeFavorite
               (MoreSamples.favoritesEnv 1700000000900 false false)
               "1700000000000"
               (snd (addFavorite
                       (MoreSamples.favoritesEnv 1700000000000 false false)
                       "Mitad" "Quito" None None
                       (mkState [MoreSamples.home; MoreSamples.quito]
                                false ∅ [])))))
     = [MoreSamples.home].
Proof.
  destruct (X24_add_then_remove
              (MoreSamples.favoritesEnv 1700000000000 false false)
              (MoreSamples.favoritesEnv 1700000000900 false false)
              "Mitad" "Quito" None None
              (mkState [MoreSamples.home; MoreSamples.quito] false ∅ [])
              eq_refl eq_refl) as (Hadd & _ & Hremove & _).
  split.
  - rewrite Hadd. vm_compute. reflexivity.
  - etransitivity; [|vm_compute; reflexivity].
    etransitivity; [|exact Hremove]. vm_compute. reflexivity.
Defined.

(** X25.  [updateFavorite] whose write succeeds keeps the number and the
    order of the favourites; a favourite with another id is unchanged,
    one with that id takes the properties of the patch and keeps the
    others.  With an id that no favourite has, or with an empty patch,
    the list is unchanged, and it is written all the same. *)
Theorem X25_update_touches_matching_only
        (env : Env) (id_ : string) (updates : Updates) (st : State) :
  setItem_rejects env = false ->
  let st' := snd (updateFavorite env id_ updates st) in
  fst (updateFavorite env id_ updates st) = Ok tt
  /\ Forall2 (fun old new =>
                new = if String.eqb (id old) id_ then spread old updates
                      else old)
             (favorites st) (favorites st')
  /\ (Forall (fun fav => id fav <> id_) (favorites st)
      \/ updates = mkUpdates None None None None None None None ->
      favorites st' = favorites st)
  /\ events st'
     = (events st
          ++ [SetItem FAVORITES_KEY (JSON_stringify env (favorites st'))])%list.
Proof.
  intros Hset st'. subst st'.
  unfold updateFavorite, tryCatch, bind, gets.
  rewrite saveFavorites_resolves by assumption. cbn [fst snd favorites events].
  split; [reflexivity|]. split.
  { induction (favorites st) as [|fav favs IH]; cbn [map]; constructor;
      [reflexivity|exact IH]. }
  split; [|reflexivity].
  intros [Hunknown | ->].
  - induction Hunknown as [|fav favs Hne _ IH]; [reflexivity|].
    cbn [map]. rewrite IH.
    destruct (String.eqb_spec (id fav) id_); [contradiction|reflexivity].
  - induction (favorites st) as [|fav favs IH]; [reflexivity|].
    cbn [map]. rewrite IH.
    destruct (String.eqb (id fav) id_); [|reflexivity].
    now destruct fav.
Qed.

(** A patch for an id that no favourite has. *)
Lemma X25_witness :
  favorites
    (snd (updateFavorite
            (MoreSamples.favoritesEnv 1700000000900 false false)
            "1600000000000"
            (mkUpdates None (Some "Equador") None None None None None)
            (mkState [MoreSamples.home; MoreSamples.quito] false ∅ [])))
  = [MoreSamples.home; MoreSamples.quito].
Proof.
  destruct (X25_update_touches_matching_only
              (MoreSamples.favoritesEnv 1700000000900 false false)
              "1600000000000"
              (mkUpdates None (Some "Equador") None None None None None)
              (mkState [MoreSamples.home; MoreSamples.quito] false ∅ [])
              eq_refl) as (_ & _ & Hsame & _).
  apply Hsame. left. repeat constructor; discriminate.
Defined.

(** X26.  [loadFavorites] never raises and always clears [loading].  It
    publishes the stored list when the read succeeds, the text is not
    empty and its revival returns; in every other case (rejected read,
    missing key, empty text, text that does not parse) the favourites in
    memory stay what they were. *)
Theorem X26_loadFavorites_keeps_list_on_failure (env : Env) (st : State) :
  fst (loadFavorites env st) = Ok tt
  /\ loading (snd (loadFavorites env st)) = false
  /\ storage (snd (loadFavorites env st)) = storage st
  /\ favorites (snd (loadFavorites env st))
     = if getItem_rejects env then favorites st
       else match storage st !! FAVORITES_KEY with
            | Some text =>
                if String.eqb text "" then favorites st
                else match revive env text with
                     | Ok favs => favs
                     | Throw _ => favorites st
                     end
            | None => favorites st
            end.
Proof.
  destruct st as [f ld sto evs].
  unfold loadFavorites, tryFinally, tryCatch, bind, AsyncStorage_getItem,
    settle, truthyString.
  destruct (getItem_rejects env); cbn; [repeat split; reflexivity|].
  destruct (sto !! FAVORITES_KEY) as [text|]; cbn;
    [|repeat split; reflexivity].
  destruct (String.eqb text ""); cbn; [repeat split; reflexivity|].
  destruct (revive env text); cbn; repeat split; reflexivity.
Qed.

End FavoritesExtras.

(* ===================================================================== *)
(** * Favourite routes: properties                                        *)
(* ===================================================================== *)

Module RouteFavoritesExtras.

Import RouteFavorites.
Local Open Scope Z_scope.

Lemma forEach_notify_routes (ls : list nat) (st : State) :
  forEach (fun l => record (Notified l)) ls st
  = (Ok tt,
     mkState (routeFavorites st) (loading st) (storage st) (listeners st)
             (events st ++ map Notified ls)).
Proof.
  revert st. induction ls as [|l ls IH]; intros [rts ld sto lst evs].
  - cbn. now rewrite app_nil_r.
  - cbn [forEach]. unfold bind at 1. cbn. rewrite IH.
    cbn. now rewrite <- app_assoc.
Qed.

Lemma saveRoutes_resolves (env : Env) (routes : list FavoriteRoute) (st : State) :
  setItem_rejects env = false ->
  saveRouteFavorites env routes st
  = (Ok tt,
     mkState routes (loading st)
             (<[ROUTE_FAVORITES_KEY := JSON_stringify env routes]> (storage st))
             (listeners st)
             (events st
                ++ SetItem ROUTE_FAVORITES_KEY (JSON_stringify env routes)
                :: map Notified (listeners st))).
Proof.
  intros Hset. destruct st as [rts ld sto lst evs].
  unfold saveRouteFavorites, tryCatch, bind, AsyncStorage_setItem, emit, gets.
  rewrite Hset. cbn -[forEach]. rewrite forEach_notify_routes. cbn.
  now rewrite <- app_assoc.
Qed.

Lemma saveRoutes_rejects (env : Env) (routes : list FavoriteRoute) (st : State) :
  setItem_rejects env = true ->
  saveRouteFavorites env routes st = (Throw StorageError, st).
Proof.
  intros Hset.
  unfold saveRouteFavorites, tryCatch, bind, AsyncStorage_setItem.
  now rewrite Hset.
Qed.

(** X27.  [loadRouteFavorites] never raises and always clears [loading];
    unlike the loads of the registry and of the favourite places, it
    empties the list in memory whenever it has nothing to publish: on a
    rejected read, a missing key, an empty text and a text that does not
    parse, the routes in memory are gone, and the storage is untouched. *)
Theorem X27_loadRouteFavorites_empties_on_failure
        (env : Env) (st : State) :
  fst (loadRouteFavorites env st) = Ok tt
  /\ loading (snd (loadRouteFavorites env st)) = false
  /\ storage (snd (loadRouteFavorites env st)) = storage st
  /\ routeFavorites (snd (loadRouteFavorites env st))
     = if getItem_rejects env then []
       else match storage st !! ROUTE_FAVORITES_KEY with
            | Some text =>
                if String.eqb text "" then []
                else match revive env text with
                     | Ok routes => routes
                     | Throw _ => []
                     end
            | None => []
            end.
Proof.
  destruct st as [rts ld sto lst evs].
  unfold loadRouteFavorites, tryFinally, tryCatch, bind,
    AsyncStorage_getItem, settle, truthyString.
  destruct (getItem_rejects env); cbn; [repeat split; reflexivity|].
  destruct (sto !! ROUTE_FAVORITES_KEY) as [text|]; cbn;
    [|repeat split; reflexivity].
  destruct (String.eqb text ""); cbn; [repeat split; reflexivity|].
  destruct (revive env text); cbn; repeat split; reflexivity.
Qed.

(** X28.  [addRouteFavorite] returns the route it built, whose id is the
    clock reading in decimal, after it has written the list with that
    route in front, published it and called every listener; when the
    write is rejected it raises, and nothing has changed. *)
Theorem X28_addRouteFavorite_returns_the_route
        (env : Env) (name_ : string) (pickup_ destination_ : Endpoint)
        (st : State) :
  let added := newRouteFavorite env name_ pickup_ destination_ in
  addRouteFavorite env name_ pickup_ destination_ st
  = if setItem_rejects env
    then (Throw StorageError, st)
    else (Ok added,
          mkState (added :: routeFavorites st) (loading st)
                  (<[ROUTE_FAVORITES_KEY :=
                       JSON_stringify env (added :: routeFavorites st)]>
                     (storage st))
                  (listeners st)
                  (events st
                     ++ SetItem ROUTE_FAVORITES_KEY
                                (JSON_stringify env (added :: routeFavorites st))
                     :: map Notified (listeners st))).
Proof.
  intros added. subst added.
  unfold addRouteFavorite, tryCatch, bind, gets.
  destruct (setItem_rejects env) eqn:Hset.
  - now rewrite saveRoutes_rejects.
  - now rewrite saveRoutes_resolves.
Qed.

(** X29.  [removeRouteFavorite] and [updateRouteFavorite] keep the routes
    with another id as they are and in their order: a removal leaves
    exactly the routes with another id, an update keeps the number of
    routes; both call every listener after the write, and a rejected
    write leaves everything as it was. *)
Theorem X29_route_removal_and_update
        (env : Env) (id_ : string) (updates : Updates) (st : State) :
  let kept := List.filter (fun route => negb (String.eqb (id route) id_))
                          (routeFavorites st) in
  let patched := map (fun route => if String.eqb (id route) id_
                                   then spread route updates else route)
                     (routeFavorites st) in
  (if setItem_rejects env
   then removeRouteFavorite env id_ st = (Throw StorageError, st)
        /\ updateRouteFavorite env id_ updates st = (Throw StorageError, st)
   else routeFavorites (snd (removeRouteFavorite env id_ st)) = kept
        /\ routeFavorites (snd (updateRouteFavorite env id_ updates st))
           = patched
        /\ events (snd (removeRouteFavorite env id_ st))
           = (events st
                ++ SetItem ROUTE_FAVORITES_KEY (JSON_stringify env kept)
                :: map Notified (listeners st))%list
        /\ events (snd (updateRouteFavorite env id_ updates st))
           = (events st
                ++ SetItem ROUTE_FAVORITES_KEY (JSON_stringify env patched)
                :: map Notified (listeners st))%list)
  /\ sublist kept (routeFavorites st)
  /\ length patched = length (routeFavorites st)
  /\ List.filter (fun route => negb (String.eqb (id route) id_)) kept = kept.
Proof.
  intros kept patched. split.
  - unfold removeRouteFavorite, updateRouteFavorite, tryCatch, bind, gets.
    destruct (setItem_rejects env) eqn:Hset.
    + now rewrite !saveRoutes_rejects.
    + rewrite !saveRoutes_resolves by assumption. cbn. auto.
  - split; [apply RegistryFacts.filter_sublist|].
    split; [apply length_map|]. apply FavoritesExtras.filter_twice.
Qed.

End RouteFavoritesExtras.
